(** * DataLens: the data-quality scoring core, embedded and verified

    A shallow embedding of [ingestion.py], [dimensions.py], [scoring.py],
    [roles.py] and of the pipeline of [dashboard.py], followed by the
    properties of the specification that are about them.

    Conventions of the embedding:
    - a Python [float] is a rational ([Q]): arithmetic is exact, so the
      theorems speak about the formulas of the code and not about binary
      rounding; Python's [round(x, 2)] is [round2] (half to even);
    - a Python [int] is a [Z];
    - a Python [dict] with string keys is an insertion-ordered association
      list ([dict V]); lookups return the first binding of a key;
    - an instant (pandas [Timestamp], [datetime]) is a [Z], the number of
      nanoseconds since the epoch; whether the instants of a converted
      column carry a time zone is a flag of the column; every reading of
      the clock ([datetime.now()], and the conversion of cells such as
      [now] by pandas) is an explicit argument;
    - a raised exception is the [Raise] case of [result];
    - what the code calls in pandas and in the Python runtime and this
      file does not define is a field of the classes [Pandas] and
      [Builtins]. *)

From Stdlib Require Import QArith Qround Qminmax Qabs Lqa.
From Stdlib Require Import ZArith List String Ascii Lia Bool Permutation.
From Stdlib Require Import DecimalString.
Import ListNotations.

Open Scope Q_scope.

(* ================================================================= *)
(** ** Python values: dictionaries, exceptions, strings, rounding *)

Module Py.

Definition dict (V : Type) : Type := list (string * V).

Section Dict.
Context {V : Type}.

(** [d.get(k)] *)
Fixpoint get (d : dict V) (k : string) : option V :=
  match d with
  | [] => None
  | (k', v) :: d' => if String.eqb k' k then Some v else get d' k
  end.

(** [d.get(k, dflt)] *)
Definition get_default (d : dict V) (k : string) (dflt : V) : V :=
  match get d k with
  | Some v => v
  | None => dflt
  end.

(** [k in d] *)
Definition mem (d : dict V) (k : string) : bool :=
  match get d k with
  | Some _ => true
  | None => false
  end.

(** [d[k] = v]: an existing key keeps its position, a new key is
    appended. *)
Fixpoint set (d : dict V) (k : string) (v : V) : dict V :=
  match d with
  | [] => [(k, v)]
  | (k', v') :: d' =>
      if String.eqb k' k then (k', v) :: d' else (k', v') :: set d' k v
  end.

Definition keys (d : dict V) : list string := map fst d.
Definition values (d : dict V) : list V := map snd d.

End Dict.

(** Exceptions the core raises.  A [ValueError] carries the reason in
    place of the formatted message:
    - [UnsupportedFormat]: "Only CSV format is supported in this version."
    - [LoadFailed]: "Failed to load CSV: ..."
    - [EmptyDataset]: "Dataset is empty."
    - [WeightsNotNormalized s]: "Weights must sum to 1.0. Current sum: s" *)
Inductive value_error : Type :=
| UnsupportedFormat
| LoadFailed
| EmptyDataset
| WeightsNotNormalized (current_sum : Q).

Inductive exn : Type :=
| ValueError (why : value_error)
| KeyError (key : string)
| TypeError
| ZeroDivisionError.

Inductive result (A : Type) : Type :=
| Ok (a : A)
| Raise (e : exn).
Arguments Ok {A} a.
Arguments Raise {A} e.

Definition bind {A B} (r : result A) (k : A -> result B) : result B :=
  match r with
  | Ok a => k a
  | Raise e => Raise e
  end.

(** [d[k]]: a missing key raises [KeyError]. *)
Definition getitem {V} (d : list (string * V)) (k : string) : result V :=
  match get d k with
  | Some v => Ok v
  | None => Raise (KeyError k)
  end.

(** [sum(xs)] over floats and over ints: a left fold from 0. *)
Definition sum (xs : list Q) : Q := fold_left Qplus xs 0.
Definition sumZ (xs : list Z) : Z := fold_left Z.add xs 0%Z.

(** [len(xs)] as a float operand. *)
Definition len {A} (xs : list A) : Q := inject_Z (Z.of_nat (List.length xs)).

(** Round half to even, to an integer. *)
Definition round_half_even (q : Q) : Z :=
  let f := Qfloor q in
  let r := q - inject_Z f in
  match Qcompare r (1 # 2) with
  | Lt => f
  | Gt => (f + 1)%Z
  | Eq => if Z.even f then f else (f + 1)%Z
  end.

(** [round(q, 2)] *)
Definition round2 (q : Q) : Q :=
  inject_Z (round_half_even (q * 100)) / 100.

(** [s.lower()] on ASCII letters. *)
Definition lower_ascii (c : ascii) : ascii :=
  let n := nat_of_ascii c in
  if (65 <=? n)%nat && (n <=? 90)%nat then ascii_of_nat (n + 32) else c.

Definition upper_ascii (c : ascii) : ascii :=
  let n := nat_of_ascii c in
  if (97 <=? n)%nat && (n <=? 122)%nat then ascii_of_nat (n - 32) else c.

Definition is_letter (c : ascii) : bool :=
  let n := nat_of_ascii c in
  ((65 <=? n)%nat && (n <=? 90)%nat) || ((97 <=? n)%nat && (n <=? 122)%nat).

Fixpoint lower (s : string) : string :=
  match s with
  | EmptyString => EmptyString
  | String c s' => String (lower_ascii c) (lower s')
  end.

(** [s.title()] on ASCII letters: the first letter of every run of
    letters in upper case, the others in lower case. *)
Fixpoint title_from (after_letter : bool) (s : string) : string :=
  match s with
  | EmptyString => EmptyString
  | String c s' =>
      String (if after_letter then lower_ascii c else upper_ascii c)
             (title_from (is_letter c) s')
  end.

Definition title (s : string) : string := title_from false s.

(** [sub in s] *)
Fixpoint contains (sub s : string) : bool :=
  String.prefix sub s ||
  match s with
  | EmptyString => false
  | String _ s' => contains sub s'
  end.

(** [s.endswith(suffix)] *)
Fixpoint endswith (s suffix : string) : bool :=
  String.eqb s suffix ||
  match s with
  | EmptyString => false
  | String _ s' => endswith s' suffix
  end.

(** [sep.join(parts)] *)
Fixpoint join (sep : string) (parts : list string) : string :=
  match parts with
  | [] => EmptyString
  | [p] => p
  | p :: ps => (p ++ sep ++ join sep ps)%string
  end.

(** [str(n)] for an int. *)
Definition str_int (n : Z) : string := NilEmpty.string_of_int (Z.to_int n).

Definition str_bool (b : bool) : string :=
  if b then "True"%string else "False"%string.

(** The arguments Python lets a caller pass for an untyped parameter such
    as [metadata: Any = None]: [None], or an object with its truth value
    and, when it has one, its [signals] attribute. *)
Inductive arg : Type :=
| PyNone
| PyObject (truthy : bool) (signals_attr : option (dict bool)).

End Py.

Import Py.

Notation "x <- r ;; k" := (Py.bind r (fun x => k))
  (at level 61, r at next level, right associativity).

(** Comparisons of floats as tests. *)
Definition Qleb (x y : Q) : bool := Qle_bool x y.
Definition Qltb (x y : Q) : bool := negb (Qle_bool y x).

(** Built-ins of the Python runtime the core calls and this development
    does not define: [repr] of a string, the SHA-256 hex digest of a
    string, and the formatting of a number with ['.1f'] and with [str]. *)
Class Builtins : Type := {
  repr_str : string -> string;
  sha256_hexdigest : string -> string;
  format_1f : Q -> string;
  str_number : Q -> string
}.

(** [repr] of a list of strings and of a dict with string keys. *)
Definition repr_list `{Builtins} (xs : list string) : string :=
  ("[" ++ join ", " (map repr_str xs) ++ "]")%string.

Definition repr_dict `{Builtins} {V} (repr_value : V -> string) (d : dict V)
  : string :=
  ("{" ++ join ", "
            (map (fun kv => repr_str (fst kv) ++ ": " ++ repr_value (snd kv)) d)
       ++ "}")%string.

(* ================================================================= *)
(** ** ingestion.py *)

Module Ingestion.

(** The values of [semantic_hints]. *)
Inductive SemanticHint : Type := ID | MONEY | TIMESTAMP | CATEGORY | UNKNOWN.

Definition hint_eqb (a b : SemanticHint) : bool :=
  match a, b with
  | ID, ID | MONEY, MONEY | TIMESTAMP, TIMESTAMP
  | CATEGORY, CATEGORY | UNKNOWN, UNKNOWN => true
  | _, _ => false
  end.

(** An entry of [timestamp_metrics]: [min_time], [max_time] and
    [range_seconds].  [tz_aware] tells whether [max_time] carries a time
    zone ([max_time.tzinfo is not None]); the two instants of an extracted
    entry come from one converted column, so what holds of [max_time]
    holds of [min_time]. *)
Record TimestampMetrics : Type := {
  min_time : Z;
  max_time : Z;
  range_seconds : Q;
  tz_aware : bool
}.

(** [class DatasetMetadata] *)
Record DatasetMetadata : Type := {
  column_names : list string;
  data_types : dict string;
  row_count : Z;
  null_counts : dict Z;
  unique_counts : dict Z;
  numeric_stats : dict (dict Q);
  timestamp_metrics : dict TimestampMetrics;
  semantic_hints : dict SemanticHint;
  signals : dict bool;
  audit_hash : string
}.

(** *** The table handed to the extractor

    A pandas [DataFrame] as the extractor sees it: named columns, each with
    a dtype and its cells, and the length of the index.  The dtypes are
    those [read_csv] infers for integer, floating, boolean and other
    columns, and the datetime dtype.  The column names of the tables of
    the specification are distinct ([unique_names] below), and each column
    has one cell per row ([rectangular]). *)
Inductive Dtype : Type := Int64 | Float64 | Bool | Object | Datetime64.

(** [str(dtype)] *)
Definition dtype_str (t : Dtype) : string :=
  match t with
  | Int64 => "int64"
  | Float64 => "float64"
  | Bool => "bool"
  | Object => "object"
  | Datetime64 => "datetime64[ns]"
  end.

(** [pd.api.types.is_numeric_dtype]: pandas counts the boolean dtype
    among the numeric ones. *)
Definition is_numeric_dtype (t : Dtype) : bool :=
  match t with
  | Int64 | Float64 | Bool => true
  | Object | Datetime64 => false
  end.

(** [pd.api.types.is_datetime64_any_dtype] *)
Definition is_datetime64_any_dtype (t : Dtype) : bool :=
  match t with
  | Datetime64 => true
  | _ => false
  end.

(** A cell: missing ([NaN], [None], [NaT]), a number, a truth value, a
    string or an instant. *)
Inductive Cell : Type :=
| Null
| Num (x : Q)
| Boolean (b : bool)
| Text (s : string)
| Instant (t : Z).

Record Column : Type := {
  col_name : string;
  col_dtype : Dtype;
  col_cells : list Cell
}.

Record DataFrame : Type := {
  df_columns : list Column;
  df_len : nat
}.

(** A rectangular table: every column has one cell per row. *)
Definition rectangular (df : DataFrame) : Prop :=
  Forall (fun c => List.length (col_cells c) = df_len df) (df_columns df).

(** [df.empty]: some axis has length 0. *)
Definition df_empty (df : DataFrame) : bool :=
  (df_len df =? 0)%nat || (List.length (df_columns df) =? 0)%nat.

(** A column converted by [pd.to_datetime]: an instant or [NaT] ([None])
    per cell, and whether the converted column is time-zone aware (as for
    cells such as [2024-01-01T00:00:00Z]). *)
Record DatetimeSeries : Type := {
  dt_values : list (option Z);
  dt_tz_aware : bool
}.

(** The pandas entry points the module calls and this development does not
    define: [pd.read_csv] ([None] when it raises) and
    [pd.to_datetime(series, errors='coerce')].  The conversion reads the
    clock (a cell [now] or [today] converts to the current time), so it
    takes the reading of the clock; it returns one value per cell.  A call
    that raises, or whose values cannot be compared with each other, is
    caught by the extractor and leaves no metrics, like a column in which
    nothing converts. *)
Class Pandas : Type := {
  read_csv : string -> option DataFrame;
  to_datetime : Z -> list Cell -> DatetimeSeries;
  to_datetime_length :
    forall now cells,
      List.length (dt_values (to_datetime now cells)) = List.length cells
}.

(** [load_dataset] *)
Definition load_dataset `{Pandas} (source : string) : result DataFrame :=
  if negb (endswith source ".csv") then Raise (ValueError UnsupportedFormat)
  else
    match read_csv source with
    | None => Raise (ValueError LoadFailed)
    | Some df =>
        if df_empty df then Raise (ValueError EmptyDataset) else Ok df
    end.

(** [_infer_semantic_hint] *)
Definition _infer_semantic_hint (col_name : string) (dtype : string)
  : SemanticHint :=
  let col_lower := lower col_name in
  if contains "id" col_lower || contains "code" col_lower
     || contains "number" col_lower then ID
  else if contains "amount" col_lower || contains "price" col_lower
          || contains "balance" col_lower || contains "fee" col_lower then MONEY
  else if contains "date" col_lower || contains "time" col_lower
          || contains "created" col_lower then TIMESTAMP
  else if contains "status" col_lower || contains "state" col_lower
          || contains "type" col_lower then CATEGORY
  else UNKNOWN.

(** [series.isnull().sum()] *)
Definition is_null (c : Cell) : bool :=
  match c with
  | Null => true
  | _ => false
  end.

Definition count_nulls (cells : list Cell) : Z :=
  Z.of_nat (List.length (filter is_null cells)).

(** [series.nunique()]: the number of distinct values that are not
    missing. *)
Definition truth_value (b : bool) : Q := if b then 1 else 0.

Definition cell_eqb (a b : Cell) : bool :=
  match a, b with
  | Null, Null => true
  | Num x, Num y => Qeq_bool x y
  | Boolean x, Boolean y => Bool.eqb x y
  | Boolean x, Num y | Num y, Boolean x => Qeq_bool (truth_value x) y
  | Text s, Text t => String.eqb s t
  | Instant s, Instant t => Z.eqb s t
  | _, _ => false
  end.

Fixpoint distinct (seen : list Cell) (cells : list Cell) : list Cell :=
  match cells with
  | [] => seen
  | c :: cells' =>
      if is_null c || existsb (cell_eqb c) seen then distinct seen cells'
      else distinct (seen ++ [c]) cells'
  end.

Definition nunique (cells : list Cell) : Z :=
  Z.of_nat (List.length (distinct [] cells)).

(** [min], [max] and [mean] of the numbers of a column, [None] (a NaN)
    when it has none. *)
Definition numbers (cells : list Cell) : list Q :=
  flat_map (fun c => match c with Num x => [x] | _ => [] end) cells.

Definition describe_min (cells : list Cell) : option Q :=
  match numbers cells with
  | [] => None
  | x :: xs => Some (fold_left Qmin xs x)
  end.

Definition describe_max (cells : list Cell) : option Q :=
  match numbers cells with
  | [] => None
  | x :: xs => Some (fold_left Qmax xs x)
  end.

Definition describe_mean (cells : list Cell) : option Q :=
  match numbers cells with
  | [] => None
  | xs => Some (Py.sum xs / len xs)
  end.

(** [series.describe()], the entries the extractor reads: [min], [max]
    and [mean] for a column of integers or of floats.  The description of
    a boolean column, like that of a column of objects, has the entries
    [count], [unique], [top] and [freq], and none of the three. *)
Definition describe (c : Column) : dict (option Q) :=
  match col_dtype c with
  | Int64 | Float64 =>
      [("min"%string, describe_min (col_cells c));
       ("max"%string, describe_max (col_cells c));
       ("mean"%string, describe_mean (col_cells c))]
  | Bool | Object | Datetime64 => []
  end.

(** [float(x) if not pd.isna(x) else 0.0] *)
Definition nan_to_zero (x : option Q) : Q :=
  match x with
  | Some v => v
  | None => 0
  end.

(** [ts_series.dropna()] and the extremes of what is left. *)
Definition dropna (ts : list (option Z)) : list Z :=
  flat_map (fun t => match t with Some v => [v] | None => [] end) ts.

Definition nanoseconds_per_second : Z := 1000000000.

(** The entry of [timestamp_metrics] for the instants [valid_ts] of a
    converted column, [None] when [valid_ts.empty]. *)
Definition metrics_of (aware : bool) (valid_ts : list Z)
  : option TimestampMetrics :=
  match valid_ts with
  | [] => None
  | t :: ts =>
      let lo := fold_left Z.min ts t in
      let hi := fold_left Z.max ts t in
      Some {| min_time := lo;
              max_time := hi;
              range_seconds :=
                inject_Z (hi - lo) / inject_Z nanoseconds_per_second;
              tz_aware := aware |}
  end.

(** The three dictionaries the loop over [df.columns] fills. *)
Record Extracted : Type := {
  ex_numeric_stats : dict (dict Q);
  ex_timestamp_metrics : dict TimestampMetrics;
  ex_semantic_hints : dict SemanticHint
}.

(** The numeric statistics of a column, [desc['min']], [desc['max']] and
    [desc['mean']] read from its description: a [KeyError] for an entry
    the description does not have. *)
Definition numeric_stats_of (c : Column) : result (dict Q) :=
  let desc := describe c in
  lo <- Py.getitem desc "min" ;;
  hi <- Py.getitem desc "max" ;;
  mean <- Py.getitem desc "mean" ;;
  Ok [("min"%string, nan_to_zero lo);
      ("max"%string, nan_to_zero hi);
      ("mean"%string, nan_to_zero mean)].

(** One iteration of [for col in df.columns], at the reading [now] of the
    clock. *)
Definition extract_column `{Pandas} (now : Z) (st : Extracted) (c : Column)
  : result Extracted :=
  let col := col_name c in
  let hints := Py.set (ex_semantic_hints st) col
                 (_infer_semantic_hint col (dtype_str (col_dtype c))) in
  stats <-
    (if is_numeric_dtype (col_dtype c) then
       entry <- numeric_stats_of c ;;
       Ok (Py.set (ex_numeric_stats st) col entry)
     else Ok (ex_numeric_stats st)) ;;
  if contains "date" (lower col) || contains "time" (lower col)
     || is_datetime64_any_dtype (col_dtype c)
  then
    let ts_series := to_datetime now (col_cells c) in
    let valid_ts := dropna (dt_values ts_series) in
    match metrics_of (dt_tz_aware ts_series) valid_ts with
    | Some m =>
        Ok {| ex_numeric_stats := stats;
              ex_timestamp_metrics := Py.set (ex_timestamp_metrics st) col m;
              ex_semantic_hints := Py.set hints col TIMESTAMP |}
    | None =>
        Ok {| ex_numeric_stats := stats;
              ex_timestamp_metrics := ex_timestamp_metrics st;
              ex_semantic_hints := hints |}
    end
  else
    Ok {| ex_numeric_stats := stats;
          ex_timestamp_metrics := ex_timestamp_metrics st;
          ex_semantic_hints := hints |}.

(** The loop [for col in df.columns]: it stops at the first column that
    raises. *)
Fixpoint extract_loop `{Pandas} (now : Z) (cols : list Column)
                      (st : Extracted) : result Extracted :=
  match cols with
  | [] => Ok st
  | c :: cols' =>
      st' <- extract_column now st c ;;
      extract_loop now cols' st'
  end.

Definition kyc_terms : list string :=
  ["user"; "customer"; "email"; "address"; "ip"; "phone"; "kyc"; "name"]%string.

(** [extract_metadata], at the reading [now] of the clock. *)
Definition extract_metadata `{Builtins} `{Pandas} (now : Z) (df : DataFrame)
  : result DatasetMetadata :=
  let column_names := map col_name (df_columns df) in
  let data_types :=
    fold_left (fun d c => Py.set d (col_name c) (dtype_str (col_dtype c)))
              (df_columns df) [] in
  let row_count := Z.of_nat (df_len df) in
  let null_counts :=
    fold_left (fun d c => Py.set d (col_name c) (count_nulls (col_cells c)))
              (df_columns df) [] in
  let unique_counts :=
    fold_left (fun d c => Py.set d (col_name c) (nunique (col_cells c)))
              (df_columns df) [] in
  st <- extract_loop now (df_columns df)
          {| ex_numeric_stats := [];
             ex_timestamp_metrics := [];
             ex_semantic_hints := [] |} ;;
  let semantic_hints := ex_semantic_hints st in
  let hints := Py.values semantic_hints in
  let cols_lower := map lower column_names in
  let has_transaction_id := existsb (hint_eqb ID) hints in
  let has_amount := existsb (hint_eqb MONEY) hints in
  let has_timestamp := existsb (hint_eqb TIMESTAMP) hints in
  let has_kyc :=
    existsb (fun col => existsb (fun term => contains term col) kyc_terms)
            cols_lower in
  let text_cols :=
    Py.keys (filter (fun kv => contains "object" (snd kv)
                               || contains "string" (snd kv)) data_types) in
  let plain_text_cols :=
    filter (fun c =>
              match Py.get_default semantic_hints c UNKNOWN with
              | ID | TIMESTAMP | MONEY => false
              | _ => true
              end) text_cols in
  let is_text_heavy :=
    match column_names with
    | [] => false
    | _ => Qltb (1 # 2) (len plain_text_cols / len column_names)
    end in
  let signals :=
    [("has_transaction_id"%string, has_transaction_id);
     ("has_amount"%string, has_amount);
     ("has_timestamp"%string, has_timestamp);
     ("has_kyc"%string, has_kyc);
     ("is_text_heavy"%string, is_text_heavy)] in
  let audit_payload :=
    (repr_list column_names ++ str_int row_count
       ++ repr_dict str_int null_counts ++ repr_dict str_int unique_counts
       ++ repr_dict str_bool signals)%string in
  Ok {| column_names := column_names;
        data_types := data_types;
        row_count := row_count;
        null_counts := null_counts;
        unique_counts := unique_counts;
        numeric_stats := ex_numeric_stats st;
        timestamp_metrics := ex_timestamp_metrics st;
        semantic_hints := semantic_hints;
        signals := signals;
        audit_hash := sha256_hexdigest audit_payload |}.

End Ingestion.

Import Ingestion.

(* ================================================================= *)
(** ** dimensions.py *)

Module Dimensions.

(** [max(0.0, min(100.0, score))] *)
Definition clamp (score : Q) : Q := Qmax 0 (Qmin 100 score).

(** [[col for col, hint in metadata.semantic_hints.items() if hint == h]] *)
Definition cols_hinted (metadata : DatasetMetadata) (h : SemanticHint)
  : list string :=
  Py.keys (filter (fun kv => hint_eqb (snd kv) h) (semantic_hints metadata)).

(** [score_completeness] *)
Definition score_completeness (metadata : DatasetMetadata) : Q :=
  let total_cells :=
    (row_count metadata * Z.of_nat (List.length (column_names metadata)))%Z in
  if (total_cells =? 0)%Z then 0
  else
    let total_nulls := Py.sumZ (Py.values (null_counts metadata)) in
    let completeness_ratio :=
      inject_Z (total_cells - total_nulls) / inject_Z total_cells in
    let score := completeness_ratio * 100 in
    clamp score.

(** [score_uniqueness] *)
Definition uniqueness_ratio (metadata : DatasetMetadata) (col : string) : Q :=
  let unique_vals := Py.get_default (unique_counts metadata) col 0%Z in
  if (0 <? row_count metadata)%Z
  then inject_Z unique_vals / inject_Z (row_count metadata)
  else 0.

Definition score_uniqueness (metadata : DatasetMetadata) : Q :=
  let id_cols := cols_hinted metadata ID in
  match id_cols with
  | [] => 100
  | _ =>
      let total_uniqueness_ratio :=
        fold_left (fun total col => total + uniqueness_ratio metadata col)
                  id_cols 0 in
      let avg_ratio := total_uniqueness_ratio / len id_cols in
      let score := avg_ratio * 100 in
      clamp score
  end.

(** [score_validity] *)
Definition validity_credit (metadata : DatasetMetadata) (col : string) : Q :=
  let stats := Py.get_default (numeric_stats metadata) col [] in
  let min_val := Py.get_default stats "min" 0 in
  if Qleb 0 min_val then 1 else 1 # 2.

Definition score_validity (metadata : DatasetMetadata) : Q :=
  let money_cols := cols_hinted metadata MONEY in
  match money_cols with
  | [] => 100
  | _ =>
      let '(validity_points, total_checks) :=
        fold_left (fun acc col =>
                     (fst acc + validity_credit metadata col, snd acc + 1))
                  money_cols (0, 0) in
      validity_points / total_checks * 100
  end.

(** [score_accuracy] *)
Definition is_accurate (metadata : DatasetMetadata) (col : string) : bool :=
  let hint := Py.get_default (semantic_hints metadata) col UNKNOWN in
  let dtype := lower (Py.get_default (data_types metadata) col ""%string) in
  let after_money :=
    if hint_eqb hint MONEY then
      if negb (contains "int" dtype) && negb (contains "float" dtype)
      then false else true
    else true in
  if hint_eqb hint TIMESTAMP then
    if negb (Py.mem (timestamp_metrics metadata) col) then false
    else after_money
  else after_money.

Definition score_accuracy (metadata : DatasetMetadata) : Q :=
  let total_cols := len (column_names metadata) in
  if (List.length (column_names metadata) =? 0)%nat then 0
  else
    let accurate_cols :=
      fold_left (fun n col => if is_accurate metadata col then n + 1 else n)
                (column_names metadata) 0 in
    accurate_cols / total_cols * 100.

(** [score_consistency] *)
Definition consistency_credit (metadata : DatasetMetadata) (col : string)
  : Q :=
  let unique := Py.get_default (unique_counts metadata) col 0%Z in
  let total := row_count metadata in
  if (0 <? unique)%Z && (unique <? total)%Z then 1 else 1 # 2.

Definition score_consistency (metadata : DatasetMetadata) : Q :=
  let cat_cols := cols_hinted metadata CATEGORY in
  match cat_cols with
  | [] => 100
  | _ =>
      let consistent_cols :=
        fold_left (fun n col => n + consistency_credit metadata col)
                  cat_cols 0 in
      consistent_cols / len cat_cols * 100
  end.

(** [score_timeliness].  [timedelta_days d] is [d.days] for a difference
    [d] of two instants: the number of whole days, rounded down. *)
Definition nanoseconds_per_day : Z := 86400 * nanoseconds_per_second.

Definition timedelta_days (delta : Z) : Z := (delta / nanoseconds_per_day)%Z.

Definition recency_score (delta_days : Z) : Q :=
  if (delta_days <? 0)%Z then 0
  else if (delta_days <=? 1)%Z then 100
  else if (delta_days <=? 30)%Z then 90
  else if (delta_days <=? 365)%Z then 70
  else 40.

(** One iteration of [for col in ts_cols].  [now] is the naive instant
    [datetime.datetime.now()] returned; subtracting from it an instant
    that carries a time zone raises [TypeError]. *)
Definition recency_of (now : Z) (metrics : TimestampMetrics) : result Q :=
  if tz_aware metrics then Raise TypeError
  else Ok (recency_score (timedelta_days (now - max_time metrics))).

(** The loop runs over the keys of [timestamp_metrics] and reads each
    key's entry, that is, over the entries in order. *)
Fixpoint recency_loop (now : Z) (entries : dict TimestampMetrics)
                      (scores : list Q) : result (list Q) :=
  match entries with
  | [] => Ok scores
  | (col, metrics) :: entries' =>
      s <- recency_of now metrics ;;
      recency_loop now entries' (scores ++ [s])
  end.

Definition score_timeliness (now : Z) (metadata : DatasetMetadata)
  : result Q :=
  match timestamp_metrics metadata with
  | [] =>
      if existsb (hint_eqb TIMESTAMP) (Py.values (semantic_hints metadata))
      then Ok 50
      else Ok 100
  | ts =>
      scores <- recency_loop now ts [] ;;
      Ok (Py.sum scores / len scores)
  end.

(** [score_integrity].  The division by [row_count] raises when
    [row_count] is 0. *)
Definition integrity_of (metadata : DatasetMetadata) (col : string)
  : result Q :=
  let nulls := Py.get_default (null_counts metadata) col 0%Z in
  if (nulls =? 0)%Z then Ok 100
  else if (row_count metadata =? 0)%Z then Raise ZeroDivisionError
  else
    Ok (Qmax 0 (100 - inject_Z nulls / inject_Z (row_count metadata) * 200)).

Fixpoint integrity_loop (metadata : DatasetMetadata) (cols : list string)
                        (integrity_scores : list Q) : result (list Q) :=
  match cols with
  | [] => Ok integrity_scores
  | col :: cols' =>
      s <- integrity_of metadata col ;;
      integrity_loop metadata cols' (integrity_scores ++ [s])
  end.

Definition score_integrity (metadata : DatasetMetadata) : result Q :=
  let id_cols := cols_hinted metadata ID in
  match id_cols with
  | [] => Ok 100
  | _ =>
      integrity_scores <- integrity_loop metadata id_cols [] ;;
      Ok (Py.sum integrity_scores / len integrity_scores)
  end.

(** [calculate_all_dimensions]: the seven entries, evaluated in the order
    of the dict literal; [now] is what the clock shows when the timeliness
    scorer reads it. *)
Definition calculate_all_dimensions (now : Z) (metadata : DatasetMetadata)
  : result (dict Q) :=
  let accuracy := score_accuracy metadata in
  let completeness := score_completeness metadata in
  let consistency := score_consistency metadata in
  timeliness <- score_timeliness now metadata ;;
  let uniqueness := score_uniqueness metadata in
  let validity := score_validity metadata in
  integrity <- score_integrity metadata ;;
  Ok [("accuracy"%string, accuracy);
      ("completeness"%string, completeness);
      ("consistency"%string, consistency);
      ("timeliness"%string, timeliness);
      ("uniqueness"%string, uniqueness);
      ("validity"%string, validity);
      ("integrity"%string, integrity)].

End Dimensions.

Import Dimensions.

(* ================================================================= *)
(** ** scoring.py *)

Module Scoring.

Definition required_dimensions : list string :=
  ["accuracy"; "completeness"; "consistency"; "timeliness"; "uniqueness";
   "validity"; "integrity"]%string.

(** [sum(scores[dim] * weights.get(dim, 0.0) for dim in required_dimensions)] *)
Definition weighted_sum (scores weights : dict Q) : Q :=
  Py.sum (map (fun dim => Py.get_default scores dim 0
                          * Py.get_default weights dim 0)
              required_dimensions).

(** [calculate_base_dqs]; [weights] is [None] when the argument is
    omitted. *)
Definition calculate_base_dqs (dimension_scores : dict Q)
                              (weights : option (dict Q)) : result Q :=
  let scores :=
    map (fun dim => (dim, Py.get_default dimension_scores dim 0))
        required_dimensions in
  weights' <-
    match weights with
    | None =>
        let val := 1 / 7 in
        Ok (map (fun dim => (dim, val)) required_dimensions)
    | Some w =>
        let total_weight := Py.sum (Py.values w) in
        if Qltb (1 # 1000) (Qabs (total_weight - 1))
        then Raise (ValueError (WeightsNotNormalized total_weight))
        else Ok w
    end ;;
  let dqs_base := weighted_sum scores weights' in
  Ok (round2 dqs_base).

End Scoring.

Import Scoring.

(* ================================================================= *)
(** ** roles.py *)

Module Roles.

(** A role profile: a dict with the keys below.  The keys the code reads
    with [.get(key, default)] may be missing; [role_name] is missing in the
    entries of [PROFILES] and added by [get_role_profile]. *)
Record RoleProfile : Type := {
  description : string;
  risk_level : string;
  weights : dict Q;
  critical_dimensions : option (list string);
  risk_threshold : option Q;
  required_signals : option (list string);
  role_name : option string
}.

(** [_make_weights] *)
Definition _make_weights (focus_map : dict Q) : dict Q :=
  let dims := required_dimensions in
  let current_sum := Py.sum (Py.values focus_map) in
  let remaining := 1 - current_sum in
  let start_count :=
    (Z.of_nat (List.length dims) - Z.of_nat (List.length focus_map))%Z in
  fold_left
    (fun weights d =>
       Py.set weights d
         (Py.get_default focus_map d
            (if (0 <? start_count)%Z then remaining / inject_Z start_count
             else 0)))
    dims [].

Definition profile (description risk_level : string) (focus : dict Q)
                   (critical : list string) (threshold : Z)
                   (required : list string) : RoleProfile :=
  {| description := description;
     risk_level := risk_level;
     weights := _make_weights focus;
     critical_dimensions := Some critical;
     risk_threshold := Some (inject_Z threshold);
     required_signals := Some required;
     role_name := None |}.

(** [PROFILES] *)
Definition PROFILES : dict RoleProfile :=
  [("Data Engineer",
    profile
      "Focuses on pipeline reliability, schema adherence, and completeness."
      "Technical"
      [("completeness", 25 # 100); ("integrity", 25 # 100);
       ("accuracy", 2 # 10)]
      ["completeness"; "integrity"; "accuracy"] 80 []);
   ("Data Scientist",
    profile
      "Needs clean distributions, consistent history, and valid values for modeling."
      "Model Performance"
      [("consistency", 25 # 100); ("validity", 2 # 10);
       ("completeness", 2 # 10)]
      ["consistency"; "validity"; "completeness"] 75 []);
   ("Fraud Analyst",
    profile
      "Detects anomalies; relies on unique identities and real-time signals."
      "High Operational"
      [("uniqueness", 3 # 10); ("timeliness", 3 # 10); ("validity", 1 # 10)]
      ["uniqueness"; "timeliness"] 75 ["has_transaction_id"]);
   ("Compliance Officer",
    profile
      "Strict adherence to rules (KYC), accuracy of records, and data integrity."
      "Regulatory"
      [("accuracy", 25 # 100); ("integrity", 25 # 100);
       ("completeness", 2 # 10)]
      ["accuracy"; "integrity"; "validity"] 85 ["has_kyc"]);
   ("Finance / Settlement",
    profile
      "Zero tolerance for accuracy errors in amounts and validity of status."
      "Financial"
      [("accuracy", 3 # 10); ("validity", 3 # 10); ("timeliness", 15 # 100)]
      ["accuracy"; "validity"] 90 ["has_amount"]);
   ("Executive / Leadership",
    profile
      "High level overview, balanced concern for overall trust."
      "Strategic"
      []
      [] 60 [])]%string.

Definition default_role : string := "Executive / Leadership".

(** [get_role_profile] *)
Definition get_role_profile (name : string) : result RoleProfile :=
  let role_key :=
    match filter (fun k => String.eqb (lower k) (lower name))
                 (Py.keys PROFILES) with
    | k :: _ => k
    | [] => default_role
    end in
  match Py.get PROFILES role_key with
  | None => Raise (KeyError role_key)
  | Some p =>
      Ok {| description := description p;
            risk_level := risk_level p;
            weights := weights p;
            critical_dimensions := critical_dimensions p;
            risk_threshold := risk_threshold p;
            required_signals := required_signals p;
            role_name := Some role_key |}
  end.

(** [get_all_role_names] *)
Definition get_all_role_names : list string := Py.keys PROFILES.

Definition or_default {A} (x : option A) (dflt : A) : A :=
  match x with
  | Some v => v
  | None => dflt
  end.

(** [is_role_applicable]: the loop returns [False] at the first required
    signal that [metadata_signals.get(signal, False)] does not make true. *)
Fixpoint all_signals (required : list string) (metadata_signals : dict bool)
  : bool :=
  match required with
  | [] => true
  | signal :: required' =>
      if negb (Py.get_default metadata_signals signal false) then false
      else all_signals required' metadata_signals
  end.

Definition is_role_applicable (role_profile : RoleProfile)
                              (metadata_signals : dict bool) : bool :=
  let required := or_default (required_signals role_profile) [] in
  all_signals required metadata_signals.

(** A [DatasetMetadata] instance passed for [metadata]: an instance of the
    dataclass is true and has the attribute [signals]. *)
Definition of_metadata (md : DatasetMetadata) : Py.arg :=
  PyObject true (Some (signals md)).

(** The guard both entry points share:
    [if metadata and hasattr(metadata, 'signals'):
       if not is_role_applicable(role_profile, metadata.signals): ...].
    [true] when the not-applicable branch is taken. *)
Definition not_applicable (role_profile : RoleProfile) (metadata : Py.arg)
  : bool :=
  match metadata with
  | PyObject true (Some sigs) => negb (is_role_applicable role_profile sigs)
  | _ => false
  end.

(** Step 2, [if alpha < 0.6: alpha = 0.6]. *)
Definition enforce_alpha (alpha : Q) : Q :=
  if Qltb alpha (6 # 10) then 6 # 10 else alpha.

(** Step 3, the loop over [dimension_scores.items()]. *)
Definition role_component (weights : dict Q) (dimension_scores : dict Q) : Q :=
  fold_left
    (fun acc item =>
       let weight := Py.get_default weights (fst item) 0 in
       acc + weight * snd item)
    dimension_scores 0.

(** Step 4, the loop over the critical dimensions with its [break]. *)
Fixpoint critical_risk (check_dims : list string) (dimension_scores : dict Q)
                       (threshold : Q) : bool :=
  match check_dims with
  | [] => false
  | dim :: check_dims' =>
      if Qltb (Py.get_default dimension_scores dim 0) threshold then true
      else critical_risk check_dims' dimension_scores threshold
  end.

(** [calculate_role_score]; [metadata] is [PyNone] and [alpha] is
    [default_alpha] when the argument is omitted. *)
Definition default_alpha : Q := 6 # 10.

Definition calculate_role_score (base_dqs : Q) (dimension_scores : dict Q)
                                (role_profile : RoleProfile)
                                (metadata : Py.arg) (alpha : Q)
  : option Q * bool :=
  if not_applicable role_profile metadata then (None, false)
  else
    let alpha := enforce_alpha alpha in
    let weights := weights role_profile in
    let role_component := role_component weights dimension_scores in
    let rus_score := (alpha * base_dqs) + ((1 - alpha) * role_component) in
    let check_dims := or_default (critical_dimensions role_profile) [] in
    let threshold := or_default (risk_threshold role_profile) 75 in
    let risk_detected := critical_risk check_dims dimension_scores threshold in
    (Some (round2 rus_score), risk_detected).

(** [explain_role_impact] *)
Definition nl : string := String (ascii_of_nat 10) EmptyString.

Definition not_applicable_text (role_name : string) (required : list string)
  : string :=
  ("⚠️ **Role Not Applicable**" ++ nl ++ nl
   ++ "This dataset lacks the semantic signals required for a **"
   ++ role_name ++ "** analysis." ++ nl
   ++ "Missing critical signals: `" ++ join "`, `" required ++ "`" ++ nl
   ++ "Please switch to a role that matches the dataset content (e.g., Data Engineer).")%string.

(** [failures]: the critical dimensions below the threshold, with their
    scores. *)
Definition failures_of (check_dims : list string) (dimension_scores : dict Q)
                       (threshold : Q) : list (string * Q) :=
  filter (fun f => Qltb (snd f) threshold)
         (map (fun dim => (dim, Py.get_default dimension_scores dim 0))
              check_dims).

Definition explanation_parts `{Builtins} (role_profile : RoleProfile)
                             (role_name : string) (dimension_scores : dict Q)
  : list string :=
  let check_dims := or_default (critical_dimensions role_profile) [] in
  let threshold := or_default (risk_threshold role_profile) 75 in
  let explanation_parts :=
    [("**Perspective: " ++ role_name ++ "**")%string;
     description role_profile;
     EmptyString] in
  let failures := failures_of check_dims dimension_scores threshold in
  match failures, check_dims with
  | [], _ :: _ =>
      explanation_parts
      ++ ["✅ **No critical risks detected.**"%string;
          ("All critical dimensions (" ++ join ", " check_dims
           ++ ") are above the risk threshold of " ++ str_number threshold
           ++ ".")%string;
          "The dataset is suitable for this specific role/use-case."%string]
  | _, [] =>
      if Qltb (Py.get_default dimension_scores "accuracy" 100) 60
      then explanation_parts
           ++ ["⚠️ General Notice: Data Accuracy is significantly low."%string]
      else explanation_parts
           ++ ["ℹ️ Balanced Overview: Base DQS reflects the general state."%string]
  | _, _ =>
      explanation_parts
      ++ ["⚠️ **Critical Data Quality Risks Detected:**"%string;
          ("The following dimensions fell below the " ++ role_name
           ++ " risk threshold (" ++ str_number threshold ++ "):")%string]
      ++ map (fun f =>
                ("- **" ++ title (fst f) ++ "**: " ++ format_1f (snd f)
                 ++ " (Threshold: " ++ str_number threshold ++ ")")%string)
             failures
      ++ [(nl ++ "**Impact:**")%string;
          ("These deficiencies directly impact " ++ risk_level role_profile
           ++ " objectives. Proceed with caution.")%string]
  end.

Definition explain_role_impact `{Builtins} (role_profile : RoleProfile)
                               (dimension_scores : dict Q)
                               (metadata : Py.arg) : result string :=
  match role_name role_profile with
  | None => Raise (KeyError "role_name")
  | Some role_name =>
      if not_applicable role_profile metadata then
        let required := or_default (required_signals role_profile) [] in
        Ok (not_applicable_text role_name required)
      else
        Ok (join nl (explanation_parts role_profile role_name dimension_scores))
  end.

End Roles.

Import Roles.

(* ================================================================= *)
(** ** dashboard.py: the pipeline of [process_data] *)

Module Dashboard.

(** [process_data], from the table [pd.read_csv] returned.  A run reads
    the clock twice: [read_at] is what it shows when the extractor converts
    the date and time columns, [now] what it shows when the timeliness
    scorer reads it. *)
Definition process_data `{Builtins} `{Pandas} (read_at now : Z)
                        (df : DataFrame)
  : result (DatasetMetadata * dict Q * Q) :=
  metadata <- extract_metadata read_at df ;;
  dim_scores <- calculate_all_dimensions now metadata ;;
  base_dqs <- calculate_base_dqs dim_scores None ;;
  Ok (metadata, dim_scores, base_dqs).

End Dashboard.

Import Dashboard.

(* ================================================================= *)
(** ** dashboard.py: the roles offered for a dataset *)

Module DashboardRoles.

(** The loop [for r in all_roles] that sorts the role names into the
    applicable ones, in order, and counts the hidden ones. *)
Fixpoint filter_roles (all_roles : list string) (signals : dict bool)
                      (applicable_roles : list string)
                      (hidden_roles_count : Z)
  : result (list string * Z) :=
  match all_roles with
  | [] => Ok (applicable_roles, hidden_roles_count)
  | r :: all_roles' =>
      prof <- get_role_profile r ;;
      if is_role_applicable prof signals
      then filter_roles all_roles' signals (applicable_roles ++ [r])
                        hidden_roles_count
      else filter_roles all_roles' signals applicable_roles
                        (hidden_roles_count + 1)
  end.

(** [applicable_roles.index(name)] for a name that is in the list. *)
Fixpoint index (xs : list string) (name : string) : nat :=
  match xs with
  | [] => 0
  | x :: xs' => if String.eqb x name then 0 else S (index xs' name)
  end.

(** The index the role selector starts at: that of the default role when
    it is applicable, else 0. *)
Definition default_index (applicable_roles : list string) : nat :=
  if existsb (String.eqb default_role) applicable_roles
  then index applicable_roles default_role
  else 0%nat.

(** The role section for the selected role: its profile, its score and
    risk flag, and its explanation, all computed with the metadata of the
    dataset. *)
Definition role_section `{Builtins} (base_dqs : Q) (dim_scores : dict Q)
                        (metadata : DatasetMetadata) (selected_role : string)
  : result (option Q * bool * string) :=
  role_profile <- get_role_profile selected_role ;;
  let '(role_score, risk_detected) :=
    calculate_role_score base_dqs dim_scores role_profile
                         (of_metadata metadata) default_alpha in
  explanation <- explain_role_impact role_profile dim_scores
                                     (of_metadata metadata) ;;
  Ok (role_score, risk_detected, explanation).

End DashboardRoles.

Import DashboardRoles.

(* ================================================================= *)
(** ** Sample inputs

    The inputs of the modules' own [__main__] stubs, and a few more, used
    to evaluate the definitions. *)

Module Samples.

(** A table read from a file that has a header line and no rows. *)
Definition header_only_table : DataFrame :=
  {| df_columns :=
       [{| col_name := "id"; col_dtype := Object; col_cells := [] |};
        {| col_name := "amount"; col_dtype := Object; col_cells := [] |}]%string;
     df_len := 0 |}.

(** Stand-ins for the built-ins and for pandas, to evaluate the
    definitions: strings are quoted as they are, the digest is the payload
    itself, numbers print as their integer part, and the one file that can
    be read is [header_only.csv].  The conversion to instants keeps a cell
    that is an instant, reads the three dates below and takes the cell
    [now] to the reading of the clock; the converted column is time-zone
    aware when one of its cells is a text that ends in [Z]. *)
Definition sample_dates : dict Z :=
  [("2023-01-01", 1672531200 * nanoseconds_per_second);
   ("2023-01-02", 1672617600 * nanoseconds_per_second);
   ("2023-01-01T00:00:00Z", 1672531200 * nanoseconds_per_second)]%string%Z.

Definition sample_instant (now : Z) (c : Cell) : option Z :=
  match c with
  | Instant t => Some t
  | Text s => if String.eqb s "now" then Some now else Py.get sample_dates s
  | _ => None
  end.

Definition sample_aware (c : Cell) : bool :=
  match c with
  | Text s => endswith s "Z"
  | _ => false
  end.

Definition sample_builtins : Builtins :=
  {| repr_str := fun s => ("'" ++ s ++ "'")%string;
     sha256_hexdigest := fun s => s;
     format_1f := fun q => str_int (Qfloor q);
     str_number := fun q => str_int (Qfloor q) |}.

Definition sample_pandas : Pandas :=
  {| read_csv :=
       fun source =>
         if String.eqb source "header_only.csv" then Some header_only_table
         else None;
     to_datetime :=
       fun now cells =>
         {| dt_values := map (sample_instant now) cells;
            dt_tz_aware := existsb sample_aware cells |};
     to_datetime_length :=
       fun now cells => length_map (sample_instant now) cells |}.

(** An instant of the clock, in nanoseconds, and a day. *)
Definition sample_now : Z := 1700000000 * nanoseconds_per_second.
Definition days (n : Z) : Z := n * nanoseconds_per_day.
Definition hours (n : Z) : Z := n * 3600 * nanoseconds_per_second.

(** The mock metadata of [dimensions.py]: 100 rows, an ID column with two
    duplicates, an amount column with a negative minimum and a date column
    whose newest instant is 10 days old. *)
Definition meta : DatasetMetadata :=
  {| column_names := ["id"; "amount"; "date"]%string;
     data_types := [("id", "object"); ("amount", "float64");
                    ("date", "object")]%string;
     row_count := 100;
     null_counts := [("id", 0); ("amount", 5); ("date", 0)]%string%Z;
     unique_counts := [("id", 98); ("amount", 50); ("date", 10)]%string%Z;
     numeric_stats :=
       [("amount", [("min", -10 # 1); ("max", 500 # 1); ("mean", 100 # 1)])]%string;
     timestamp_metrics :=
       [("date"%string,
         {| min_time := sample_now - days 10;
            max_time := sample_now - days 10;
            range_seconds := 0;
            tz_aware := false |})];
     semantic_hints :=
       [("id", ID); ("amount", MONEY); ("date", TIMESTAMP)]%string;
     signals := [];
     audit_hash := EmptyString |}.

(** Metadata with one timestamp column whose newest instant has a given
    age. *)
Definition aged (age : Z) : DatasetMetadata :=
  {| column_names := ["date"%string];
     data_types := [("date", "object")]%string;
     row_count := 1;
     null_counts := [("date"%string, 0%Z)];
     unique_counts := [("date"%string, 1%Z)];
     numeric_stats := [];
     timestamp_metrics :=
       [("date"%string,
         {| min_time := sample_now - age;
            max_time := sample_now - age;
            range_seconds := 0;
            tz_aware := false |})];
     semantic_hints := [("date"%string, TIMESTAMP)];
     signals := [];
     audit_hash := EmptyString |}.

(** The same metadata when the instant carries a time zone, as the
    extractor records it for cells such as [2023-01-01T00:00:00Z]. *)
Definition aged_utc (age : Z) : DatasetMetadata :=
  {| column_names := ["date"%string];
     data_types := [("date", "object")]%string;
     row_count := 1;
     null_counts := [("date"%string, 0%Z)];
     unique_counts := [("date"%string, 1%Z)];
     numeric_stats := [];
     timestamp_metrics :=
       [("date"%string,
         {| min_time := sample_now - age;
            max_time := sample_now - age;
            range_seconds := 0;
            tz_aware := true |})];
     semantic_hints := [("date"%string, TIMESTAMP)];
     signals := [];
     audit_hash := EmptyString |}.

(** A table with a column of truth values, as [read_csv] returns it for
    a file whose [active] column holds [True] and [False]. *)
Definition flags_table : DataFrame :=
  {| df_columns :=
       [{| col_name := "id";
           col_dtype := Int64;
           col_cells := [Num 1; Num 2] |};
        {| col_name := "active";
           col_dtype := Bool;
           col_cells := [Boolean true; Boolean false] |}]%string;
     df_len := 2 |}.

(** A table whose date column holds an instant written with the UTC
    designator. *)
Definition utc_table : DataFrame :=
  {| df_columns :=
       [{| col_name := "id";
           col_dtype := Int64;
           col_cells := [Num 1] |};
        {| col_name := "date";
           col_dtype := Object;
           col_cells := [Text "2023-01-01T00:00:00Z"] |}]%string;
     df_len := 1 |}.

(** A table whose date column holds the cell [now]. *)
Definition now_table : DataFrame :=
  {| df_columns :=
       [{| col_name := "date";
           col_dtype := Object;
           col_cells := [Text "now"] |}]%string;
     df_len := 1 |}.

(** A table whose fee column holds text such as "$5", and a date column
    of instants; the newest instant is [sample_now]. *)
Definition priced_table : DataFrame :=
  {| df_columns :=
       [{| col_name := "txn_id";
           col_dtype := Object;
           col_cells := [Text "TX1"; Text "TX2"; Text "TX3"] |};
        {| col_name := "fee";
           col_dtype := Object;
           col_cells := [Text "$5"; Text "$7"; Null] |};
        {| col_name := "date";
           col_dtype := Datetime64;
           col_cells := [Instant (sample_now - days 3);
                         Instant sample_now;
                         Instant (sample_now - days 1)] |}]%string;
     df_len := 3 |}.

(** The scores and the payment weights of [scoring.py]. *)
Definition sample_scores : dict Q :=
  [("accuracy", 955 # 10); ("completeness", 80); ("consistency", 100);
   ("timeliness", 90); ("uniqueness", 85); ("validity", 100);
   ("integrity", 100)]%string.

Definition custom_weights : dict Q :=
  [("accuracy", 1 # 10); ("completeness", 1 # 10); ("consistency", 1 # 10);
   ("timeliness", 1 # 10); ("uniqueness", 2 # 10); ("validity", 2 # 10);
   ("integrity", 2 # 10)]%string.

(** Seven perfect scores; a weight mapping at the edge of the tolerance
    and one with a negative weight, both summing to 1.0 within 0.001. *)
Definition perfect_scores : dict Q :=
  map (fun dim => (dim, 100)) required_dimensions.

Definition heavy_weights : dict Q := [("accuracy"%string, 1001 # 1000)].

Definition signed_weights : dict Q :=
  [("accuracy", 2); ("completeness", - (1))]%string.

Definition accuracy_only : dict Q := [("accuracy"%string, 100)].

(** A mapping that sums to 0.5. *)
Definition short_weights : dict Q := [("accuracy"%string, 1 # 2)].

(** The profile [get_role_profile] returns for a name. *)
Definition profile_named (name : string) : RoleProfile :=
  match get_role_profile name with
  | Ok p => p
  | Raise _ => profile EmptyString EmptyString [] [] 0 []
  end.

Definition fraud_analyst : RoleProfile := profile_named "fraud analyst".
Definition data_engineer : RoleProfile := profile_named "Data Engineer".
Definition executive : RoleProfile := profile_named "no such role".

(** Signals of a dataset with an amount and a timestamp and no ID. *)
Definition signals_without_id : dict bool :=
  [("has_transaction_id", false); ("has_amount", true);
   ("has_timestamp", true); ("has_kyc", false);
   ("is_text_heavy", false)]%string.

End Samples.

Import Samples.

(* ================================================================= *)
(** ** Vocabulary of the specification *)

(** A score between two bounds. *)
Definition in_range (lo hi x : Q) : Prop := lo <= x <= hi.

(** The invariants of the data model: a non-negative [row_count], and null
    and distinct counts between 0 and [row_count]. *)
Definition counts_bounded (row_count : Z) (counts : dict Z) : Prop :=
  Forall (fun kv => (0 <= snd kv <= row_count)%Z) counts.

Definition metadata_invariants (md : DatasetMetadata) : Prop :=
  (0 <= row_count md)%Z
  /\ counts_bounded (row_count md) (null_counts md)
  /\ counts_bounded (row_count md) (unique_counts md).


(** The formula of the base score, with the looked-up scores and weights. *)
Definition base_formula (scores w : dict Q) : Q :=
  round2 (Py.sum (map (fun dim => Py.get_default scores dim 0
                                  * Py.get_default w dim 0)
                      required_dimensions)).

(** Every required signal is present and true in the signals of a
    dataset. *)
Definition signals_satisfied (required : list string) (sigs : dict bool)
  : Prop :=
  forall s, In s required -> Py.get sigs s = Some true.

(** The [metadata] arguments of the claim about the skipped check: the
    argument omitted or [None], or an object without a [signals]
    attribute. *)
Definition without_signals (metadata : Py.arg) : Prop :=
  metadata = PyNone \/ exists truthy, metadata = PyObject truthy None.

(** A profile with its critical dimensions replaced. *)
Definition with_critical (p : RoleProfile) (dims : list string)
  : RoleProfile :=
  {| description := description p;
     risk_level := risk_level p;
     weights := weights p;
     critical_dimensions := Some dims;
     risk_threshold := risk_threshold p;
     required_signals := required_signals p;
     role_name := role_name p |}.

(** The linear blend of the role score for a coefficient [alpha]. *)
Definition blend (alpha base_dqs : Q) (p : RoleProfile) (scores : dict Q)
  : Q :=
  round2 (alpha * base_dqs + (1 - alpha) * role_component (weights p) scores).

(** The recency bands as the specification words them, on the age of the
    newest instant of a column: in the future, at most 1 day old, at most
    30 days, at most 365 days, older. *)
Definition claimed_recency (age : Z) : Q :=
  if (age <? 0)%Z then 0
  else if (age <=? 1 * nanoseconds_per_day)%Z then 100
  else if (age <=? 30 * nanoseconds_per_day)%Z then 90
  else if (age <=? 365 * nanoseconds_per_day)%Z then 70
  else 40.

Definition claimed_timeliness (now : Z) (md : DatasetMetadata) : Q :=
  match timestamp_metrics md with
  | [] =>
      if existsb (hint_eqb TIMESTAMP) (Py.values (semantic_hints md))
      then 50
      else 100
  | ts =>
      Py.sum (map (fun kv => claimed_recency (now - max_time (snd kv))) ts)
      / len ts
  end.

(** The bands the code applies, on the same age: the whole days of the
    age are compared, so each band ends one day later than its bound. *)
Definition recency_of_age (age : Z) : Q :=
  if (age <? 0)%Z then 0
  else if (age <? 2 * nanoseconds_per_day)%Z then 100
  else if (age <? 31 * nanoseconds_per_day)%Z then 90
  else if (age <? 366 * nanoseconds_per_day)%Z then 70
  else 40.

(** The column names of a table are distinct. *)
Definition unique_names (df : DataFrame) : Prop :=
  NoDup (map col_name (df_columns df)).

(** Metadata with its type descriptors and numeric statistics replaced. *)
Definition with_types (md : DatasetMetadata) (types : dict string)
                      (stats : dict (dict Q)) : DatasetMetadata :=
  {| column_names := column_names md;
     data_types := types;
     row_count := row_count md;
     null_counts := null_counts md;
     unique_counts := unique_counts md;
     numeric_stats := stats;
     timestamp_metrics := timestamp_metrics md;
     semantic_hints := semantic_hints md;
     signals := signals md;
     audit_hash := audit_hash md |}.

(** Two readings of the clock at which the newest instant of every
    timestamp column is the same number of whole days old. *)
Definition same_day_ages (now1 now2 : Z) (md : DatasetMetadata) : Prop :=
  Forall (fun kv => timedelta_days (now1 - max_time (snd kv))
                    = timedelta_days (now2 - max_time (snd kv)))
         (timestamp_metrics md).

(** At two readings of the clock pandas converts every column of a table
    to the same instants: no cell is converted by reading the clock, as
    the cells [now] and [today] are. *)
Definition same_conversion `{Pandas} (read1 read2 : Z) (df : DataFrame)
  : Prop :=
  forall c, In c (df_columns df) ->
            to_datetime read1 (col_cells c) = to_datetime read2 (col_cells c).

(** The payload of the audit hash, from the fields of a record. *)
Definition audit_payload_of `{Builtins} (md : DatasetMetadata) : string :=
  (repr_list (column_names md) ++ str_int (row_count md)
     ++ repr_dict str_int (null_counts md)
     ++ repr_dict str_int (unique_counts md)
     ++ repr_dict str_bool (signals md))%string.

(** Metadata all of whose timestamp metrics hold instants without a time
    zone. *)
Definition naive (md : DatasetMetadata) : Prop :=
  Forall (fun kv => tz_aware (snd kv) = false) (timestamp_metrics md).

(** ** The functions that can raise, on the inputs on which they return

    The average of the recency scores, which [score_timeliness] returns
    for naive instants. *)
Definition timeliness_value (now : Z) (md : DatasetMetadata) : Q :=
  match timestamp_metrics md with
  | [] =>
      if existsb (hint_eqb TIMESTAMP) (Py.values (semantic_hints md))
      then 50
      else 100
  | ts =>
      let scores :=
        map (fun kv => recency_score (timedelta_days (now - max_time (snd kv))))
            ts in
      Py.sum scores / len scores
  end.

(** A table with a column of the boolean dtype. *)
Definition is_bool (t : Dtype) : bool :=
  match t with
  | Bool => true
  | _ => false
  end.

Definition has_bool_column (df : DataFrame) : bool :=
  existsb (fun c => is_bool (col_dtype c)) (df_columns df).

(** What one iteration of the loop of [extract_metadata] records for a
    column that does not make it raise. *)
Definition recorded_column `{Pandas} (now : Z) (st : Extracted) (c : Column)
  : Extracted :=
  let col := col_name c in
  let hints := Py.set (ex_semantic_hints st) col
                 (_infer_semantic_hint col (dtype_str (col_dtype c))) in
  let stats :=
    if is_numeric_dtype (col_dtype c) then
      Py.set (ex_numeric_stats st) col
        [("min"%string, nan_to_zero (describe_min (col_cells c)));
         ("max"%string, nan_to_zero (describe_max (col_cells c)));
         ("mean"%string, nan_to_zero (describe_mean (col_cells c)))]
    else ex_numeric_stats st in
  if contains "date" (lower col) || contains "time" (lower col)
     || is_datetime64_any_dtype (col_dtype c)
  then
    match metrics_of (dt_tz_aware (to_datetime now (col_cells c)))
                     (dropna (dt_values (to_datetime now (col_cells c)))) with
    | Some m =>
        {| ex_numeric_stats := stats;
           ex_timestamp_metrics := Py.set (ex_timestamp_metrics st) col m;
           ex_semantic_hints := Py.set hints col TIMESTAMP |}
    | None =>
        {| ex_numeric_stats := stats;
           ex_timestamp_metrics := ex_timestamp_metrics st;
           ex_semantic_hints := hints |}
    end
  else
    {| ex_numeric_stats := stats;
       ex_timestamp_metrics := ex_timestamp_metrics st;
       ex_semantic_hints := hints |}.

(** What [extract_metadata] builds from the table and from the three
    dictionaries its loop has filled: the counts, the signals, the audit
    hash and the record. *)
Definition metadata_record `{Builtins} (df : DataFrame) (st : Extracted)
  : DatasetMetadata :=
  let column_names := map col_name (df_columns df) in
  let data_types :=
    fold_left (fun d c => Py.set d (col_name c) (dtype_str (col_dtype c)))
              (df_columns df) [] in
  let row_count := Z.of_nat (df_len df) in
  let null_counts :=
    fold_left (fun d c => Py.set d (col_name c) (count_nulls (col_cells c)))
              (df_columns df) [] in
  let unique_counts :=
    fold_left (fun d c => Py.set d (col_name c) (nunique (col_cells c)))
              (df_columns df) [] in
  let semantic_hints := ex_semantic_hints st in
  let hints := Py.values semantic_hints in
  let cols_lower := map lower column_names in
  let has_transaction_id := existsb (hint_eqb ID) hints in
  let has_amount := existsb (hint_eqb MONEY) hints in
  let has_timestamp := existsb (hint_eqb TIMESTAMP) hints in
  let has_kyc :=
    existsb (fun col => existsb (fun term => contains term col) kyc_terms)
         cols_lower in
  let text_cols :=
    Py.keys (filter (fun kv => contains "object" (snd kv)
                            || contains "string" (snd kv)) data_types) in
  let plain_text_cols :=
    filter (fun c =>
           match Py.get_default semantic_hints c UNKNOWN with
           | ID | TIMESTAMP | MONEY => false
           | _ => true
           end) text_cols in
  let is_text_heavy :=
    match column_names with
    | [] => false
    | _ => Qltb (1 # 2) (len plain_text_cols / len column_names)
    end in
  let signals :=
    [("has_transaction_id"%string, has_transaction_id);
     ("has_amount"%string, has_amount);
     ("has_timestamp"%string, has_timestamp);
     ("has_kyc"%string, has_kyc);
     ("is_text_heavy"%string, is_text_heavy)] in
  let audit_payload :=
    (repr_list column_names ++ str_int row_count
       ++ repr_dict str_int null_counts ++ repr_dict str_int unique_counts
       ++ repr_dict str_bool signals)%string in
  {| column_names := column_names;
     data_types := data_types;
     row_count := row_count;
     null_counts := null_counts;
     unique_counts := unique_counts;
     numeric_stats := ex_numeric_stats st;
     timestamp_metrics := ex_timestamp_metrics st;
     semantic_hints := semantic_hints;
     signals := signals;
     audit_hash := sha256_hexdigest audit_payload |}.

(** The record [extract_metadata] returns for a table without a boolean
    column. *)
Definition recorded `{Builtins} `{Pandas} (now : Z) (df : DataFrame)
  : DatasetMetadata :=
  metadata_record df
    (fold_left (recorded_column now) (df_columns df)
       {| ex_numeric_stats := [];
          ex_timestamp_metrics := [];
          ex_semantic_hints := [] |}).

(** A catalog entry with the name [get_role_profile] adds. *)
Definition with_role_name (p : RoleProfile) (name : string) : RoleProfile :=
  {| description := description p;
     risk_level := risk_level p;
     weights := weights p;
     critical_dimensions := critical_dimensions p;
     risk_threshold := risk_threshold p;
     required_signals := required_signals p;
     role_name := Some name |}.

(** What the data model asks of a role profile: weights over exactly the
    seven dimensions, none negative, summing to 1.0 within the tolerance
    of [calculate_base_dqs]; critical dimensions among the seven; a
    threshold between 0 and 100; and the lists of critical dimensions and
    required signals present. *)
Definition normalized_weights (w : dict Q) : Prop :=
  Py.keys w = required_dimensions
  /\ Forall (fun v => 0 <= v) (Py.values w)
  /\ Qabs (Py.sum (Py.values w) - 1) <= 1 # 1000.

Definition well_formed_profile (p : RoleProfile) : Prop :=
  normalized_weights (weights p)
  /\ (exists dims, critical_dimensions p = Some dims
                   /\ incl dims required_dimensions)
  /\ (exists threshold, risk_threshold p = Some threshold
                        /\ in_range 0 100 threshold)
  /\ (exists required, required_signals p = Some required).

(** The fourth line of an explanation, after the perspective, the
    description and an empty line. *)
Definition risk_heading : string :=
  "⚠️ **Critical Data Quality Risks Detected:**".

Definition no_risk_heading : string := "✅ **No critical risks detected.**".

(** What the loop of [extract_metadata] records for one column: its
    timestamp metrics, when its name or type makes the extractor try the
    conversion and some cell converts; its hint, forced to TIMESTAMP when
    it has metrics; and its numeric statistics. *)
Definition column_metrics `{Pandas} (now : Z) (c : Column)
  : option TimestampMetrics :=
  if contains "date" (lower (col_name c)) || contains "time" (lower (col_name c))
     || is_datetime64_any_dtype (col_dtype c)
  then metrics_of (dt_tz_aware (to_datetime now (col_cells c)))
                  (dropna (dt_values (to_datetime now (col_cells c))))
  else None.

(** Some column of the table gets timestamp metrics whose instants carry
    a time zone. *)
Definition converts_aware `{Pandas} (now : Z) (df : DataFrame) : Prop :=
  exists c m,
    In c (df_columns df)
    /\ column_metrics now c = Some m
    /\ tz_aware m = true.

(** The table has a column of the boolean dtype. *)
Definition boolean_column (df : DataFrame) : Prop :=
  exists c, In c (df_columns df) /\ col_dtype c = Bool.

Definition column_hint `{Pandas} (now : Z) (c : Column) : SemanticHint :=
  match column_metrics now c with
  | Some _ => TIMESTAMP
  | None => _infer_semantic_hint (col_name c) (dtype_str (col_dtype c))
  end.

Definition column_stats (c : Column) : option (dict Q) :=
  if is_numeric_dtype (col_dtype c)
  then Some [("min"%string, nan_to_zero (describe_min (col_cells c)));
             ("max"%string, nan_to_zero (describe_max (col_cells c)));
             ("mean"%string, nan_to_zero (describe_mean (col_cells c)))]
  else None.

(** The dummy table of [ingestion.py]: a duplicated transaction ID, a
    negative amount, a missing timestamp and a status. *)
Definition dummy_table : DataFrame :=
  {| df_columns :=
       [{| col_name := "transaction_id";
           col_dtype := Object;
           col_cells := [Text "TX1"; Text "TX2"; Text "TX3"; Text "TX1"] |};
        {| col_name := "amount";
           col_dtype := Float64;
           col_cells := [Num (1005 # 10); Num (- (50)); Num 200;
                         Num (1005 # 10)] |};
        {| col_name := "timestamp";
           col_dtype := Object;
           col_cells := [Text "2023-01-01"; Text "2023-01-02"; Null;
                         Text "2023-01-01"] |};
        {| col_name := "status";
           col_dtype := Object;
           col_cells := [Text "SUCCESS"; Text "FAIL"; Text "PENDING";
                         Text "SUCCESS"] |}]%string;
     df_len := 4 |}.

(* ================================================================= *)
(** * Properties *)

(** ** Sums and averages of bounded scores *)

Lemma fold_plus_shift (xs : list Q) (a : Q) :
  fold_left Qplus xs a == a + Py.sum xs.
Proof.
  unfold Py.sum. revert a.
  induction xs as [|x xs IH]; intros a; simpl.
  - lra.
  - rewrite IH. rewrite (IH (0 + x)). lra.
Qed.

Lemma sum_cons (x : Q) (xs : list Q) : Py.sum (x :: xs) == x + Py.sum xs.
Proof. unfold Py.sum at 1. simpl. rewrite fold_plus_shift. lra. Qed.

Lemma len_cons {A} (x : A) (xs : list A) : len (x :: xs) == 1 + len xs.
Proof.
  unfold len. cbn [List.length]. rewrite Nat2Z.inj_succ, <- Z.add_1_l.
  rewrite inject_Z_plus. reflexivity.
Qed.

Lemma len_nonneg {A} (xs : list A) : 0 <= len xs.
Proof.
  unfold len. change 0 with (inject_Z 0). rewrite <- Zle_Qle. lia.
Qed.

Lemma len_pos {A} (xs : list A) : xs <> [] -> 0 < len xs.
Proof.
  destruct xs as [|x xs]; [congruence|]. intros _.
  rewrite len_cons. pose proof (len_nonneg xs). lra.
Qed.

Lemma sum_bounds (lo hi : Q) (xs : list Q) :
  Forall (in_range lo hi) xs ->
  lo * len xs <= Py.sum xs <= hi * len xs.
Proof.
  induction 1 as [|x xs [Hlo Hhi] _ IH].
  - unfold Py.sum, len. simpl. change (inject_Z 0) with 0. lra.
  - rewrite sum_cons, len_cons. lra.
Qed.

Lemma div_bounds (lo hi s n : Q) :
  0 < n -> lo * n <= s <= hi * n -> lo <= s / n <= hi.
Proof.
  intros Hn [Hlo Hhi]. split.
  - apply Qle_shift_div_l; assumption.
  - apply Qle_shift_div_r; assumption.
Qed.

Lemma average_bounds (lo hi : Q) (xs : list Q) :
  xs <> [] -> Forall (in_range lo hi) xs ->
  lo <= Py.sum xs / len xs <= hi.
Proof.
  intros Hne Hall. apply div_bounds.
  - now apply len_pos.
  - now apply sum_bounds.
Qed.

Lemma fold_add_map {A} (f : A -> Q) (xs : list A) (a : Q) :
  fold_left (fun acc x => acc + f x) xs a == a + Py.sum (map f xs).
Proof.
  revert a. induction xs as [|x xs IH]; intros a; simpl.
  - unfold Py.sum. simpl. lra.
  - rewrite IH, sum_cons. lra.
Qed.

Lemma fold_count_map {A} (p : A -> bool) (xs : list A) (a : Q) :
  fold_left (fun n x => if p x then n + 1 else n) xs a
  == a + Py.sum (map (fun x => if p x then 1 else 0) xs).
Proof.
  revert a. induction xs as [|x xs IH]; intros a; simpl.
  - unfold Py.sum. simpl. lra.
  - rewrite IH, sum_cons. destruct (p x); lra.
Qed.

Lemma fold_credit_map {A} (f : A -> Q) (xs : list A) (acc : Q * Q) :
  let r := fold_left (fun acc x => (fst acc + f x, snd acc + 1)) xs acc in
  fst r == fst acc + Py.sum (map f xs) /\ snd r == snd acc + len xs.
Proof.
  revert acc. induction xs as [|x xs IH]; intros acc; simpl.
  - unfold Py.sum, len. simpl. change (inject_Z 0) with 0. split; lra.
  - destruct (IH (fst acc + f x, snd acc + 1)) as [H1 H2].
    simpl in H1, H2. rewrite H1, H2, sum_cons, len_cons. split; lra.
Qed.

Lemma len_map {A B} (f : A -> B) (xs : list A) : len (map f xs) = len xs.
Proof. unfold len. now rewrite length_map. Qed.

Lemma Forall_map_range {A} (lo hi : Q) (f : A -> Q) (xs : list A) :
  (forall x, in_range lo hi (f x)) -> Forall (in_range lo hi) (map f xs).
Proof. intros H. apply Forall_map, Forall_forall. intros x _. apply H. Qed.

(** ** The seven scorers stay between 0 and 100 *)

Lemma clamp_range (q : Q) : in_range 0 100 (clamp q).
Proof.
  unfold in_range, clamp.
  destruct (Q.max_spec 0 (Qmin 100 q)) as [[H ->]|[H ->]];
    destruct (Q.min_spec 100 q) as [[H' E]|[H' E]];
    rewrite ?E in *; lra.
Qed.

Lemma score_completeness_range (md : DatasetMetadata) :
  in_range 0 100 (score_completeness md).
Proof.
  unfold score_completeness.
  destruct (_ =? 0)%Z; [unfold in_range; lra | apply clamp_range].
Qed.

Lemma score_uniqueness_range (md : DatasetMetadata) :
  in_range 0 100 (score_uniqueness md).
Proof.
  unfold score_uniqueness.
  destruct (cols_hinted md ID); [unfold in_range; lra | apply clamp_range].
Qed.

Lemma scaled_average_range (lo : Q) {A} (f : A -> Q) (xs : list A) :
  0 <= lo -> xs <> [] -> (forall x, in_range lo 1 (f x)) ->
  in_range 0 100 (Py.sum (map f xs) / len xs * 100).
Proof.
  intros Hlo Hne Hf.
  assert (H : lo <= Py.sum (map f xs) / len (map f xs) <= 1).
  { apply average_bounds.
    - destruct xs; [congruence | discriminate].
    - now apply Forall_map_range. }
  rewrite len_map in H. unfold in_range. lra.
Qed.

Lemma validity_credit_range (md : DatasetMetadata) (col : string) :
  in_range (1 # 2) 1 (validity_credit md col).
Proof.
  unfold validity_credit, in_range. destruct (Qleb _ _); lra.
Qed.

Lemma consistency_credit_range (md : DatasetMetadata) (col : string) :
  in_range (1 # 2) 1 (consistency_credit md col).
Proof.
  unfold consistency_credit, in_range. destruct (_ && _); lra.
Qed.

Lemma score_validity_average (md : DatasetMetadata) :
  cols_hinted md MONEY <> [] ->
  score_validity md
  == Py.sum (map (validity_credit md) (cols_hinted md MONEY))
     / len (cols_hinted md MONEY) * 100.
Proof.
  intros Hne. unfold score_validity.
  destruct (cols_hinted md MONEY) as [|c cs] eqn:E; [congruence|].
  pose proof (fold_credit_map (validity_credit md) (c :: cs) (0, 0)) as H.
  cbv zeta in H. destruct (fold_left _ (c :: cs) (0, 0)) as [p t].
  simpl fst in H; simpl snd in H. destruct H as [Hp Ht].
  rewrite Hp, Ht. apply Qmult_comp; [|reflexivity].
  apply Qdiv_comp; lra.
Qed.

Lemma score_validity_range (md : DatasetMetadata) :
  in_range 0 100 (score_validity md).
Proof.
  destruct (cols_hinted md MONEY) as [|c cs] eqn:E.
  - unfold score_validity. rewrite E. unfold in_range; lra.
  - unfold in_range. rewrite score_validity_average by (rewrite E; discriminate).
    apply (scaled_average_range (1 # 2)); [lra | rewrite E; discriminate |].
    apply validity_credit_range.
Qed.

Lemma score_consistency_range (md : DatasetMetadata) :
  in_range 0 100 (score_consistency md).
Proof.
  unfold score_consistency.
  destruct (cols_hinted md CATEGORY) as [|c cs] eqn:E.
  - unfold in_range; lra.
  - unfold in_range.
    rewrite (fold_add_map (consistency_credit md) (c :: cs) 0).
    assert (H := scaled_average_range (1 # 2) (consistency_credit md)
                   (c :: cs)).
    unfold in_range in H.
    setoid_replace (0 + Py.sum (map (consistency_credit md) (c :: cs)))
      with (Py.sum (map (consistency_credit md) (c :: cs))) by lra.
    apply H; [lra | discriminate | apply consistency_credit_range].
Qed.

Lemma score_accuracy_range (md : DatasetMetadata) :
  in_range 0 100 (score_accuracy md).
Proof.
  unfold score_accuracy.
  destruct (column_names md) as [|c cs] eqn:E; simpl (_ =? _)%nat.
  - unfold in_range; lra.
  - unfold in_range.
    rewrite (fold_count_map (is_accurate md) (c :: cs) 0).
    assert (H := scaled_average_range 0
                   (fun x => if is_accurate md x then 1 else 0)
                   (c :: cs)).
    unfold in_range in H.
    setoid_replace
      (0 + Py.sum (map (fun x => if is_accurate md x then 1 else 0) (c :: cs)))
      with (Py.sum (map (fun x => if is_accurate md x then 1 else 0) (c :: cs)))
      by lra.
    apply H; [lra | discriminate |].
    intros x. destruct (is_accurate md x); lra.
Qed.

Lemma recency_score_range (d : Z) : in_range 0 100 (recency_score d).
Proof.
  unfold recency_score, in_range.
  repeat (match goal with |- context [if ?b then _ else _] => destruct b end);
    lra.
Qed.

Lemma timeliness_value_range (now : Z) (md : DatasetMetadata) :
  in_range 0 100 (timeliness_value now md).
Proof.
  unfold timeliness_value.
  destruct (timestamp_metrics md) as [|t ts] eqn:E.
  - destruct (existsb _ _); unfold in_range; lra.
  - apply average_bounds; [discriminate|].
    apply Forall_map_range. intros x. apply recency_score_range.
Qed.

(** The loop of [score_timeliness] returns the recency scores of naive
    instants, and raises at the first instant that carries a time zone. *)
Lemma recency_loop_cases (now : Z) (entries : dict TimestampMetrics)
                         (acc : list Q) :
  recency_loop now entries acc
  = if existsb (fun kv => tz_aware (snd kv)) entries then Raise TypeError
    else Ok (acc ++ map (fun kv => recency_score
                                     (timedelta_days (now - max_time (snd kv))))
                        entries).
Proof.
  revert acc. induction entries as [|[col m] entries IH]; intros acc; simpl.
  - now rewrite app_nil_r.
  - unfold recency_of. destruct (tz_aware m); simpl; [reflexivity|].
    rewrite IH. destruct (existsb _ entries); [reflexivity|].
    now rewrite <- app_assoc.
Qed.

Lemma score_timeliness_cases (now : Z) (md : DatasetMetadata) :
  score_timeliness now md
  = if existsb (fun kv => tz_aware (snd kv)) (timestamp_metrics md)
    then Raise TypeError
    else Ok (timeliness_value now md).
Proof.
  unfold score_timeliness, timeliness_value.
  destruct (timestamp_metrics md) as [|t ts].
  - simpl. now destruct (existsb _ _).
  - rewrite recency_loop_cases.
    destruct (existsb _ (t :: ts)); reflexivity.
Qed.

Lemma naive_iff (md : DatasetMetadata) :
  existsb (fun kv => tz_aware (snd kv)) (timestamp_metrics md) = false
  <-> naive md.
Proof.
  unfold naive. induction (timestamp_metrics md) as [|[col m] ts IH]; simpl.
  - split; [constructor | reflexivity].
  - destruct (tz_aware m) eqn:E; simpl.
    + split; [discriminate|]. intros Hn. inversion Hn. simpl in *. congruence.
    + rewrite IH. split.
      * intros Hn. now constructor.
      * intros Hn. now inversion Hn.
Qed.

Lemma naive_dec (md : DatasetMetadata) : naive md \/ ~ naive md.
Proof.
  destruct (existsb (fun kv => tz_aware (snd kv)) (timestamp_metrics md)) eqn:E.
  - right. intros Hn. apply naive_iff in Hn. congruence.
  - left. now apply naive_iff.
Qed.

Lemma score_timeliness_naive (now : Z) (md : DatasetMetadata) :
  naive md -> score_timeliness now md = Ok (timeliness_value now md).
Proof.
  intros Hn. apply naive_iff in Hn.
  now rewrite score_timeliness_cases, Hn.
Qed.

Lemma score_timeliness_aware (now : Z) (md : DatasetMetadata) :
  ~ naive md -> score_timeliness now md = Raise TypeError.
Proof.
  intros Hn. rewrite score_timeliness_cases.
  destruct (existsb _ _) eqn:E; [reflexivity|].
  apply naive_iff in E. contradiction.
Qed.

Lemma score_timeliness_returns (now : Z) (md : DatasetMetadata) (s : Q) :
  score_timeliness now md = Ok s -> naive md /\ s = timeliness_value now md.
Proof.
  rewrite score_timeliness_cases.
  destruct (existsb _ _) eqn:E; [discriminate|].
  intros [= <-]. split; [now apply naive_iff | reflexivity].
Qed.

Lemma score_timeliness_raises (now : Z) (md : DatasetMetadata) (e : exn) :
  score_timeliness now md = Raise e <-> e = TypeError /\ ~ naive md.
Proof.
  rewrite score_timeliness_cases.
  destruct (existsb _ _) eqn:E.
  - split.
    + intros [= <-]. split; [reflexivity|].
      intros Hn. apply naive_iff in Hn. congruence.
    + intros [-> _]. reflexivity.
  - split; [discriminate|]. intros [_ Hn]. apply naive_iff in E. contradiction.
Qed.

Lemma get_default_Forall {V} (P : V -> Prop) (d : dict V) (k : string)
                         (dflt : V) :
  Forall (fun kv => P (snd kv)) d -> P dflt -> P (Py.get_default d k dflt).
Proof.
  intros Hd Hdflt. unfold Py.get_default.
  induction Hd as [|[k' v] d Hv _ IH]; simpl; [assumption|].
  destruct (String.eqb k' k); [exact Hv | exact IH].
Qed.

Lemma integrity_of_range (md : DatasetMetadata) (col : string) :
  metadata_invariants md ->
  exists s, integrity_of md col = Ok s /\ in_range 0 100 s.
Proof.
  intros (Hrow & Hnull & _). unfold integrity_of.
  assert (Hn : (0 <= Py.get_default (null_counts md) col 0 <= row_count md)%Z).
  { apply (get_default_Forall (fun n => (0 <= n <= row_count md)%Z));
      [exact Hnull | lia]. }
  set (nulls := Py.get_default (null_counts md) col 0%Z) in *.
  destruct (Z.eqb_spec nulls 0) as [|Hnz].
  - exists 100. split; [reflexivity | unfold in_range; lra].
  - destruct (Z.eqb_spec (row_count md) 0) as [Hz|Hrz]; [lia|].
    eexists. split; [reflexivity|].
    assert (Hq : 0 <= inject_Z nulls / inject_Z (row_count md)).
    { apply Qle_shift_div_l.
      - change 0 with (inject_Z 0). rewrite <- Zlt_Qlt. lia.
      - rewrite Qmult_0_l. change 0 with (inject_Z 0). rewrite <- Zle_Qle. lia. }
    unfold in_range.
    destruct (Q.max_spec 0 (100 - inject_Z nulls / inject_Z (row_count md) * 200))
      as [[H ->]|[H ->]]; lra.
Qed.

Lemma integrity_loop_range (md : DatasetMetadata) (cols : list string)
                           (acc : list Q) :
  metadata_invariants md ->
  Forall (in_range 0 100) acc ->
  exists scores,
    integrity_loop md cols acc = Ok scores
    /\ Forall (in_range 0 100) scores
    /\ List.length scores = (List.length acc + List.length cols)%nat.
Proof.
  intros Hinv. revert acc.
  induction cols as [|col cols IH]; intros acc Hacc; simpl.
  - exists acc. repeat split; auto.
  - destruct (integrity_of_range md col Hinv) as (s & -> & Hs). simpl.
    destruct (IH (acc ++ [s])) as (scores & Hrun & Hall & Hlen).
    { apply Forall_app. split; [assumption | now constructor]. }
    exists scores. rewrite length_app in Hlen. simpl in Hlen.
    repeat split; auto; lia.
Qed.

Lemma score_integrity_range (md : DatasetMetadata) :
  metadata_invariants md ->
  exists s, score_integrity md = Ok s /\ in_range 0 100 s.
Proof.
  intros Hinv. unfold score_integrity.
  destruct (cols_hinted md ID) as [|c cs] eqn:E.
  - exists 100. split; [reflexivity | unfold in_range; lra].
  - destruct (integrity_loop_range md (c :: cs) [] Hinv (Forall_nil _))
      as (scores & -> & Hall & Hlen).
    simpl. eexists. split; [reflexivity|].
    apply average_bounds; [|assumption].
    destruct scores; [simpl in Hlen; lia | discriminate].
Qed.

(** ** Rounding to two decimals keeps a score inside its bounds *)

Lemma round_half_even_bounds (a b : Z) (x : Q) :
  inject_Z a <= x <= inject_Z b ->
  (a <= round_half_even x <= b)%Z.
Proof.
  intros [Ha Hb].
  assert (Hfa : (a <= Qfloor x)%Z).
  { rewrite <- (Qfloor_Z a). now apply Qfloor_resp_le. }
  assert (Hfb : (Qfloor x <= b)%Z).
  { rewrite <- (Qfloor_Z b). now apply Qfloor_resp_le. }
  assert (Hup : 1 # 2 <= x - inject_Z (Qfloor x) -> (Qfloor x + 1 <= b)%Z).
  { intros Hr. destruct (Z_lt_le_dec (Qfloor x) b) as [|Hge]; [lia|].
    exfalso. rewrite Zle_Qle in Hge. lra. }
  unfold round_half_even.
  destruct (Qcompare_spec (x - inject_Z (Qfloor x)) (1 # 2)) as [He|Hl|Hg].
  - destruct (Z.even (Qfloor x)); [lia|].
    split; [lia | apply Hup; lra].
  - lia.
  - split; [lia | apply Hup; lra].
Qed.

Lemma round2_bounds (a b : Z) (q : Q) :
  inject_Z a / 100 <= q <= inject_Z b / 100 ->
  inject_Z a / 100 <= round2 q <= inject_Z b / 100.
Proof.
  intros [Ha Hb].
  assert (Ea : inject_Z a == inject_Z a / 100 * 100) by field.
  assert (Eb : inject_Z b == inject_Z b / 100 * 100) by field.
  destruct (round_half_even_bounds a b (q * 100)) as [H1 H2].
  { rewrite Ea, Eb. split; lra. }
  unfold round2. rewrite Zle_Qle in H1, H2. split.
  - apply Qle_shift_div_l; [lra|]. rewrite <- Ea. exact H1.
  - apply Qle_shift_div_r; [lra|]. rewrite <- Eb. exact H2.
Qed.

Lemma round2_score (q : Q) : in_range 0 100 q -> in_range 0 100 (round2 q).
Proof.
  intros [H0 H1]. unfold in_range.
  assert (E0 : inject_Z 0 / 100 == 0) by reflexivity.
  assert (E1 : inject_Z 10000 / 100 == 100) by reflexivity.
  destruct (round2_bounds 0 10000 q) as [Hlo Hhi].
  - rewrite E0, E1. split; assumption.
  - rewrite E0 in Hlo. rewrite E1 in Hhi. split; assumption.
Qed.

(** ** The weighted sum of the base score *)

Lemma get_default_built {V} (f : string -> V) (ks : list string) (k : string)
                        (dflt : V) :
  In k ks -> Py.get_default (map (fun d => (d, f d)) ks) k dflt = f k.
Proof.
  unfold Py.get_default. induction ks as [|k' ks IH]; simpl; [tauto|].
  intros Hin. destruct (String.eqb_spec k' k) as [->|Hne]; [reflexivity|].
  apply IH. destruct Hin; congruence.
Qed.

Lemma sum_map_ext_in {A} (f g : A -> Q) (xs : list A) :
  (forall x, In x xs -> f x == g x) -> Py.sum (map f xs) == Py.sum (map g xs).
Proof.
  induction xs as [|x xs IH]; intros H; simpl; [reflexivity|].
  rewrite !sum_cons. rewrite (H x) by (simpl; auto).
  rewrite IH by (intros; apply H; simpl; auto). reflexivity.
Qed.

Lemma weighted_sum_built (dims w : dict Q) :
  weighted_sum
    (map (fun dim => (dim, Py.get_default dims dim 0)) required_dimensions) w
  == Py.sum (map (fun dim => Py.get_default dims dim 0
                             * Py.get_default w dim 0)
                 required_dimensions).
Proof.
  unfold weighted_sum. apply sum_map_ext_in. intros dim Hin.
  now rewrite (get_default_built (fun d => Py.get_default dims d 0)).
Qed.

Lemma weighted_bounds (s w : string -> Q) (ks : list string) :
  (forall k, in_range 0 100 (s k)) -> (forall k, 0 <= w k) ->
  0 <= Py.sum (map (fun k => s k * w k) ks) <= 100 * Py.sum (map w ks).
Proof.
  intros Hs Hw. induction ks as [|k ks IH]; simpl.
  - unfold Py.sum; simpl. lra.
  - rewrite !sum_cons. destruct (Hs k) as [H0 H1]. specialize (Hw k).
    assert (0 <= s k * w k) by (apply Qmult_le_0_compat; assumption).
    assert (s k * w k <= 100 * w k) by (apply Qmult_le_compat_r; assumption).
    lra.
Qed.

Lemma get_default_cons {V} (k0 : string) (v0 : V) (d : dict V) (k : string)
                       (dflt : V) :
  Py.get_default ((k0, v0) :: d) k dflt
  = if String.eqb k0 k then v0 else Py.get_default d k dflt.
Proof. unfold Py.get_default. simpl. now destruct (String.eqb k0 k). Qed.

(** The looked-up weights of distinct keys add up to at most the total of
    a mapping without negative values. *)
Lemma lookups_le_total (w : dict Q) (ks : list string) :
  NoDup ks -> Forall (fun v => 0 <= v) (Py.values w) ->
  Py.sum (map (fun k => Py.get_default w k 0) ks) <= Py.sum (Py.values w).
Proof.
  revert ks. induction w as [|[k0 v0] w IH]; intros ks Hnd Hpos.
  - rewrite (sum_map_ext_in _ (fun _ => 0)) by reflexivity.
    clear. induction ks; simpl.
    + apply Qle_refl.
    + rewrite sum_cons. unfold Py.values in *. simpl in *.
      unfold Py.sum in IHks |- * . simpl in *. lra.
  - unfold Py.values in *. simpl in Hpos |- *. inversion Hpos; subst.
    rewrite sum_cons.
    assert (Hsplit : forall ks, NoDup ks ->
              Py.sum (map (fun k => Py.get_default ((k0, v0) :: w) k 0) ks)
              <= v0 + Py.sum (map (fun k => Py.get_default w k 0)
                                  (filter (fun k => negb (String.eqb k0 k)) ks))
              /\ (~ In k0 ks ->
                  Py.sum (map (fun k => Py.get_default ((k0, v0) :: w) k 0) ks)
                  <= Py.sum (map (fun k => Py.get_default w k 0)
                                 (filter (fun k => negb (String.eqb k0 k)) ks)))).
    { clear - H1. induction 1 as [|k ks Hk Hnd [IH1 IH2]]; simpl.
      - unfold Py.sum; simpl. split; [lra | intros _; lra].
      - rewrite !sum_cons, (get_default_cons k0 v0 w k 0).
        destruct (String.eqb_spec k0 k) as [->|Hne]; simpl.
        + specialize (IH2 Hk). split; [lra | tauto].
        + rewrite sum_cons.
          split; [lra|]. intros Hn. assert (H : ~ In k0 ks) by tauto.
          specialize (IH2 H). lra. }
    destruct (Hsplit ks Hnd) as [Hle _].
    eapply Qle_trans; [exact Hle|].
    apply Qplus_le_r. apply IH; [|assumption].
    now apply NoDup_filter.
Qed.

Lemma required_dimensions_NoDup : NoDup required_dimensions.
Proof.
  unfold required_dimensions.
  repeat (constructor; [simpl; intuition discriminate|]). constructor.
Qed.

Lemma accepted_weights (w : dict Q) (scores : dict Q) (b : Q) :
  calculate_base_dqs scores (Some w) = Ok b ->
  Qabs (Py.sum (Py.values w) - 1) <= 1 # 1000
  /\ b = round2
           (weighted_sum
              (map (fun dim => (dim, Py.get_default scores dim 0))
                   required_dimensions) w).
Proof.
  unfold calculate_base_dqs, Qltb.
  destruct (Qle_bool _ _) eqn:E; simpl; [|discriminate].
  intros [= <-]. split; [|reflexivity].
  now apply Qle_bool_iff.
Qed.

Lemma base_default_range (scores : dict Q) :
  Forall (in_range 0 100) (Py.values scores) ->
  exists b, calculate_base_dqs scores None = Ok b /\ in_range 0 100 b.
Proof.
  intros Hs. eexists. split; [reflexivity|].
  apply round2_score. unfold in_range. rewrite weighted_sum_built.
  set (defaults := map (fun dim => (dim, 1 / 7)) required_dimensions).
  destruct (weighted_bounds (fun k => Py.get_default scores k 0)
              (fun k => Py.get_default defaults k 0) required_dimensions)
    as [Hlo Hhi].
  - intros k. apply (get_default_Forall (in_range 0 100)).
    + unfold Py.values in Hs. now rewrite Forall_map in Hs.
    + unfold in_range; lra.
  - intros k. apply (get_default_Forall (fun v => 0 <= v)); [|lra].
    subst defaults. repeat constructor; simpl; discriminate.
  - split; [exact Hlo|].
    eapply Qle_trans; [exact Hhi|]. vm_compute. discriminate.
Qed.

Lemma base_weighted_range (scores w : dict Q) (b : Q) :
  Forall (in_range 0 100) (Py.values scores) ->
  Forall (fun v => 0 <= v) (Py.values w) ->
  calculate_base_dqs scores (Some w) = Ok b ->
  0 <= b <= 100 * (1001 # 1000)
  /\ (Py.sum (Py.values w) <= 1 -> b <= 100).
Proof.
  intros Hs Hw Hrun. destruct (accepted_weights _ _ _ Hrun) as [Hacc ->].
  apply Qabs_Qle_condition in Hacc. destruct Hacc as [_ Hacc].
  destruct (weighted_bounds (fun k => Py.get_default scores k 0)
              (fun k => Py.get_default w k 0) required_dimensions)
    as [Hlo Hhi].
  - intros k. apply (get_default_Forall (in_range 0 100)).
    + unfold Py.values in Hs. now rewrite Forall_map in Hs.
    + unfold in_range; lra.
  - intros k. apply (get_default_Forall (fun v => 0 <= v)); [|lra].
    unfold Py.values in Hw. now rewrite Forall_map in Hw.
  - pose proof (lookups_le_total w _ required_dimensions_NoDup Hw) as Htot.
    rewrite <- weighted_sum_built in Hlo, Hhi.
    set (ws := weighted_sum _ w) in *.
    assert (E0 : inject_Z 0 / 100 == 0) by reflexivity.
    assert (E1 : inject_Z 10010 / 100 == 100 * (1001 # 1000)) by reflexivity.
    assert (E2 : inject_Z 10000 / 100 == 100) by reflexivity.
    split.
    + rewrite <- E0, <- E1. apply round2_bounds. rewrite E0, E1. lra.
    + intros Hone. rewrite <- E2.
      apply (round2_bounds 0 10000). rewrite E0, E2. lra.
Qed.


Lemma round_half_even_comp (x y : Q) :
  x == y -> round_half_even x = round_half_even y.
Proof.
  intros E. unfold round_half_even.
  rewrite (Qfloor_comp x y E).
  assert (Er : x - inject_Z (Qfloor y) == y - inject_Z (Qfloor y))
    by (rewrite E; reflexivity).
  now rewrite (Qcompare_comp _ _ Er (1 # 2) (1 # 2) (Qeq_refl _)).
Qed.

Lemma round2_comp (x y : Q) : x == y -> round2 x = round2 y.
Proof.
  intros E. unfold round2.
  assert (E' : x * 100 == y * 100) by (rewrite E; reflexivity).
  now rewrite (round_half_even_comp _ _ E').
Qed.
(** ** C1: ranges of the dimension scores and of the base score *)

(** Proves [Forall P] of an explicit list entry by entry. *)
Ltac each_entry tac := repeat (apply Forall_cons; [tac|]); apply Forall_nil.

Ltac by_evaluation := unfold in_range; simpl; split; discriminate.

(** For metadata within the invariants, [calculate_all_dimensions]
    returns exactly when the timeliness scorer does, and the seven scores
    it returns are in range. *)
Lemma calculate_all_dimensions_range (now : Z) (md : DatasetMetadata) :
  metadata_invariants md ->
  (naive md ->
   exists scores,
     calculate_all_dimensions now md = Ok scores
     /\ Py.keys scores = required_dimensions
     /\ Forall (in_range 0 100) (Py.values scores))
  /\ (~ naive md -> calculate_all_dimensions now md = Raise TypeError).
Proof.
  intros Hinv. unfold calculate_all_dimensions. split.
  - intros Hn. rewrite (score_timeliness_naive now md Hn).
    destruct (score_integrity_range md Hinv) as (s & -> & Hs). simpl.
    eexists. split; [reflexivity|]. split; [reflexivity|].
    unfold Py.values; simpl.
    each_entry ltac:(auto using score_accuracy_range, score_completeness_range,
                       score_consistency_range, timeliness_value_range,
                       score_uniqueness_range, score_validity_range).
  - intros Hn. now rewrite (score_timeliness_aware now md Hn).
Qed.

(** C1 on the code.  The part of the claim about the dimension scores
    holds: for metadata that satisfies the invariants of the data model,
    [calculate_all_dimensions] returns exactly when no timestamp metric
    carries a time zone, whatever the clock shows, and the seven scores it
    returns lie in [0, 100].  For scores in [0, 100], [calculate_base_dqs]
    with the default weights returns a base score in [0, 100].  With
    explicit weights it validates their sum alone: weights that are not
    negative keep the base score in [0, 100.1], and in [0, 100] when they
    sum to at most 1, and the weight 1.001 on accuracy takes seven scores
    of 100 to 100.1; the weights 2 on accuracy and -1 on completeness,
    which sum to 1.0, are accepted and take the single score 100 to 200,
    outside the range the claim and the docstring of the function
    state. *)
Theorem scores_in_range :
  (forall (now : Z) (md : DatasetMetadata),
      metadata_invariants md ->
      (naive md <-> exists scores, calculate_all_dimensions now md = Ok scores)
      /\ (forall scores,
             calculate_all_dimensions now md = Ok scores ->
             Py.keys scores = required_dimensions
             /\ Forall (in_range 0 100) (Py.values scores)))
  /\ (forall scores : dict Q,
         Forall (in_range 0 100) (Py.values scores) ->
         exists b, calculate_base_dqs scores None = Ok b /\ in_range 0 100 b)
  /\ (forall (scores w : dict Q) (b : Q),
         Forall (in_range 0 100) (Py.values scores) ->
         Forall (fun v => 0 <= v) (Py.values w) ->
         calculate_base_dqs scores (Some w) = Ok b ->
         in_range 0 (100 * (1001 # 1000)) b
         /\ (Py.sum (Py.values w) <= 1 -> in_range 0 100 b))
  /\ Forall (in_range 0 100) (Py.values perfect_scores)
  /\ calculate_base_dqs perfect_scores (Some heavy_weights) = Ok (10010 # 100)
  /\ ~ in_range 0 100 (10010 # 100)
  /\ Forall (in_range 0 100) (Py.values accuracy_only)
  /\ calculate_base_dqs accuracy_only (Some signed_weights) = Ok (20000 # 100)
  /\ ~ in_range 0 100 (20000 # 100).
Proof.
  repeat match goal with |- _ /\ _ => split end.
  - intros now md Hinv.
    destruct (calculate_all_dimensions_range now md Hinv) as [Hret Hraise].
    split; [split|].
    + intros Hn. destruct (Hret Hn) as (scores & Hrun & _). now exists scores.
    + intros (scores & Hrun). destruct (naive_dec md) as [Hn|Hn]; [exact Hn|].
      rewrite (Hraise Hn) in Hrun. discriminate.
    + intros scores Hrun. destruct (naive_dec md) as [Hn|Hn].
      * destruct (Hret Hn) as (scores' & Hrun' & Hkeys & Hall).
        assert (scores' = scores) as <- by congruence. auto.
      * rewrite (Hraise Hn) in Hrun. discriminate.
  - apply base_default_range.
  - intros scores w b Hs Hw Hrun.
    destruct (base_weighted_range scores w b Hs Hw Hrun) as [[H0 H1] H2].
    unfold in_range. auto.
  - unfold Py.values; simpl; each_entry by_evaluation.
  - reflexivity.
  - intros [_ Hle]. vm_compute in Hle. congruence.
  - unfold Py.values; simpl; each_entry by_evaluation.
  - reflexivity.
  - intros [_ Hle]. vm_compute in Hle. congruence.
Qed.

Lemma meta_invariants : metadata_invariants meta.
Proof.
  unfold metadata_invariants, counts_bounded. simpl.
  split; [lia|]. split; each_entry ltac:(simpl; lia).
Qed.

Lemma meta_naive : naive meta.
Proof. unfold naive. simpl. each_entry ltac:(reflexivity). Qed.

Lemma sample_scores_range : Forall (in_range 0 100) (Py.values sample_scores).
Proof. unfold Py.values; simpl. each_entry by_evaluation. Qed.

Lemma custom_weights_nonneg : Forall (fun v => 0 <= v) (Py.values custom_weights).
Proof. unfold Py.values; simpl. each_entry ltac:(simpl; discriminate). Qed.

(** The theorem at the mock metadata of [dimensions.py] and at the scores
    and payment weights of [scoring.py]. *)
Lemma scores_in_range_witness :
  (exists scores, calculate_all_dimensions sample_now meta = Ok scores)
  /\ (exists b,
         calculate_base_dqs sample_scores None = Ok b /\ in_range 0 100 b)
  /\ in_range 0 100 (9355 # 100)
  /\ calculate_base_dqs accuracy_only (Some signed_weights) = Ok (20000 # 100).
Proof.
  split; [|split; [|split]].
  - exact (proj1 (proj1 (proj1 scores_in_range sample_now meta
                           meta_invariants)) meta_naive).
  - exact (proj1 (proj2 scores_in_range) sample_scores sample_scores_range).
  - refine (proj2 (proj1 (proj2 (proj2 scores_in_range)) sample_scores
                     custom_weights (9355 # 100) sample_scores_range
                     custom_weights_nonneg _) _).
    + vm_compute. reflexivity.
    + vm_compute. discriminate.
  - exact (proj1 (proj2 (proj2 (proj2 (proj2 (proj2 (proj2 (proj2
                     scores_in_range)))))))).
Defined.

(** ** C2: validation of the weight mapping *)

Lemma get_set_other {V} (d : dict V) (k k' : string) (v : V) :
  k <> k' -> Py.get (Py.set d k v) k' = Py.get d k'.
Proof.
  intros Hne. induction d as [|[k0 v0] d IH]; simpl.
  - destruct (String.eqb_spec k k'); [contradiction | reflexivity].
  - destruct (String.eqb_spec k0 k) as [->|Hk]; simpl.
    + destruct (String.eqb_spec k k'); [contradiction | reflexivity].
    + now rewrite IH.
Qed.

Lemma get_set_same {V} (d : dict V) (k : string) (v : V) :
  Py.get (Py.set d k v) k = Some v.
Proof.
  induction d as [|[k0 v0] d IH]; simpl.
  - now rewrite String.eqb_refl.
  - destruct (String.eqb_spec k0 k) as [->|Hk]; simpl.
    + now rewrite String.eqb_refl.
    + destruct (String.eqb_spec k0 k); [contradiction | exact IH].
Qed.

Lemma calculate_base_dqs_raises (scores w : dict Q) :
  1 # 1000 < Qabs (Py.sum (Py.values w) - 1) ->
  calculate_base_dqs scores (Some w)
  = Raise (ValueError (WeightsNotNormalized (Py.sum (Py.values w)))).
Proof.
  intros H. unfold calculate_base_dqs, Qltb.
  destruct (Qle_bool _ _) eqn:E; [|reflexivity].
  apply Qle_bool_iff in E. lra.
Qed.

Lemma calculate_base_dqs_accepts (scores w : dict Q) :
  Qabs (Py.sum (Py.values w) - 1) <= 1 # 1000 ->
  calculate_base_dqs scores (Some w) = Ok (base_formula scores w).
Proof.
  intros H. unfold calculate_base_dqs, Qltb.
  apply Qle_bool_iff in H. rewrite H. cbn [negb Py.bind].
  apply f_equal. unfold base_formula. apply round2_comp, weighted_sum_built.
Qed.

Lemma missing_weight_ignores_score (scores w : dict Q) (dim : string) (v : Q) :
  Py.get w dim = None ->
  base_formula (Py.set scores dim v) w = base_formula scores w.
Proof.
  intros Hw. unfold base_formula. apply round2_comp, sum_map_ext_in.
  intros d _. destruct (String.eqb_spec dim d) as [<-|Hne].
  - unfold Py.get_default at 2 4. rewrite Hw. lra.
  - unfold Py.get_default at 1 3. now rewrite get_set_other.
Qed.

(** C2.  With an explicit weight mapping, [calculate_base_dqs] raises
    exactly when the sum of the mapping's values differs from 1.0 by more
    than 0.001; what it raises is the [ValueError] about the weights, and
    it is the same for all scores, so no score has been aggregated.  With
    the weights omitted it never raises.  A mapping within the tolerance
    always gives a score: the rounded sum of score times looked-up weight
    over the seven dimensions, where a dimension missing from the mapping
    has weight 0.0, so that its score does not matter. *)
Theorem weight_validation :
  (forall scores w : dict Q,
      (exists e, calculate_base_dqs scores (Some w) = Raise e)
      <-> 1 # 1000 < Qabs (Py.sum (Py.values w) - 1))
  /\ (forall (scores w : dict Q) (e : exn),
         calculate_base_dqs scores (Some w) = Raise e ->
         e = ValueError (WeightsNotNormalized (Py.sum (Py.values w)))
         /\ forall scores', calculate_base_dqs scores' (Some w) = Raise e)
  /\ (forall scores : dict Q, exists b, calculate_base_dqs scores None = Ok b)
  /\ (forall scores w : dict Q,
         Qabs (Py.sum (Py.values w) - 1) <= 1 # 1000 ->
         calculate_base_dqs scores (Some w) = Ok (base_formula scores w)
         /\ forall (dim : string) (v : Q),
              Py.get w dim = None ->
              calculate_base_dqs (Py.set scores dim v) (Some w)
              = Ok (base_formula scores w)).
Proof.
  split; [|split; [|split]].
  - intros scores w. split.
    + intros [e He].
      destruct (Qlt_le_dec (1 # 1000) (Qabs (Py.sum (Py.values w) - 1)))
        as [|Hle]; [assumption|].
      rewrite (calculate_base_dqs_accepts scores w Hle) in He. discriminate.
    + intros H. eexists. now apply calculate_base_dqs_raises.
  - intros scores w e He.
    destruct (Qlt_le_dec (1 # 1000) (Qabs (Py.sum (Py.values w) - 1)))
      as [Hlt|Hle].
    + rewrite (calculate_base_dqs_raises scores w Hlt) in He.
      injection He as <-. split; [reflexivity|].
      intros scores'. now apply calculate_base_dqs_raises.
    + rewrite (calculate_base_dqs_accepts scores w Hle) in He. discriminate.
  - intros scores. eexists. reflexivity.
  - intros scores w Hle. split; [now apply calculate_base_dqs_accepts|].
    intros dim v Hmiss.
    rewrite (calculate_base_dqs_accepts _ w Hle).
    apply f_equal. now apply missing_weight_ignores_score.
Qed.

(** The theorem at the scores and payment weights of [scoring.py], at a
    mapping that sums to 0.5, and at a mapping without the key of the
    score that changes. *)
Lemma weight_validation_witness :
  (exists e, calculate_base_dqs sample_scores (Some short_weights) = Raise e)
  /\ calculate_base_dqs sample_scores (Some custom_weights)
     = Ok (base_formula sample_scores custom_weights)
  /\ calculate_base_dqs (Py.set sample_scores "validity" 40)
                        (Some heavy_weights)
     = Ok (base_formula sample_scores heavy_weights).
Proof.
  split; [|split].
  - apply (proj2 (proj1 weight_validation sample_scores short_weights)).
    vm_compute. reflexivity.
  - refine (proj1 (proj2 (proj2 (proj2 weight_validation))
                     sample_scores custom_weights _)).
    vm_compute. discriminate.
  - refine (proj2 (proj2 (proj2 (proj2 weight_validation))
                     sample_scores heavy_weights _) "validity"%string 40 _).
    + vm_compute. discriminate.
    + reflexivity.
Defined.

(** ** C3: applicability gating *)

Lemma all_signals_iff (required : list string) (sigs : dict bool) :
  all_signals required sigs = true <-> signals_satisfied required sigs.
Proof.
  unfold signals_satisfied. induction required as [|r required IH]; simpl.
  - split; [intros _ s [] | reflexivity].
  - unfold Py.get_default at 1.
    destruct (Py.get sigs r) as [[|]|] eqn:E; simpl.
    + rewrite IH. split.
      * intros H s [<-|Hin]; [exact E | now apply H].
      * intros H s Hin. apply H. now right.
    + split; [discriminate|]. intros H.
      specialize (H r (or_introl eq_refl)). congruence.
    + split; [discriminate|]. intros H.
      specialize (H r (or_introl eq_refl)). congruence.
Qed.

(** C3.  [is_role_applicable] is true exactly when every required signal
    of the profile is present and true in the signals, so always for an
    empty list of required signals; and when the signals of a dataset do
    not satisfy the profile, [calculate_role_score] called with that
    dataset returns no score and the risk flag false, whatever the scores,
    the base score and alpha. *)
Theorem applicability_gating :
  (forall (p : RoleProfile) (sigs : dict bool),
      is_role_applicable p sigs = true
      <-> signals_satisfied (or_default (required_signals p) []) sigs)
  /\ (forall (p : RoleProfile) (sigs : dict bool),
         required_signals p = Some [] -> is_role_applicable p sigs = true)
  /\ (forall (base_dqs : Q) (scores : dict Q) (p : RoleProfile)
             (md : DatasetMetadata) (alpha : Q),
         ~ signals_satisfied (or_default (required_signals p) []) (signals md) ->
         calculate_role_score base_dqs scores p (of_metadata md) alpha
         = (None, false)).
Proof.
  split; [|split].
  - intros p sigs. apply all_signals_iff.
  - intros p sigs E. unfold is_role_applicable. now rewrite E.
  - intros base_dqs scores p md alpha Hno.
    unfold calculate_role_score, of_metadata, not_applicable.
    destruct (is_role_applicable p (signals md)) eqn:E; [|reflexivity].
    exfalso. apply Hno. now apply all_signals_iff.
Qed.

(** The theorem at the Fraud Analyst profile and the mock metadata of
    [dimensions.py], which has no signals, and at the Data Engineer
    profile, which requires none. *)
Lemma applicability_gating_witness :
  is_role_applicable data_engineer signals_without_id = true
  /\ calculate_role_score 90 sample_scores fraud_analyst (of_metadata meta)
                          default_alpha
     = (None, false).
Proof.
  split.
  - apply (proj1 (proj2 applicability_gating)). reflexivity.
  - apply (proj2 (proj2 applicability_gating)).
    intros H. specialize (H "has_transaction_id"%string (or_introl eq_refl)).
    discriminate H.
Defined.

(** ** C4: the check is skipped without a metadata object *)

Lemma not_applicable_without_signals (p : RoleProfile) (metadata : Py.arg) :
  without_signals metadata -> not_applicable p metadata = false.
Proof. intros [->|[t ->]]; [reflexivity | now destruct t]. Qed.

Lemma explanation_starts_with_perspective `{Builtins}
      (p : RoleProfile) (name : string) (scores : dict Q) :
  exists rest,
    join nl (explanation_parts p name scores)
    = String "*" (String "*" rest).
Proof.
  unfold explanation_parts.
  destruct (failures_of _ _ _), (or_default (critical_dimensions p) []);
    try destruct (Qltb _ _); simpl; eexists; reflexivity.
Qed.

Lemma Qltb_lt (x y : Q) : Qltb x y = true <-> x < y.
Proof.
  unfold Qltb. destruct (Qle_bool y x) eqn:E; simpl.
  - apply Qle_bool_iff in E. split; [discriminate | lra].
  - split; [intros _ | reflexivity].
    apply Qnot_le_lt. intros Hle. apply Qle_bool_iff in Hle. congruence.
Qed.

(** The failures the explanation lists are the critical dimensions whose
    score, 0 when missing, is strictly below the threshold. *)
Lemma failures_of_spec (dims : list string) (scores : dict Q) (threshold : Q)
                       (dim : string) (s : Q) :
  In (dim, s) (failures_of dims scores threshold)
  <-> In dim dims /\ s = Py.get_default scores dim 0 /\ s < threshold.
Proof.
  unfold failures_of. rewrite filter_In, in_map_iff. simpl.
  rewrite Qltb_lt. split.
  - intros [(d & [= <- <-] & Hin) Hlt]. auto.
  - intros (Hin & -> & Hlt). split; [|exact Hlt]. now exists dim.
Qed.

(** C4.  When [metadata] is omitted, [None] or an object without a
    [signals] attribute, [calculate_role_score] returns a numeric score,
    the blend for the enforced alpha, and the risk flag of the critical
    dimensions, for every profile, so also for one whose required signals
    the dataset does not satisfy.  [explain_role_impact] returns the full
    explanation and never the not-applicable text: the perspective of the
    role, its description and an empty line, followed by the findings.
    Without critical dimensions the finding is the notice on accuracy or
    the balanced overview; with critical dimensions that all reach the
    threshold it is the three lines of no detected risk; otherwise it is
    the heading of the detected risks, one line per failing dimension and
    the impact; the failing dimensions are the critical dimensions that
    score strictly below the threshold.  The not-applicable branch is taken only for an object
    that is true and carries signals that do not satisfy the profile. *)
Theorem applicability_check_skipped `{Builtins} :
  (forall (base_dqs : Q) (scores : dict Q) (p : RoleProfile)
          (metadata : Py.arg) (alpha : Q),
      without_signals metadata ->
      calculate_role_score base_dqs scores p metadata alpha
      = (Some (blend (enforce_alpha alpha) base_dqs p scores),
         critical_risk (or_default (critical_dimensions p) []) scores
                       (or_default (risk_threshold p) 75))
      /\ forall name,
           role_name p = Some name ->
           let dims := or_default (critical_dimensions p) [] in
           let threshold := or_default (risk_threshold p) 75 in
           let failures := failures_of dims scores threshold in
           (forall dim s,
               In (dim, s) failures
               <-> In dim dims /\ s = Py.get_default scores dim 0
                   /\ s < threshold)
           /\ exists findings,
             explain_role_impact p scores metadata
             = Ok (join nl (("**Perspective: " ++ name ++ "**")%string
                            :: description p :: EmptyString :: findings))
             /\ (dims = [] ->
                 findings
                 = [if Qltb (Py.get_default scores "accuracy" 100) 60
                    then "⚠️ General Notice: Data Accuracy is significantly low."
                    else "ℹ️ Balanced Overview: Base DQS reflects the general state."]%string)
             /\ (dims <> [] -> failures = [] ->
                 findings
                 = ["✅ **No critical risks detected.**"%string;
                    ("All critical dimensions (" ++ join ", " dims
                     ++ ") are above the risk threshold of "
                     ++ str_number threshold ++ ".")%string;
                    "The dataset is suitable for this specific role/use-case."%string])
             /\ (failures <> [] ->
                 findings
                 = (["⚠️ **Critical Data Quality Risks Detected:**"%string;
                     ("The following dimensions fell below the " ++ name
                      ++ " risk threshold (" ++ str_number threshold
                      ++ "):")%string]
                    ++ map (fun f =>
                              ("- **" ++ title (fst f) ++ "**: "
                               ++ format_1f (snd f) ++ " (Threshold: "
                               ++ str_number threshold ++ ")")%string)
                           failures
                    ++ [(nl ++ "**Impact:**")%string;
                        ("These deficiencies directly impact "
                         ++ risk_level p
                         ++ " objectives. Proceed with caution.")%string])%list)
             /\ explain_role_impact p scores metadata
                <> Ok (not_applicable_text
                         name (or_default (required_signals p) [])))
  /\ (forall (p : RoleProfile) (metadata : Py.arg),
         not_applicable p metadata = true ->
         exists sigs,
           metadata = PyObject true (Some sigs)
           /\ is_role_applicable p sigs = false).
Proof.
  split.
  - intros base_dqs scores p metadata alpha Hm.
    pose proof (not_applicable_without_signals p metadata Hm) as Hskip.
    split.
    + unfold calculate_role_score. now rewrite Hskip.
    + intros name Hname. cbv zeta.
      split; [intros dim s; apply failures_of_spec|].
      assert (Hne : explain_role_impact p scores metadata
                    <> Ok (not_applicable_text
                             name (or_default (required_signals p) []))).
      { unfold explain_role_impact. rewrite Hname, Hskip.
        destruct (explanation_starts_with_perspective p name scores)
          as [rest ->].
        unfold not_applicable_text. simpl. discriminate. }
      revert Hne. unfold explain_role_impact. rewrite Hname, Hskip.
      unfold explanation_parts.
      destruct (or_default (critical_dimensions p) []) as [|d ds].
      * change (failures_of [] scores (or_default (risk_threshold p) 75))
          with (@nil (string * Q)).
        destruct (Qltb (Py.get_default scores "accuracy" 100) 60);
          intros Hne; eexists;
          (split; [reflexivity|]); (split; [reflexivity|]);
          (split; [congruence|]); (split; [congruence | exact Hne]).
      * destruct (failures_of (d :: ds) scores
                    (or_default (risk_threshold p) 75)) as [|f fs];
          intros Hne; eexists;
          (split; [reflexivity|]); (split; [discriminate|]).
        -- split; [reflexivity|]. split; [congruence | exact Hne].
        -- split; [congruence|]. split; [reflexivity | exact Hne].
  - intros p [|[|] [sigs|]]; simpl; try discriminate.
    intros E. exists sigs. split; [reflexivity|].
    now destruct (is_role_applicable p sigs).
Qed.

(** The theorem at the Fraud Analyst profile, whose required signal a
    dataset without an ID column does not have: with that dataset passed
    the role is not applicable, with no metadata it is scored and
    explained. *)
Lemma applicability_check_skipped_witness :
  not_applicable fraud_analyst (PyObject true (Some signals_without_id)) = true
  /\ calculate_role_score 90 sample_scores fraud_analyst PyNone default_alpha
     = (Some (blend (enforce_alpha default_alpha) 90 fraud_analyst
                    sample_scores),
        critical_risk (or_default (critical_dimensions fraud_analyst) [])
                      sample_scores
                      (or_default (risk_threshold fraud_analyst) 75))
  /\ @explain_role_impact sample_builtins fraud_analyst sample_scores PyNone
     = Ok (join nl
             ["**Perspective: Fraud Analyst**";
              "Detects anomalies; relies on unique identities and real-time signals.";
              "";
              "✅ **No critical risks detected.**";
              "All critical dimensions (uniqueness, timeliness) are above the risk threshold of 75.";
              "The dataset is suitable for this specific role/use-case."]%string).
Proof.
  split; [reflexivity|]. split.
  - exact (proj1 (proj1 (@applicability_check_skipped sample_builtins)
                    90 sample_scores fraud_analyst PyNone default_alpha
                    (or_introl eq_refl))).
  - destruct (proj2 (proj1 (@applicability_check_skipped sample_builtins)
                       90 sample_scores fraud_analyst PyNone default_alpha
                       (or_introl eq_refl))
                "Fraud Analyst"%string eq_refl)
      as (_ & findings & Htext & _ & Hclean & _).
    rewrite Htext, Hclean; [reflexivity | discriminate | reflexivity].
Defined.

(** ** C5: the risk flag *)

Lemma critical_risk_iff (dims : list string) (scores : dict Q) (threshold : Q) :
  critical_risk dims scores threshold = true
  <-> exists dim, In dim dims /\ Py.get_default scores dim 0 < threshold.
Proof.
  induction dims as [|d dims IH]; simpl.
  - split; [discriminate | intros (dim & [] & _)].
  - unfold Qltb at 1.
    destruct (Qle_bool threshold (Py.get_default scores d 0)) eqn:E; simpl.
    + apply Qle_bool_iff in E. rewrite IH. split.
      * intros (dim & Hin & Hlt). exists dim. auto.
      * intros (dim & [<-|Hin] & Hlt); [lra | exists dim; auto].
    + split; [intros _ | reflexivity]. exists d. split; [now left|].
      apply Qnot_le_lt. intros Hle. apply Qle_bool_iff in Hle. congruence.
Qed.

Lemma critical_risk_perm (dims dims' : list string) (scores : dict Q)
                         (threshold : Q) :
  Permutation dims dims' ->
  critical_risk dims scores threshold = critical_risk dims' scores threshold.
Proof.
  intros Hp.
  destruct (critical_risk dims scores threshold) eqn:E;
    destruct (critical_risk dims' scores threshold) eqn:E'; try reflexivity.
  - apply critical_risk_iff in E. destruct E as (dim & Hin & Hlt).
    assert (critical_risk dims' scores threshold = true) as E''.
    { apply critical_risk_iff. exists dim. split; [|assumption].
      now apply (Permutation_in _ Hp). }
    congruence.
  - apply critical_risk_iff in E'. destruct E' as (dim & Hin & Hlt).
    assert (critical_risk dims scores threshold = true) as E''.
    { apply critical_risk_iff. exists dim. split; [|assumption].
      now apply (Permutation_in _ (Permutation_sym Hp)). }
    congruence.
Qed.

(** C5.  For a role that is applicable (the not-applicable branch is not
    taken), the risk flag of [calculate_role_score] is true exactly when
    some critical dimension of the profile scores strictly below the risk
    threshold, a dimension missing from the scores counting as 0; the flag
    is the same for any reordering of the critical dimensions; and it is
    false for an empty list of critical dimensions. *)
Theorem risk_detection :
  forall (base_dqs : Q) (scores : dict Q) (p : RoleProfile)
         (metadata : Py.arg) (alpha : Q),
    not_applicable p metadata = false ->
    (snd (calculate_role_score base_dqs scores p metadata alpha) = true
     <-> exists dim,
           In dim (or_default (critical_dimensions p) [])
           /\ Py.get_default scores dim 0 < or_default (risk_threshold p) 75)
    /\ (forall dims',
           Permutation (or_default (critical_dimensions p) []) dims' ->
           snd (calculate_role_score base_dqs scores (with_critical p dims')
                                     metadata alpha)
           = snd (calculate_role_score base_dqs scores p metadata alpha))
    /\ (or_default (critical_dimensions p) [] = [] ->
        snd (calculate_role_score base_dqs scores p metadata alpha) = false).
Proof.
  intros base_dqs scores p metadata alpha Happ.
  assert (Happ' : forall dims, not_applicable (with_critical p dims) metadata
                               = false).
  { intros dims. revert Happ. unfold not_applicable, is_role_applicable.
    now destruct metadata as [|[|] [sigs|]]. }
  split; [|split].
  - unfold calculate_role_score. rewrite Happ. simpl.
    apply critical_risk_iff.
  - intros dims' Hp. unfold calculate_role_score.
    rewrite Happ, Happ'. simpl. symmetry. now apply critical_risk_perm.
  - intros E. unfold calculate_role_score. rewrite Happ. simpl.
    now rewrite E.
Qed.

(** The theorem at the Fraud Analyst profile, for a dataset that has the
    required signal, at the scores of [scoring.py]. *)
Lemma risk_detection_witness :
  (snd (calculate_role_score 90 sample_scores fraud_analyst PyNone
                             default_alpha) = true
   <-> exists dim,
         In dim (or_default (critical_dimensions fraud_analyst) [])
         /\ Py.get_default sample_scores dim 0
            < or_default (risk_threshold fraud_analyst) 75)
  /\ snd (calculate_role_score 90 sample_scores executive PyNone
                               default_alpha) = false.
Proof.
  split.
  - exact (proj1 (risk_detection 90 sample_scores fraud_analyst PyNone
                    default_alpha eq_refl)).
  - exact (proj2 (proj2 (risk_detection 90 sample_scores executive PyNone
                           default_alpha eq_refl)) eq_refl).
Defined.

(** ** C6: the floor of alpha *)

Lemma enforce_alpha_floor (alpha : Q) : 6 # 10 <= enforce_alpha alpha.
Proof.
  unfold enforce_alpha, Qltb.
  destruct (Qle_bool (6 # 10) alpha) eqn:E; simpl.
  - now apply Qle_bool_iff.
  - apply Qle_refl.
Qed.

Lemma enforce_alpha_below (alpha : Q) :
  alpha < 6 # 10 -> enforce_alpha alpha = 6 # 10.
Proof.
  intros H. unfold enforce_alpha, Qltb.
  destruct (Qle_bool (6 # 10) alpha) eqn:E; [|reflexivity].
  apply Qle_bool_iff in E. lra.
Qed.

Lemma enforce_alpha_above (alpha : Q) :
  6 # 10 <= alpha -> enforce_alpha alpha = alpha.
Proof.
  intros H. unfold enforce_alpha, Qltb.
  apply Qle_bool_iff in H. now rewrite H.
Qed.

(** C6.  A requested alpha strictly below 0.6 gives the result of alpha
    0.6; the coefficient of the base score in the blend is never less than
    0.6; and an alpha of at least 0.6 is used as it is: the score of an
    applicable role is then
    [round(alpha * base + (1 - alpha) * role_component, 2)]. *)
Theorem alpha_floor :
  (forall (base_dqs : Q) (scores : dict Q) (p : RoleProfile)
          (metadata : Py.arg) (alpha : Q),
      alpha < 6 # 10 ->
      calculate_role_score base_dqs scores p metadata alpha
      = calculate_role_score base_dqs scores p metadata (6 # 10))
  /\ (forall alpha : Q, 6 # 10 <= enforce_alpha alpha)
  /\ (forall (base_dqs : Q) (scores : dict Q) (p : RoleProfile)
             (metadata : Py.arg) (alpha : Q),
         6 # 10 <= alpha ->
         not_applicable p metadata = false ->
         fst (calculate_role_score base_dqs scores p metadata alpha)
         = Some (blend alpha base_dqs p scores)).
Proof.
  split; [|split].
  - intros base_dqs scores p metadata alpha H.
    unfold calculate_role_score.
    now rewrite (enforce_alpha_below alpha H).
  - apply enforce_alpha_floor.
  - intros base_dqs scores p metadata alpha H Happ.
    unfold calculate_role_score. rewrite Happ. simpl.
    now rewrite (enforce_alpha_above alpha H).
Qed.

(** The theorem at a requested alpha of 0.25 and of 0.8, for the Data
    Engineer profile and the scores of [scoring.py]. *)
Lemma alpha_floor_witness :
  calculate_role_score 90 sample_scores data_engineer PyNone (1 # 4)
  = calculate_role_score 90 sample_scores data_engineer PyNone (6 # 10)
  /\ fst (calculate_role_score 90 sample_scores data_engineer PyNone (8 # 10))
     = Some (blend (8 # 10) 90 data_engineer sample_scores).
Proof.
  split.
  - apply (proj1 alpha_floor). reflexivity.
  - apply (proj2 (proj2 alpha_floor)); [discriminate | reflexivity].
Defined.

(** ** C9: the bands of the timeliness score *)

Lemma recency_score_of_age (age : Z) :
  recency_score (timedelta_days age) = recency_of_age age.
Proof.
  unfold recency_score, recency_of_age, timedelta_days.
  change nanoseconds_per_day with 86400000000000%Z.
  pose proof (Z.div_mod age 86400000000000 ltac:(lia)) as Hdiv.
  pose proof (Z.mod_pos_bound age 86400000000000 ltac:(lia)) as Hmod.
  set (d := (age / 86400000000000)%Z) in *.
  set (r := (age mod 86400000000000)%Z) in *.
  repeat match goal with
         | |- context [(?a <? ?b)%Z] => destruct (Z.ltb_spec a b)
         | |- context [(?a <=? ?b)%Z] => destruct (Z.leb_spec a b)
         end; try reflexivity; exfalso; lia.
Qed.

(** C9, as the code has it, for metadata whose timestamp metrics hold
    instants without a time zone.  Without timestamp metrics the score is
    50.0 when some column is hinted TIMESTAMP and 100.0 otherwise.  With
    timestamp metrics [score_timeliness] returns the average over their
    columns of the band of the age of the newest instant: 0 for an instant
    in the future, 100 for an age under 2 days, 90 under 31 days, 70 under
    366 days, and 40 from there on, because the age is compared in whole
    days. *)
Theorem timeliness_bands :
  forall (now : Z) (md : DatasetMetadata),
    (timestamp_metrics md = [] ->
     score_timeliness now md
     = Ok (if existsb (hint_eqb TIMESTAMP) (Py.values (semantic_hints md))
           then 50 else 100))
    /\ (timestamp_metrics md <> [] -> naive md ->
        score_timeliness now md
        = Ok (Py.sum (map (fun kv => recency_of_age (now - max_time (snd kv)))
                          (timestamp_metrics md))
              / len (timestamp_metrics md))).
Proof.
  intros now md. split.
  - intros E. unfold score_timeliness. rewrite E.
    now destruct (existsb _ _).
  - intros Hne Hn. rewrite (score_timeliness_naive now md Hn).
    unfold timeliness_value.
    destruct (timestamp_metrics md) as [|t ts]; [congruence|].
    rewrite (map_ext _ (fun kv => recency_of_age (now - max_time (snd kv))))
      by (intros kv; apply recency_score_of_age).
    now rewrite len_map.
Qed.

(** The theorem at the mock metadata of [dimensions.py], whose date column
    is 10 days old. *)
Lemma timeliness_bands_witness :
  score_timeliness sample_now meta
  = Ok (Py.sum (map (fun kv => recency_of_age (sample_now - max_time (snd kv)))
                    (timestamp_metrics meta))
        / len (timestamp_metrics meta)).
Proof.
  apply (proj2 (timeliness_bands sample_now meta));
    [discriminate | exact meta_naive].
Defined.

(** C9 as the claim states it fails between the bands: a newest instant 36
    hours old is more than 1 day old and at most 30 days old, which the
    claim scores 90, and the code scores it 100; one 30 days and 12 hours
    old is scored 90 and not 70.  And for a newest instant that carries a
    time zone no score is returned at all: the subtraction raises. *)
Lemma timeliness_whole_days :
  score_timeliness sample_now (aged (hours 36)) = Ok 100
  /\ claimed_timeliness sample_now (aged (hours 36)) = 90
  /\ score_timeliness sample_now (aged (days 30 + hours 12)) = Ok 90
  /\ claimed_timeliness sample_now (aged (days 30 + hours 12)) = 70
  /\ score_timeliness sample_now (aged_utc (hours 36)) = Raise TypeError.
Proof. repeat split; vm_compute; reflexivity. Qed.

(** ** Dictionaries filled by a loop over the columns *)

Lemma set_Forall {V} (P : string * V -> Prop) (d : dict V) (k : string)
                 (v : V) :
  Forall P d -> (forall k', P (k', v)) -> Forall P (Py.set d k v).
Proof.
  intros Hd Hv. induction Hd as [|[k0 v0] d H0 Hd IH]; simpl.
  - constructor; [apply Hv | constructor].
  - destruct (String.eqb k0 k); constructor; auto.
Qed.

Lemma keys_set_in {V} (d : dict V) (k k' : string) (v : V) :
  In k' (Py.keys (Py.set d k v)) <-> k' = k \/ In k' (Py.keys d).
Proof.
  unfold Py.keys. induction d as [|[k0 v0] d IH]; simpl.
  - intuition.
  - destruct (String.eqb_spec k0 k) as [->|Hne]; simpl.
    + intuition.
    + rewrite IH. intuition.
Qed.

Lemma keys_set_NoDup {V} (d : dict V) (k : string) (v : V) :
  NoDup (Py.keys d) -> NoDup (Py.keys (Py.set d k v)).
Proof.
  unfold Py.keys. induction d as [|[k0 v0] d IH]; simpl; intros Hnd.
  - constructor; [intros [] | constructor].
  - inversion Hnd as [|? ? Hnin Hnd']; subst.
    destruct (String.eqb_spec k0 k) as [->|Hne]; simpl.
    + now constructor.
    + constructor; [|now apply IH].
      intros Hin. apply (keys_set_in d k k0 v) in Hin.
      destruct Hin; [congruence | contradiction].
Qed.

Lemma get_of_binding {V} (d : dict V) (k : string) (v : V) :
  NoDup (Py.keys d) -> In (k, v) d -> Py.get d k = Some v.
Proof.
  unfold Py.keys. induction d as [|[k0 v0] d IH]; simpl; intros Hnd Hin.
  - contradiction.
  - inversion Hnd as [|? ? Hnin Hnd']; subst.
    destruct Hin as [[= -> ->]|Hin].
    + now rewrite String.eqb_refl.
    + destruct (String.eqb_spec k0 k) as [->|Hne]; [|now apply IH].
      exfalso. apply Hnin. apply in_map_iff. now exists (k, v).
Qed.

Section ColumnLoop.

Context {V : Type} (f : Column -> V).

Let step := fun (d : dict V) (c : Column) => Py.set d (col_name c) (f c).

Lemma loop_Forall (P : string * V -> Prop) (cols : list Column) (d : dict V) :
  Forall P d -> (forall c k, In c cols -> P (k, f c)) ->
  Forall P (fold_left step cols d).
Proof.
  revert d. induction cols as [|c cols IH]; intros d Hd Hf; simpl.
  - exact Hd.
  - apply IH.
    + apply set_Forall; [exact Hd|]. intros k. apply Hf. now left.
    + intros c' k Hin. apply Hf. now right.
Qed.

Lemma loop_get_other (cols : list Column) (d : dict V) (k : string) :
  ~ In k (map col_name cols) ->
  Py.get (fold_left step cols d) k = Py.get d k.
Proof.
  revert d. induction cols as [|c cols IH]; intros d Hnin; simpl.
  - reflexivity.
  - rewrite IH by (intros H; apply Hnin; now right).
    apply get_set_other. intros E. apply Hnin. now left.
Qed.

Lemma loop_get (cols : list Column) (d : dict V) (c : Column) :
  NoDup (map col_name cols) -> In c cols ->
  Py.get (fold_left step cols d) (col_name c) = Some (f c).
Proof.
  revert d. induction cols as [|c0 cols IH]; intros d Hnd Hin; simpl.
  - contradiction.
  - simpl in Hnd. inversion Hnd as [|? ? Hnin Hnd']; subst.
    destruct Hin as [->|Hin].
    + rewrite loop_get_other by assumption. apply get_set_same.
    + now apply IH.
Qed.

End ColumnLoop.

(** ** What the extractor records

    The lemmas are about [recorded], the record [extract_metadata]
    returns when it returns ([extract_metadata_cases] below). *)

Section Extraction.

Context `{Builtins} `{Pandas}.

Variable now : Z.

Lemma extract_column_stats (st : Extracted) (c : Column) :
  ex_numeric_stats (recorded_column now st c)
  = if is_numeric_dtype (col_dtype c)
    then Py.set (ex_numeric_stats st) (col_name c)
           [("min"%string, nan_to_zero (describe_min (col_cells c)));
            ("max"%string, nan_to_zero (describe_max (col_cells c)));
            ("mean"%string, nan_to_zero (describe_mean (col_cells c)))]
    else ex_numeric_stats st.
Proof.
  unfold recorded_column.
  destruct (_ || _); [destruct (metrics_of _ _)|]; reflexivity.
Qed.

Lemma extract_column_hint_keys (st : Extracted) (c : Column) (k : string) :
  In k (Py.keys (ex_semantic_hints (recorded_column now st c)))
  <-> k = col_name c \/ In k (Py.keys (ex_semantic_hints st)).
Proof.
  unfold recorded_column.
  destruct (_ || _); [destruct (metrics_of _ _)|]; simpl;
    rewrite ?keys_set_in; intuition.
Qed.

Lemma extract_column_hint_NoDup (st : Extracted) (c : Column) :
  NoDup (Py.keys (ex_semantic_hints st)) ->
  NoDup (Py.keys (ex_semantic_hints (recorded_column now st c))).
Proof.
  intros Hnd. unfold recorded_column.
  destruct (_ || _); [destruct (metrics_of _ _)|]; simpl;
    repeat apply keys_set_NoDup; assumption.
Qed.

Lemma loop_stats_none (cols : list Column) (st : Extracted) (k : string) :
  Py.get (ex_numeric_stats st) k = None ->
  (forall c, In c cols -> col_name c = k -> is_numeric_dtype (col_dtype c) = false) ->
  Py.get (ex_numeric_stats (fold_left (recorded_column now) cols st)) k = None.
Proof.
  revert st. induction cols as [|c cols IH]; intros st Hst Hcols; simpl.
  - exact Hst.
  - apply IH; [|intros c' Hin; apply Hcols; now right].
    rewrite extract_column_stats.
    destruct (is_numeric_dtype (col_dtype c)) eqn:E; [|exact Hst].
    rewrite get_set_other; [exact Hst|].
    intros Ek. rewrite (Hcols c (or_introl eq_refl) Ek) in E. discriminate.
Qed.

Lemma loop_hint_keys (cols : list Column) (st : Extracted) (k : string) :
  In k (Py.keys (ex_semantic_hints (fold_left (recorded_column now) cols st))) ->
  In k (map col_name cols) \/ In k (Py.keys (ex_semantic_hints st)).
Proof.
  revert st. induction cols as [|c cols IH]; intros st Hin; simpl in *.
  - now right.
  - apply IH in Hin. destruct Hin as [Hin|Hin]; [now left; right|].
    apply extract_column_hint_keys in Hin.
    destruct Hin as [->|Hin]; [left; now left | now right].
Qed.

Lemma loop_hint_NoDup (cols : list Column) (st : Extracted) :
  NoDup (Py.keys (ex_semantic_hints st)) ->
  NoDup (Py.keys (ex_semantic_hints (fold_left (recorded_column now) cols st))).
Proof.
  revert st. induction cols as [|c cols IH]; intros st Hnd; simpl.
  - exact Hnd.
  - apply IH. now apply extract_column_hint_NoDup.
Qed.

(** A column that is not numeric has no entry in [numeric_stats]. *)
Lemma extract_no_stats (df : DataFrame) (c : Column) :
  unique_names df -> In c (df_columns df) ->
  is_numeric_dtype (col_dtype c) = false ->
  Py.get (numeric_stats (recorded now df)) (col_name c) = None.
Proof.
  intros Hnd Hin Hnum. unfold recorded, metadata_record. cbn [numeric_stats].
  apply loop_stats_none; [reflexivity|].
  intros c' Hin' Ename.
  assert (c' = c) as ->; [|exact Hnum].
  clear Hnum. unfold unique_names in Hnd.
  induction (df_columns df) as [|c0 cols IH]; [contradiction|].
  simpl in Hnd. inversion Hnd as [|? ? Hnin Hnd']; subst.
  destruct Hin as [->|Hin], Hin' as [->|Hin']; auto.
  - exfalso. apply Hnin. rewrite <- Ename. now apply in_map.
  - exfalso. apply Hnin. rewrite Ename. now apply in_map.
Qed.

Lemma extract_data_type (df : DataFrame) (c : Column) :
  unique_names df -> In c (df_columns df) ->
  Py.get (data_types (recorded now df)) (col_name c)
  = Some (dtype_str (col_dtype c)).
Proof.
  intros Hnd Hin. unfold recorded, metadata_record. cbn [data_types].
  now apply (loop_get (fun c => dtype_str (col_dtype c))).
Qed.

(** The hinted columns of extracted metadata are columns of the table,
    and their hint is the one [semantic_hints] holds. *)
Lemma extract_hinted (df : DataFrame) (h : SemanticHint) (col : string) :
  In col (cols_hinted (recorded now df) h) ->
  Py.get (semantic_hints (recorded now df)) col = Some h
  /\ exists c, In c (df_columns df) /\ col_name c = col.
Proof.
  unfold cols_hinted, Py.keys. intros Hin.
  apply in_map_iff in Hin. destruct Hin as ([k v] & <- & Hin).
  apply filter_In in Hin. destruct Hin as [Hin Hh]. simpl in *.
  assert (v = h) as -> by (destruct v, h; simpl in Hh; congruence).
  unfold recorded, metadata_record in *. cbn [semantic_hints] in *.
  split.
  - apply get_of_binding; [|exact Hin].
    apply loop_hint_NoDup. constructor.
  - assert (Hk : In k (Py.keys (ex_semantic_hints
                 (fold_left (recorded_column now) (df_columns df)
                    {| ex_numeric_stats := [];
                       ex_timestamp_metrics := [];
                       ex_semantic_hints := [] |})))).
    { unfold Py.keys. apply in_map_iff. now exists (k, h). }
    apply loop_hint_keys in Hk. destruct Hk as [Hk|[]].
    apply in_map_iff in Hk. destruct Hk as (c & E & Hc). now exists c.
Qed.

Lemma distinct_length (seen cells : list Cell) :
  (List.length (distinct seen cells)
   <= List.length seen + List.length cells)%nat.
Proof.
  revert seen. induction cells as [|c cells IH]; intros seen; simpl.
  - lia.
  - destruct (is_null c || existsb (cell_eqb c) seen).
    + specialize (IH seen). lia.
    + specialize (IH (seen ++ [c])). rewrite length_app in IH. simpl in IH. lia.
Qed.

(** The metadata extracted from a rectangular table satisfies the
    invariants of the data model. *)
Lemma extract_invariants (df : DataFrame) :
  rectangular df -> metadata_invariants (recorded now df).
Proof.
  intros Hrect. unfold rectangular in Hrect. rewrite Forall_forall in Hrect.
  unfold metadata_invariants, counts_bounded, recorded, metadata_record.
  cbn [row_count null_counts unique_counts].
  split; [lia|]. split.
  - apply (loop_Forall (fun c => count_nulls (col_cells c))
             (fun kv => (0 <= snd kv <= Z.of_nat (df_len df))%Z));
      [constructor|].
    intros c k Hin. simpl. specialize (Hrect c Hin).
    unfold count_nulls. pose proof (filter_length_le is_null (col_cells c)).
    lia.
  - apply (loop_Forall (fun c => nunique (col_cells c))
             (fun kv => (0 <= snd kv <= Z.of_nat (df_len df))%Z));
      [constructor|].
    intros c k Hin. simpl. specialize (Hrect c Hin).
    unfold nunique. pose proof (distinct_length [] (col_cells c)).
    simpl in *. lia.
Qed.

End Extraction.

(** ** When the extractor returns *)

Section ExtractionOutcome.

Context `{Builtins} `{Pandas}.

Lemma numeric_stats_of_cases (c : Column) :
  is_numeric_dtype (col_dtype c) = true ->
  numeric_stats_of c
  = if is_bool (col_dtype c) then Raise (KeyError "min")
    else Ok [("min"%string, nan_to_zero (describe_min (col_cells c)));
             ("max"%string, nan_to_zero (describe_max (col_cells c)));
             ("mean"%string, nan_to_zero (describe_mean (col_cells c)))].
Proof.
  unfold numeric_stats_of, describe.
  destruct (col_dtype c); try discriminate; reflexivity.
Qed.

Lemma extract_column_cases (now : Z) (st : Extracted) (c : Column) :
  extract_column now st c
  = if is_bool (col_dtype c) then Raise (KeyError "min")
    else Ok (recorded_column now st c).
Proof.
  unfold extract_column, recorded_column.
  destruct (is_numeric_dtype (col_dtype c)) eqn:En.
  - rewrite (numeric_stats_of_cases c En).
    destruct (is_bool (col_dtype c)); [reflexivity|]. cbn [Py.bind].
    destruct (_ || _); try reflexivity.
    destruct (metrics_of _ _); reflexivity.
  - assert (Hb : is_bool (col_dtype c) = false)
      by (destruct (col_dtype c); try discriminate; reflexivity).
    rewrite Hb. cbn [Py.bind].
    destruct (_ || _); try reflexivity.
    destruct (metrics_of _ _); reflexivity.
Qed.

Lemma extract_loop_cases (now : Z) (cols : list Column) (st : Extracted) :
  extract_loop now cols st
  = if existsb (fun c => is_bool (col_dtype c)) cols
    then Raise (KeyError "min")
    else Ok (fold_left (recorded_column now) cols st).
Proof.
  revert st. induction cols as [|c cols IH]; intros st; simpl.
  - reflexivity.
  - rewrite extract_column_cases.
    destruct (is_bool (col_dtype c)); simpl; [reflexivity | apply IH].
Qed.

Lemma extract_metadata_cases (now : Z) (df : DataFrame) :
  extract_metadata now df
  = if has_bool_column df then Raise (KeyError "min")
    else Ok (recorded now df).
Proof.
  unfold extract_metadata, has_bool_column. rewrite extract_loop_cases.
  destruct (existsb _ _); reflexivity.
Qed.

Lemma extract_metadata_returns (now : Z) (df : DataFrame)
                               (md : DatasetMetadata) :
  extract_metadata now df = Ok md ->
  has_bool_column df = false /\ md = recorded now df.
Proof.
  rewrite extract_metadata_cases.
  destruct (has_bool_column df); [discriminate|].
  intros [= <-]. auto.
Qed.

Lemma extract_metadata_raises (now : Z) (df : DataFrame) (e : exn) :
  extract_metadata now df = Raise e
  <-> e = KeyError "min"
      /\ exists c, In c (df_columns df) /\ col_dtype c = Bool.
Proof.
  rewrite extract_metadata_cases. unfold has_bool_column.
  destruct (existsb _ _) eqn:E.
  - apply existsb_exists in E. destruct E as (c & Hin & Hb).
    split.
    + intros [= <-]. split; [reflexivity|]. exists c. split; [exact Hin|].
      now destruct (col_dtype c).
    + intros [-> _]. reflexivity.
  - split; [discriminate|]. intros (_ & c & Hin & Hb).
    assert (Ht : existsb (fun c => is_bool (col_dtype c)) (df_columns df)
                 = true).
    { apply existsb_exists. exists c. split; [exact Hin|]. now rewrite Hb. }
    congruence.
Qed.

Lemma no_bool_column (df : DataFrame) :
  has_bool_column df = false
  <-> forall c, In c (df_columns df) -> col_dtype c <> Bool.
Proof.
  unfold has_bool_column. split.
  - intros E c Hin Hb.
    assert (Ht : existsb (fun c => is_bool (col_dtype c)) (df_columns df)
                 = true).
    { apply existsb_exists. exists c. split; [exact Hin|]. now rewrite Hb. }
    congruence.
  - intros Hno. destruct (existsb _ _) eqn:E; [|reflexivity].
    apply existsb_exists in E. destruct E as (c & Hin & Hb).
    exfalso. apply (Hno c Hin). now destruct (col_dtype c).
Qed.

(** The outcomes of the pipeline for a rectangular table: the [KeyError]
    of a boolean column, the [TypeError] of a converted column that is
    time-zone aware, or the metadata and its scores. *)
Lemma process_data_bool (read_at now : Z) (df : DataFrame) :
  has_bool_column df = true ->
  process_data read_at now df = Raise (KeyError "min").
Proof.
  intros Hb. unfold process_data. now rewrite extract_metadata_cases, Hb.
Qed.

Lemma process_data_aware (read_at now : Z) (df : DataFrame) :
  has_bool_column df = false -> ~ naive (recorded read_at df) ->
  process_data read_at now df = Raise TypeError.
Proof.
  intros Hb Hn. unfold process_data. rewrite extract_metadata_cases, Hb.
  cbn [Py.bind]. unfold calculate_all_dimensions.
  now rewrite (score_timeliness_aware now _ Hn).
Qed.

Lemma process_data_returns (read_at now : Z) (df : DataFrame) :
  rectangular df -> has_bool_column df = false ->
  naive (recorded read_at df) ->
  exists integrity,
    score_integrity (recorded read_at df) = Ok integrity
    /\ process_data read_at now df
       = Ok (recorded read_at df,
             [("accuracy"%string, score_accuracy (recorded read_at df));
              ("completeness"%string, score_completeness (recorded read_at df));
              ("consistency"%string, score_consistency (recorded read_at df));
              ("timeliness"%string, timeliness_value now (recorded read_at df));
              ("uniqueness"%string, score_uniqueness (recorded read_at df));
              ("validity"%string, score_validity (recorded read_at df));
              ("integrity"%string, integrity)],
             base_formula
               [("accuracy"%string, score_accuracy (recorded read_at df));
                ("completeness"%string,
                 score_completeness (recorded read_at df));
                ("consistency"%string, score_consistency (recorded read_at df));
                ("timeliness"%string,
                 timeliness_value now (recorded read_at df));
                ("uniqueness"%string, score_uniqueness (recorded read_at df));
                ("validity"%string, score_validity (recorded read_at df));
                ("integrity"%string, integrity)]
               (map (fun dim => (dim, 1 / 7)) required_dimensions)).
Proof.
  intros Hrect Hb Hn.
  destruct (score_integrity_range _ (extract_invariants read_at df Hrect))
    as (s & Hs & _).
  exists s. split; [exact Hs|].
  unfold process_data. rewrite extract_metadata_cases, Hb. cbn [Py.bind].
  unfold calculate_all_dimensions.
  rewrite (score_timeliness_naive now _ Hn), Hs.
  cbn [Py.bind]. unfold calculate_base_dqs. cbn [Py.bind].
  do 2 apply f_equal. unfold base_formula.
  apply round2_comp, weighted_sum_built.
Qed.

End ExtractionOutcome.

(** ** C10: MONEY columns without numeric statistics *)

Lemma validity_credit_without_stats (md : DatasetMetadata) (col : string) :
  Py.get (numeric_stats md) col = None ->
  Py.get_default (Py.get_default (numeric_stats md) col []) "min" 0 = 0
  /\ validity_credit md col = 1.
Proof.
  intros E. unfold validity_credit, Py.get_default. rewrite E. simpl.
  split; reflexivity.
Qed.

Lemma sum_all_ones {A} (f : A -> Q) (xs : list A) :
  (forall x, In x xs -> f x = 1) -> Py.sum (map f xs) == len xs.
Proof.
  induction xs as [|x xs IH]; intros Hf; simpl.
  - reflexivity.
  - rewrite sum_cons, len_cons, IH by (intros; apply Hf; now right).
    rewrite (Hf x) by now left. reflexivity.
Qed.

Lemma score_validity_full (md : DatasetMetadata) :
  (forall col, In col (cols_hinted md MONEY) ->
               Py.get (numeric_stats md) col = None) ->
  score_validity md == 100.
Proof.
  intros Hcols. destruct (cols_hinted md MONEY) as [|c cs] eqn:E.
  - unfold score_validity. rewrite E. reflexivity.
  - rewrite score_validity_average by (rewrite E; discriminate).
    rewrite sum_all_ones.
    + rewrite E.
      assert (0 < len (c :: cs)) by (apply len_pos; discriminate).
      field. lra.
    + intros col Hin. rewrite E in Hin.
      exact (proj2 (validity_credit_without_stats md col (Hcols col Hin))).
Qed.

Lemma sum_indicator {A} (p : A -> bool) (xs : list A) (x : A) :
  In x xs -> p x = false ->
  Py.sum (map (fun y => if p y then 1 else 0) xs) <= len xs - 1.
Proof.
  intros Hin Hx.
  assert (Hall : forall ys,
             Py.sum (map (fun y => if p y then 1 else 0) ys) <= len ys).
  { intros ys.
    destruct (sum_bounds 0 1 (map (fun y => if p y then 1 else 0) ys))
      as [_ Hhi].
    - apply Forall_map_range. intros y. unfold in_range.
      destruct (p y); lra.
    - rewrite len_map in Hhi. lra. }
  induction xs as [|y xs IH]; [contradiction|].
  simpl. rewrite sum_cons, len_cons. destruct Hin as [->|Hin].
  - rewrite Hx. specialize (Hall xs). lra.
  - specialize (IH Hin). destruct (p y); lra.
Qed.

Lemma score_accuracy_below (md : DatasetMetadata) (col : string) :
  In col (column_names md) -> is_accurate md col = false ->
  score_accuracy md < 100.
Proof.
  intros Hin Hacc. unfold score_accuracy.
  destruct (column_names md) as [|c cs] eqn:E; [contradiction|].
  simpl (_ =? _)%nat. cbv iota.
  rewrite (fold_count_map (is_accurate md) (c :: cs) 0).
  pose proof (sum_indicator (is_accurate md) (c :: cs) col Hin Hacc) as Hle.
  assert (Hpos : 0 < len (c :: cs)) by (apply len_pos; discriminate).
  set (n := len (c :: cs)) in *.
  set (s := Py.sum _) in *.
  assert (Hlt : (0 + s) / n < 1).
  { apply Qlt_shift_div_r; [assumption | lra]. }
  lra.
Qed.

Lemma score_integrity_types (md : DatasetMetadata) (types : dict string)
                            (stats : dict (dict Q)) :
  score_integrity (with_types md types stats) = score_integrity md.
Proof.
  unfold score_integrity.
  change (cols_hinted (with_types md types stats) ID) with (cols_hinted md ID).
  destruct (cols_hinted md ID) as [|c cs]; [reflexivity|].
  assert (E : forall cols acc,
             integrity_loop (with_types md types stats) cols acc
             = integrity_loop md cols acc).
  { induction cols as [|col cols IH]; intros acc; simpl; [reflexivity|].
    change (integrity_of (with_types md types stats) col)
      with (integrity_of md col).
    destruct (integrity_of md col); simpl; [apply IH | reflexivity]. }
  now rewrite E.
Qed.

Section MoneyColumns.

Context `{Builtins} `{Pandas}.

Variable now : Z.

Lemma non_numeric_money_inaccurate (df : DataFrame) (c : Column) :
  unique_names df -> In c (df_columns df) ->
  is_numeric_dtype (col_dtype c) = false ->
  Py.get (semantic_hints (recorded now df)) (col_name c) = Some MONEY ->
  is_accurate (recorded now df) (col_name c) = false.
Proof.
  intros Hnd Hin Hnum Hhint. unfold is_accurate, Py.get_default.
  rewrite Hhint, (extract_data_type now df c Hnd Hin).
  destruct (col_dtype c); try discriminate; reflexivity.
Qed.

Lemma extract_validity_full (df : DataFrame) :
  (forall c, In c (df_columns df) ->
             Py.get (semantic_hints (recorded now df)) (col_name c)
             = Some MONEY ->
             is_numeric_dtype (col_dtype c) = false) ->
  score_validity (recorded now df) == 100.
Proof.
  intros Hmoney. apply score_validity_full. intros col Hcol.
  destruct (extract_hinted now df MONEY col Hcol) as (Hhint & c & Hin & <-).
  unfold recorded, metadata_record. cbn [numeric_stats].
  apply loop_stats_none; [reflexivity|].
  intros c' Hin' Ename. apply Hmoney; [assumption|]. now rewrite Ename.
Qed.

End MoneyColumns.

Section MoneyClaim.

Context `{Builtins} `{Pandas}.

(** C10.  A MONEY-hinted column without an entry in [numeric_stats] has
    its minimum read as 0 and gets full credit; the extractor records no
    entry for a column that is not numeric; so the metadata extracted from
    a table all of whose MONEY-hinted columns are not numeric scores
    validity 100.0, while each such column counts as inaccurate and
    accuracy is below 100; and the other five scorers do not read the
    types or the numeric statistics at all. *)
Theorem validity_ignores_non_numeric_money :
  (forall (md : DatasetMetadata) (col : string),
      Py.get (numeric_stats md) col = None ->
      Py.get_default (Py.get_default (numeric_stats md) col []) "min" 0 = 0
      /\ validity_credit md col = 1)
  /\ (forall (now : Z) (df : DataFrame) (md : DatasetMetadata) (c : Column),
         extract_metadata now df = Ok md ->
         unique_names df -> In c (df_columns df) ->
         is_numeric_dtype (col_dtype c) = false ->
         Py.get (numeric_stats md) (col_name c) = None)
  /\ (forall (now : Z) (df : DataFrame) (md : DatasetMetadata),
         extract_metadata now df = Ok md ->
         unique_names df ->
         (forall c, In c (df_columns df) ->
                    Py.get (semantic_hints md) (col_name c) = Some MONEY ->
                    is_numeric_dtype (col_dtype c) = false) ->
         score_validity md == 100
         /\ forall c, In c (df_columns df) ->
                      Py.get (semantic_hints md) (col_name c) = Some MONEY ->
                      is_accurate md (col_name c) = false
                      /\ score_accuracy md < 100)
  /\ (forall (md : DatasetMetadata) (types : dict string)
             (stats : dict (dict Q)) (now : Z),
         score_completeness (with_types md types stats) = score_completeness md
         /\ score_consistency (with_types md types stats) = score_consistency md
         /\ score_timeliness now (with_types md types stats)
            = score_timeliness now md
         /\ score_uniqueness (with_types md types stats) = score_uniqueness md
         /\ score_integrity (with_types md types stats) = score_integrity md).
Proof.
  split; [|split; [|split]].
  - apply validity_credit_without_stats.
  - intros now df md c Hrun.
    destruct (extract_metadata_returns now df md Hrun) as [_ ->].
    apply extract_no_stats.
  - intros now df md Hrun.
    destruct (extract_metadata_returns now df md Hrun) as [_ ->].
    intros Hnd Hmoney. split; [now apply extract_validity_full|].
    intros c Hin Hhint.
    assert (Hacc : is_accurate (recorded now df) (col_name c) = false).
    { apply non_numeric_money_inaccurate; auto. }
    split; [exact Hacc|].
    apply (score_accuracy_below _ (col_name c)); [|exact Hacc].
    unfold recorded, metadata_record. cbn [column_names]. now apply in_map.
  - intros md types stats now.
    repeat (split; [reflexivity|]). apply score_integrity_types.
Qed.

End MoneyClaim.

Lemma priced_table_names : unique_names priced_table.
Proof.
  unfold unique_names. simpl.
  repeat (constructor; [simpl; intuition discriminate|]). constructor.
Qed.

Lemma priced_table_extracted :
  @extract_metadata sample_builtins sample_pandas sample_now priced_table
  = Ok (@recorded sample_builtins sample_pandas sample_now priced_table).
Proof. now rewrite extract_metadata_cases. Qed.

(** The theorem at a table whose fee column holds text: the extractor
    returns its metadata, which scores validity 100.0 and accuracy below
    100. *)
Lemma validity_ignores_non_numeric_money_witness :
  exists md,
    @extract_metadata sample_builtins sample_pandas sample_now priced_table
    = Ok md
    /\ score_validity md == 100
    /\ score_accuracy md < 100.
Proof.
  exists (@recorded sample_builtins sample_pandas sample_now priced_table).
  split; [exact priced_table_extracted|].
  pose proof
    (proj1 (proj2 (proj2 (@validity_ignores_non_numeric_money
                            sample_builtins sample_pandas)))
       sample_now priced_table _ priced_table_extracted priced_table_names)
    as Hthm.
  assert (Hmoney :
            forall c, In c (df_columns priced_table) ->
                      Py.get (semantic_hints
                                (@recorded sample_builtins sample_pandas
                                   sample_now priced_table)) (col_name c)
                      = Some MONEY ->
                      is_numeric_dtype (col_dtype c) = false).
  { intros c [<-|[<-|[<-|[]]]] _; reflexivity. }
  destruct (Hthm Hmoney) as [Hval Hacc]. split; [exact Hval|].
  apply (Hacc {| col_name := "fee"; col_dtype := Object;
                 col_cells := [Text "$5"; Text "$7"; Null] |}).
  - right. left. reflexivity.
  - reflexivity.
Defined.
(** ** C7: repeated runs of the pipeline *)

Lemma timeliness_value_same_days (now1 now2 : Z) (md : DatasetMetadata) :
  same_day_ages now1 now2 md ->
  timeliness_value now1 md = timeliness_value now2 md.
Proof.
  unfold same_day_ages, timeliness_value. intros Hsame.
  destruct (timestamp_metrics md) as [|t ts]; [reflexivity|].
  rewrite Forall_forall in Hsame.
  rewrite (map_ext_in _
             (fun kv => recency_score (timedelta_days (now2 - max_time (snd kv))))).
  - reflexivity.
  - intros kv Hin. now rewrite (Hsame kv Hin).
Qed.

Section Pipeline.

Context `{Builtins} `{Pandas}.

Lemma recorded_column_same (read1 read2 : Z) (st : Extracted) (c : Column) :
  to_datetime read1 (col_cells c) = to_datetime read2 (col_cells c) ->
  recorded_column read1 st c = recorded_column read2 st c.
Proof. intros E. unfold recorded_column. now rewrite E. Qed.

Lemma recorded_loop_same (read1 read2 : Z) (cols : list Column)
                         (st : Extracted) :
  (forall c, In c cols ->
             to_datetime read1 (col_cells c) = to_datetime read2 (col_cells c)) ->
  fold_left (recorded_column read1) cols st
  = fold_left (recorded_column read2) cols st.
Proof.
  revert st. induction cols as [|c cols IH]; intros st Hsame; simpl.
  - reflexivity.
  - rewrite (recorded_column_same read1 read2 st c) by (apply Hsame; now left).
    apply IH. intros c' Hin. apply Hsame. now right.
Qed.

Lemma recorded_same (read1 read2 : Z) (df : DataFrame) :
  same_conversion read1 read2 df -> recorded read1 df = recorded read2 df.
Proof.
  intros Hsame. unfold recorded.
  now rewrite (recorded_loop_same read1 read2 _ _ Hsame).
Qed.

(** The clock does not reach the numeric statistics. *)
Lemma loop_stats_clock_free (read1 read2 : Z) (cols : list Column)
                            (st1 st2 : Extracted) :
  ex_numeric_stats st1 = ex_numeric_stats st2 ->
  ex_numeric_stats (fold_left (recorded_column read1) cols st1)
  = ex_numeric_stats (fold_left (recorded_column read2) cols st2).
Proof.
  revert st1 st2. induction cols as [|c cols IH]; intros st1 st2 E; simpl.
  - exact E.
  - apply IH. rewrite !extract_column_stats. now rewrite E.
Qed.

Lemma recorded_clock_free (read1 read2 : Z) (df : DataFrame) :
  column_names (recorded read1 df) = column_names (recorded read2 df)
  /\ data_types (recorded read1 df) = data_types (recorded read2 df)
  /\ row_count (recorded read1 df) = row_count (recorded read2 df)
  /\ null_counts (recorded read1 df) = null_counts (recorded read2 df)
  /\ unique_counts (recorded read1 df) = unique_counts (recorded read2 df)
  /\ numeric_stats (recorded read1 df) = numeric_stats (recorded read2 df).
Proof.
  repeat (split; [reflexivity|]).
  unfold recorded, metadata_record. cbn [numeric_stats].
  now apply loop_stats_clock_free.
Qed.

Lemma process_data_metadata (read_at now : Z) (df : DataFrame)
                            (md : DatasetMetadata) (s : dict Q) (b : Q) :
  process_data read_at now df = Ok (md, s, b) -> md = recorded read_at df.
Proof.
  unfold process_data. rewrite extract_metadata_cases.
  destruct (has_bool_column df); [discriminate|]. cbn [Py.bind].
  destruct (calculate_all_dimensions now (recorded read_at df)) as [d|e];
    [|discriminate].
  cbn [Py.bind].
  destruct (calculate_base_dqs d None) as [b'|e]; [|discriminate].
  cbn [Py.bind]. intros [= <- _ _]. reflexivity.
Qed.

Lemma recorded_hash (read_at : Z) (df : DataFrame) :
  audit_hash (recorded read_at df)
  = sha256_hexdigest (audit_payload_of (recorded read_at df)).
Proof. reflexivity. Qed.

(** A table in which no cell converts to an instant has no timestamp
    metrics. *)
Lemma recorded_loop_no_metrics (now : Z) (cols : list Column)
                               (st : Extracted) :
  (forall c, In c cols ->
             dropna (dt_values (to_datetime now (col_cells c))) = []) ->
  ex_timestamp_metrics (fold_left (recorded_column now) cols st)
  = ex_timestamp_metrics st.
Proof.
  revert st. induction cols as [|c cols IH]; intros st Hnone; simpl.
  - reflexivity.
  - rewrite IH by (intros c' Hin; apply Hnone; now right).
    unfold recorded_column. rewrite (Hnone c) by now left.
    simpl. now destruct (_ || _).
Qed.

Lemma empty_table_naive (now : Z) (df : DataFrame) :
  rectangular df -> df_len df = 0%nat -> naive (recorded now df).
Proof.
  intros Hrect Hlen. unfold naive, recorded, metadata_record.
  cbn [timestamp_metrics]. rewrite recorded_loop_no_metrics; [constructor|].
  intros c Hin. unfold rectangular in Hrect. rewrite Forall_forall in Hrect.
  specialize (Hrect c Hin). rewrite Hlen in Hrect.
  pose proof (to_datetime_length now (col_cells c)) as Hl.
  rewrite Hrect in Hl.
  destruct (dt_values (to_datetime now (col_cells c))); [reflexivity|].
  discriminate Hl.
Qed.

(** C7, as the code has it.  Take a rectangular table and two runs of the
    pipeline, each with its own readings of the clock.  Whatever the clock
    shows, the metadata the two runs return have the same column names,
    type descriptors, row count, null and distinct counts and numeric
    statistics.  When pandas converts the cells of the table to the same
    instants in both runs, the two runs end the same way: both raise the
    same exception or both return.  When they return, they return the
    same metadata record, with the same audit hash, the digest of the
    names, the row count, the null and distinct counts and the signals of
    the record, and the same score for every dimension other than
    timeliness.  The timeliness score and the base score are the same as
    well when the two readings of the scorer give every timestamp column
    the same age in whole days. *)
Theorem pipeline_determinism :
  forall (df : DataFrame) (read1 now1 read2 now2 : Z),
    rectangular df ->
    (forall md1 s1 b1 md2 s2 b2,
        process_data read1 now1 df = Ok (md1, s1, b1) ->
        process_data read2 now2 df = Ok (md2, s2, b2) ->
        column_names md1 = column_names md2
        /\ data_types md1 = data_types md2
        /\ row_count md1 = row_count md2
        /\ null_counts md1 = null_counts md2
        /\ unique_counts md1 = unique_counts md2
        /\ numeric_stats md1 = numeric_stats md2)
    /\ (same_conversion read1 read2 df ->
        (forall e, process_data read1 now1 df = Raise e
                   <-> process_data read2 now2 df = Raise e)
        /\ (forall md s1 b1,
               process_data read1 now1 df = Ok (md, s1, b1) ->
               exists s2 b2,
                 process_data read2 now2 df = Ok (md, s2, b2)
                 /\ extract_metadata read1 df = Ok md
                 /\ extract_metadata read2 df = Ok md
                 /\ audit_hash md = sha256_hexdigest (audit_payload_of md)
                 /\ (forall dim, dim <> "timeliness"%string ->
                                 Py.get s1 dim = Py.get s2 dim)
                 /\ (same_day_ages now1 now2 md -> s1 = s2 /\ b1 = b2))).
Proof.
  intros df read1 now1 read2 now2 Hrect. split.
  { intros md1 s1 b1 md2 s2 b2 Hrun1 Hrun2.
    rewrite (process_data_metadata _ _ _ _ _ _ Hrun1),
      (process_data_metadata _ _ _ _ _ _ Hrun2).
    apply recorded_clock_free. }
  intros Hsame.
  pose proof (recorded_same read1 read2 df Hsame) as Emd.
  destruct (has_bool_column df) eqn:Hb.
  - rewrite (process_data_bool read1 now1 df Hb),
      (process_data_bool read2 now2 df Hb).
    split; [tauto | discriminate].
  - destruct (naive_dec (recorded read1 df)) as [Hn|Hn].
    + assert (Hn2 : naive (recorded read2 df)) by now rewrite <- Emd.
      destruct (process_data_returns read1 now1 df Hrect Hb Hn)
        as (i1 & Hi1 & Hrun1).
      destruct (process_data_returns read2 now2 df Hrect Hb Hn2)
        as (i2 & Hi2 & Hrun2).
      rewrite <- Emd in Hi2, Hrun2.
      assert (i2 = i1) as -> by congruence.
      rewrite Hrun1, Hrun2. split; [split; discriminate|].
      intros md s1 b1 [= <- <- <-]. do 2 eexists.
      split; [reflexivity|].
      split; [now rewrite extract_metadata_cases, Hb|].
      split; [now rewrite extract_metadata_cases, Hb, <- Emd|].
      split; [apply recorded_hash|]. split.
      * intros dim Hdim. cbn [Py.get].
        repeat match goal with
               | |- context [String.eqb ?k dim] =>
                   destruct (String.eqb_spec k dim);
                   [congruence || reflexivity|]
               end.
        reflexivity.
      * intros Hs.
        rewrite (timeliness_value_same_days now1 now2 _ Hs).
        split; reflexivity.
    + assert (Hn2 : ~ naive (recorded read2 df)) by now rewrite <- Emd.
      rewrite (process_data_aware read1 now1 df Hb Hn),
        (process_data_aware read2 now2 df Hb Hn2).
      split; [tauto | discriminate].
Qed.

(** ** C8: an empty table *)

(** [load_dataset] raises a [ValueError] for every source whose table
    has no rows. *)
Lemma load_dataset_rejects_empty (source : string) (df : DataFrame) :
  read_csv source = Some df -> df_len df = 0%nat ->
  exists why, load_dataset source = Raise (ValueError why).
Proof.
  intros Hread Hlen. unfold load_dataset.
  destruct (negb (endswith source ".csv")); [eexists; reflexivity|].
  rewrite Hread. unfold df_empty. rewrite Hlen. simpl.
  eexists; reflexivity.
Qed.

(** C8 on the code.  [extract_metadata] makes no test for an empty table:
    for a table without rows, which [df.empty] reports as empty and which
    [load_dataset] refuses with a [ValueError] for every source it is read
    from, the pipeline of [process_data], which does not call
    [load_dataset], never raises a [ValueError]; unless the table has a
    boolean column it returns a metadata record with [row_count] 0, and
    scores. *)
Theorem empty_table_is_extracted :
  forall (read_at now : Z) (df : DataFrame),
    rectangular df -> df_len df = 0%nat ->
    df_empty df = true
    /\ (forall source, read_csv source = Some df ->
                       exists why, load_dataset source = Raise (ValueError why))
    /\ (forall why, process_data read_at now df <> Raise (ValueError why))
    /\ ((forall c, In c (df_columns df) -> col_dtype c <> Bool) ->
        exists md scores b,
          process_data read_at now df = Ok (md, scores, b)
          /\ extract_metadata read_at df = Ok md
          /\ row_count md = 0%Z).
Proof.
  intros read_at now df Hrect Hlen.
  pose proof (empty_table_naive read_at df Hrect Hlen) as Hn.
  split; [|split; [|split]].
  - unfold df_empty. now rewrite Hlen.
  - intros source Hread. now apply (load_dataset_rejects_empty source df).
  - intros why. destruct (has_bool_column df) eqn:Hb.
    + rewrite (process_data_bool read_at now df Hb). discriminate.
    + destruct (process_data_returns read_at now df Hrect Hb Hn)
        as (i & _ & ->). discriminate.
  - intros Hno. apply no_bool_column in Hno.
    destruct (process_data_returns read_at now df Hrect Hno Hn)
      as (i & _ & Hrun).
    do 3 eexists. split; [exact Hrun|].
    split; [now rewrite extract_metadata_cases, Hno|].
    unfold recorded, metadata_record. cbn [row_count]. now rewrite Hlen.
Qed.

End Pipeline.
Lemma priced_table_rectangular : rectangular priced_table.
Proof. unfold rectangular. simpl. each_entry ltac:(reflexivity). Qed.

Lemma header_only_rectangular : rectangular header_only_table.
Proof. unfold rectangular. simpl. each_entry ltac:(reflexivity). Qed.

Lemma priced_table_same_conversion (read1 read2 : Z) :
  @same_conversion sample_pandas read1 read2 priced_table.
Proof. intros c [<-|[<-|[<-|[]]]]; reflexivity. Qed.

Lemma priced_table_run :
  exists md s1 b1,
    @process_data sample_builtins sample_pandas
                  sample_now (sample_now + hours 1) priced_table
    = Ok (md, s1, b1).
Proof. do 3 eexists. vm_compute. reflexivity. Qed.

(** The theorem at a table with a date column, for two runs whose
    readings of the clock are hours apart: both return, with the same
    metadata and the same scores but for timeliness. *)
Lemma pipeline_determinism_witness :
  exists md s1 b1 s2 b2,
    @process_data sample_builtins sample_pandas
                  sample_now (sample_now + hours 1) priced_table
    = Ok (md, s1, b1)
    /\ @process_data sample_builtins sample_pandas
                     (sample_now + hours 2) (sample_now + hours 6) priced_table
       = Ok (md, s2, b2)
    /\ @extract_metadata sample_builtins sample_pandas sample_now priced_table
       = Ok md
    /\ audit_hash md = @sha256_hexdigest sample_builtins
                         (@audit_payload_of sample_builtins md)
    /\ (forall dim, dim <> "timeliness"%string ->
                    Py.get s1 dim = Py.get s2 dim).
Proof.
  destruct priced_table_run as (md & s1 & b1 & Hrun).
  destruct (proj2 (proj2 (@pipeline_determinism sample_builtins sample_pandas
                            priced_table sample_now (sample_now + hours 1)
                            (sample_now + hours 2) (sample_now + hours 6)
                            priced_table_rectangular)
                     (priced_table_same_conversion _ _))
              md s1 b1 Hrun)
    as (s2 & b2 & Hrun2 & Hmd & _ & Hhash & Hdims & _).
  exists md, s1, b1, s2, b2. auto.
Defined.

(** C7 as the claim states it fails across time.  The same table run
    shortly after its newest instant and run 40 days later gets the
    timeliness scores 100 and 70, and different base scores.  And a table
    with the cell [now] in its date column, which pandas converts to the
    reading of the clock, gets metadata records that differ. *)
Lemma pipeline_depends_on_clock :
  (exists md s1 b1 s2 b2,
      @process_data sample_builtins sample_pandas
                    sample_now (sample_now + hours 5) priced_table
      = Ok (md, s1, b1)
      /\ @process_data sample_builtins sample_pandas
                       sample_now (sample_now + days 40) priced_table
         = Ok (md, s2, b2)
      /\ Py.get s1 "timeliness" = Some 100
      /\ Py.get s2 "timeliness" = Some 70
      /\ ~ b1 == b2)
  /\ (exists md1 md2,
         @extract_metadata sample_builtins sample_pandas sample_now now_table
         = Ok md1
         /\ @extract_metadata sample_builtins sample_pandas
              (sample_now + days 40) now_table
            = Ok md2
         /\ md1 <> md2).
Proof.
  split.
  - do 5 eexists.
    split; [vm_compute; reflexivity|].
    split; [vm_compute; reflexivity|].
    split; [reflexivity|]. split; [reflexivity|].
    vm_compute. discriminate.
  - do 2 eexists.
    split; [vm_compute; reflexivity|].
    split; [vm_compute; reflexivity|].
    discriminate.
Qed.

(** The theorem at a table with a header and no rows: read from its file
    by [load_dataset] it is refused, handed to the pipeline it is scored. *)
Lemma empty_table_is_extracted_witness :
  @load_dataset sample_pandas "header_only.csv"
  = Raise (ValueError EmptyDataset)
  /\ df_empty header_only_table = true
  /\ (forall source,
         @read_csv sample_pandas source = Some header_only_table ->
         exists why, @load_dataset sample_pandas source
                     = Raise (ValueError why))
  /\ exists md scores b,
       @process_data sample_builtins sample_pandas sample_now sample_now
                     header_only_table
       = Ok (md, scores, b)
       /\ @extract_metadata sample_builtins sample_pandas sample_now
            header_only_table = Ok md
       /\ row_count md = 0%Z.
Proof.
  split; [reflexivity|].
  destruct (@empty_table_is_extracted sample_builtins sample_pandas
              sample_now sample_now header_only_table
              header_only_rectangular eq_refl)
    as (Hempty & Hload & _ & Hrun).
  split; [exact Hempty|]. split; [exact Hload|]. apply Hrun.
  intros c [<-|[<-|[]]]; discriminate.
Defined.

(* ================================================================= *)
(** * Further properties of the code *)

(** ** dimensions.py: when the integrity score raises *)

Lemma integrity_of_raises (md : DatasetMetadata) (col : string) (e : exn) :
  integrity_of md col = Raise e
  <-> e = ZeroDivisionError
      /\ row_count md = 0%Z
      /\ Py.get_default (null_counts md) col 0%Z <> 0%Z.
Proof.
  unfold integrity_of.
  destruct (Z.eqb_spec (Py.get_default (null_counts md) col 0%Z) 0) as [E|E].
  - split; [discriminate | intros (_ & _ & H); contradiction].
  - destruct (Z.eqb_spec (row_count md) 0) as [R|R].
    + split; [intros [= <-]; auto | intros (-> & _ & _); reflexivity].
    + split; [discriminate | intros (_ & H & _); contradiction].
Qed.

Lemma integrity_loop_raises (md : DatasetMetadata) (cols : list string)
                            (acc : list Q) (e : exn) :
  integrity_loop md cols acc = Raise e
  <-> exists col, In col cols /\ integrity_of md col = Raise e.
Proof.
  revert acc. induction cols as [|c cols IH]; intros acc; simpl.
  - split; [discriminate | intros (col & [] & _)].
  - destruct (integrity_of md c) as [s|e'] eqn:E; simpl.
    + rewrite IH. split.
      * intros (col & Hin & H). exists col. auto.
      * intros (col & [<-|Hin] & H); [congruence | exists col; auto].
    + split.
      * intros [= <-]. exists c. auto.
      * intros (col & [<-|Hin] & H); [congruence|].
        apply integrity_of_raises in H. destruct H as (-> & R & _).
        apply integrity_of_raises in E. destruct E as (-> & _ & _).
        reflexivity.
Qed.

(** X1.  [score_integrity] raises exactly when [row_count] is 0 and some
    ID-hinted column has a null count other than 0; what is raised is the
    [ZeroDivisionError] of the division by [row_count].
    [calculate_all_dimensions] raises exactly when the timeliness scorer
    does, which is the [TypeError] of an instant that carries a time zone,
    or else when [score_integrity] does. *)
Theorem integrity_raises_iff :
  forall (now : Z) (md : DatasetMetadata) (e : exn),
    (score_integrity md = Raise e
     <-> e = ZeroDivisionError
         /\ row_count md = 0%Z
         /\ exists col,
              In col (cols_hinted md ID)
              /\ Py.get_default (null_counts md) col 0%Z <> 0%Z)
    /\ (calculate_all_dimensions now md = Raise e
        <-> (e = TypeError /\ ~ naive md)
            \/ (naive md /\ score_integrity md = Raise e)).
Proof.
  intros now md e. split.
  - unfold score_integrity.
    destruct (cols_hinted md ID) as [|c cs] eqn:E.
    + split; [discriminate | intros (_ & _ & col & [] & _)].
    + destruct (integrity_loop md (c :: cs) []) as [scores|e'] eqn:L;
        cbn [Py.bind].
      * split; [discriminate|].
        intros (-> & R & col & Hin & Hn).
        assert (H : integrity_loop md (c :: cs) [] = Raise ZeroDivisionError).
        { apply integrity_loop_raises. exists col. split; [exact Hin|].
          now apply integrity_of_raises. }
        congruence.
      * apply integrity_loop_raises in L. destruct L as (col & Hin & H).
        apply integrity_of_raises in H. destruct H as (-> & R & Hn).
        split.
        -- intros [= <-]. repeat split; auto. exists col. auto.
        -- intros (-> & _). reflexivity.
  - unfold calculate_all_dimensions.
    destruct (naive_dec md) as [Hn|Hn].
    + rewrite (score_timeliness_naive now md Hn). cbn [Py.bind].
      destruct (score_integrity md) as [s|e']; cbv zeta; cbn [Py.bind].
      * split; [discriminate|].
        intros [[_ Hno]|[_ Hi]]; [contradiction | discriminate].
      * split.
        -- intros [= <-]. right. auto.
        -- intros [[_ Hno]|[_ Hi]]; [contradiction|].
           injection Hi as ->. reflexivity.
    + rewrite (score_timeliness_aware now md Hn). cbn [Py.bind].
      split.
      * intros [= <-]. left. auto.
      * intros [[-> _]|[Hyes _]]; [reflexivity | contradiction].
Qed.

(** ** dimensions.py: validity and consistency never fall below 50 *)

Lemma half_credit_average {A} (f : A -> Q) (xs : list A) :
  xs <> [] -> (forall x, in_range (1 # 2) 1 (f x)) ->
  in_range 50 100 (Py.sum (map f xs) / len xs * 100).
Proof.
  intros Hne Hf.
  assert (H : 1 # 2 <= Py.sum (map f xs) / len (map f xs) <= 1).
  { apply average_bounds.
    - destruct xs; [congruence | discriminate].
    - now apply Forall_map_range. }
  rewrite len_map in H. unfold in_range. lra.
Qed.

(** X2.  Whatever the metadata, [score_validity] and [score_consistency] lie
    between 50 and 100: a column that fails its rule still earns half
    credit. *)
Theorem validity_and_consistency_floor :
  forall md : DatasetMetadata,
    in_range 50 100 (score_validity md)
    /\ in_range 50 100 (score_consistency md).
Proof.
  intros md. split.
  - destruct (cols_hinted md MONEY) as [|c cs] eqn:E.
    + unfold score_validity. rewrite E. unfold in_range; lra.
    + unfold in_range.
      rewrite score_validity_average by (rewrite E; discriminate).
      apply half_credit_average; [rewrite E; discriminate|].
      apply validity_credit_range.
  - unfold score_consistency.
    destruct (cols_hinted md CATEGORY) as [|c cs] eqn:E.
    + unfold in_range; lra.
    + unfold in_range.
      rewrite (fold_add_map (consistency_credit md) (c :: cs) 0).
      assert (H := half_credit_average (consistency_credit md) (c :: cs)).
      unfold in_range in H.
      setoid_replace (0 + Py.sum (map (consistency_credit md) (c :: cs)))
        with (Py.sum (map (consistency_credit md) (c :: cs))) by lra.
      apply H; [discriminate | apply consistency_credit_range].
Qed.

(** ** dimensions.py: completeness, uniqueness and accuracy as fractions *)

Lemma clamp_id (q : Q) : in_range 0 100 q -> clamp q == q.
Proof.
  intros [H0 H1]. unfold clamp.
  destruct (Q.max_spec 0 (Qmin 100 q)) as [[H ->]|[H ->]];
    destruct (Q.min_spec 100 q) as [[H' E]|[H' E]];
    rewrite ?E in *; lra.
Qed.

Lemma clamp_comp (x y : Q) : x == y -> clamp x == clamp y.
Proof.
  intros E. unfold clamp.
  destruct (Q.max_spec 0 (Qmin 100 x)) as [[? ->]|[? ->]];
    destruct (Q.max_spec 0 (Qmin 100 y)) as [[? ->]|[? ->]];
    destruct (Q.min_spec 100 x) as [[? Ex]|[? Ex]];
    destruct (Q.min_spec 100 y) as [[? Ey]|[? Ey]];
    rewrite ?Ex, ?Ey in *; lra.
Qed.

Lemma clamp_value (x v : Q) : x == v -> in_range 0 100 v -> clamp x == v.
Proof.
  intros E Hv. rewrite (clamp_comp x v E). now apply clamp_id.
Qed.

Lemma Zratio_range (n d : Z) :
  (0 < d)%Z -> (0 <= n <= d)%Z -> in_range 0 1 (inject_Z n / inject_Z d).
Proof.
  intros Hd [Hn Hnd].
  assert (0 < inject_Z d) by (change 0 with (inject_Z 0); now rewrite <- Zlt_Qlt).
  split.
  - apply Qle_shift_div_l; [assumption|]. rewrite Qmult_0_l.
    change 0 with (inject_Z 0). now rewrite <- Zle_Qle.
  - apply Qle_shift_div_r; [assumption|]. rewrite Qmult_1_l.
    now rewrite <- Zle_Qle.
Qed.

(** X3.  [score_completeness] is 0 for metadata without cells; when the nulls
    counted in [null_counts] are between 0 and the number of cells, it is
    the fraction of cells that are not null, times 100, and it is 100
    exactly when no null is counted. *)
Theorem completeness_fraction :
  forall md : DatasetMetadata,
    let total_cells :=
      (row_count md * Z.of_nat (List.length (column_names md)))%Z in
    let total_nulls := Py.sumZ (Py.values (null_counts md)) in
    (total_cells = 0%Z -> score_completeness md = 0)
    /\ ((0 < total_cells)%Z -> (0 <= total_nulls <= total_cells)%Z ->
        score_completeness md
        == 100 - 100 * (inject_Z total_nulls / inject_Z total_cells)
        /\ (score_completeness md == 100 <-> total_nulls = 0%Z)).
Proof.
  intros md total_cells total_nulls. split.
  - intros E. unfold score_completeness. fold total_cells. now rewrite E.
  - intros Hc Hn. unfold score_completeness. fold total_cells total_nulls.
    destruct (Z.eqb_spec total_cells 0) as [E|_]; [lia|].
    assert (Hpos : 0 < inject_Z total_cells).
    { change 0 with (inject_Z 0). now rewrite <- Zlt_Qlt. }
    assert (Hr := Zratio_range total_nulls total_cells Hc Hn).
    destruct Hr as [Hr0 Hr1].
    assert (E : inject_Z (total_cells - total_nulls) / inject_Z total_cells * 100
                == 100 - 100 * (inject_Z total_nulls / inject_Z total_cells)).
    { unfold Z.sub. rewrite inject_Z_plus, inject_Z_opp. field. lra. }
    assert (Ec : clamp (inject_Z (total_cells - total_nulls)
                        / inject_Z total_cells * 100)
                 == 100 - 100 * (inject_Z total_nulls / inject_Z total_cells)).
    { apply clamp_value; [exact E | unfold in_range; lra]. }
    cbv zeta. split; [exact Ec|]. rewrite Ec. split.
    + intros H100.
      destruct (Z.eq_dec total_nulls 0) as [|Hnz]; [assumption|].
      exfalso.
      assert (Hq : 0 < inject_Z total_nulls).
      { change 0 with (inject_Z 0). rewrite <- Zlt_Qlt. lia. }
      assert (0 < inject_Z total_nulls / inject_Z total_cells).
      { apply Qlt_shift_div_l; [assumption | lra]. }
      lra.
    + intros ->. change (inject_Z 0) with 0. field. lra.
Qed.

(** The theorem at the mock metadata of [dimensions.py]: 300 cells, 5 of
    them null. *)
Lemma completeness_fraction_witness :
  score_completeness meta == 100 - 100 * (inject_Z 5 / inject_Z 300).
Proof.
  refine (proj1 (proj2 (completeness_fraction meta) _ _)).
  - reflexivity.
  - vm_compute. split; discriminate.
Defined.

(** X4.  [score_uniqueness] with ID-hinted columns is 0 when [row_count] is not
    positive, and 100 when every ID-hinted column has as many distinct
    values as there are rows. *)
Theorem uniqueness_extremes :
  forall md : DatasetMetadata,
    cols_hinted md ID <> [] ->
    ((row_count md <= 0)%Z -> score_uniqueness md == 0)
    /\ ((0 < row_count md)%Z ->
        (forall col, In col (cols_hinted md ID) ->
                     Py.get_default (unique_counts md) col 0%Z = row_count md) ->
        score_uniqueness md == 100).
Proof.
  intros md Hne. unfold score_uniqueness.
  destruct (cols_hinted md ID) as [|c cs] eqn:E; [congruence|].
  assert (Hlen : 0 < len (c :: cs)) by (apply len_pos; discriminate).
  cbv zeta.
  pose proof (fold_add_map (uniqueness_ratio md) (c :: cs) 0) as Hfold.
  split.
  - intros Hr. apply clamp_value; [|unfold in_range; lra].
    rewrite Hfold.
    rewrite (sum_map_ext_in (uniqueness_ratio md) (fun _ => 0)).
    + assert (Ez : Py.sum (map (fun _ : string => 0) (c :: cs)) == 0).
      { clear. induction (c :: cs) as [|x xs IH]; [reflexivity|].
        simpl. rewrite sum_cons, IH. lra. }
      rewrite Ez. field. lra.
    + intros col _. unfold uniqueness_ratio.
      destruct (Z.ltb_spec 0 (row_count md)); [lia | reflexivity].
  - intros Hr Hall. apply clamp_value; [|unfold in_range; lra].
    rewrite Hfold.
    rewrite (sum_map_ext_in (uniqueness_ratio md) (fun _ => 1)).
    + rewrite (sum_all_ones (fun _ : string => 1)) by reflexivity.
      field. lra.
    + intros col Hin. unfold uniqueness_ratio.
      destruct (Z.ltb_spec 0 (row_count md)); [|lia].
      rewrite (Hall col Hin).
      assert (0 < inject_Z (row_count md)).
      { change 0 with (inject_Z 0). now rewrite <- Zlt_Qlt. }
      field. lra.
Qed.

(** The theorem at metadata of four rows whose ID column has four distinct
    values. *)
Lemma uniqueness_extremes_witness :
  score_uniqueness
    {| column_names := ["id"%string];
       data_types := [];
       row_count := 4;
       null_counts := [];
       unique_counts := [("id"%string, 4%Z)];
       numeric_stats := [];
       timestamp_metrics := [];
       semantic_hints := [("id"%string, ID)];
       signals := [];
       audit_hash := EmptyString |} == 100.
Proof.
  refine (proj2 (uniqueness_extremes _ _) _ _).
  - discriminate.
  - reflexivity.
  - intros col [<-|[]]. reflexivity.
Defined.

Lemma sum_indicator_filter {A} (p : A -> bool) (xs : list A) :
  Py.sum (map (fun x => if p x then 1 else 0) xs) == len (filter p xs).
Proof.
  induction xs as [|x xs IH]; simpl; [reflexivity|].
  rewrite sum_cons, IH. destruct (p x).
  - rewrite len_cons. reflexivity.
  - lra.
Qed.

(** X5.  [score_accuracy] is 0 without columns and otherwise the fraction of
    the columns that are accurate, times 100; it is 100 exactly when there
    is a column and every column is accurate.  A column is inaccurate
    exactly when its hint is MONEY and its lower-cased type names neither
    [int] nor [float], or its hint is TIMESTAMP and it has no timestamp
    metrics; a column without a hint counts as UNKNOWN. *)
Theorem accuracy_fraction :
  forall md : DatasetMetadata,
    (column_names md = [] -> score_accuracy md = 0)
    /\ (column_names md <> [] ->
        score_accuracy md
        == len (filter (is_accurate md) (column_names md))
           / len (column_names md) * 100)
    /\ (score_accuracy md == 100
        <-> column_names md <> []
            /\ forall col, In col (column_names md) -> is_accurate md col = true)
    /\ (forall col,
           is_accurate md col = false
           <-> (Py.get_default (semantic_hints md) col UNKNOWN = MONEY
                /\ contains "int"
                     (lower (Py.get_default (data_types md) col ""%string))
                   = false
                /\ contains "float"
                     (lower (Py.get_default (data_types md) col ""%string))
                   = false)
               \/ (Py.get_default (semantic_hints md) col UNKNOWN = TIMESTAMP
                   /\ Py.get (timestamp_metrics md) col = None)).
Proof.
  intros md.
  assert (Hfrac : column_names md <> [] ->
                  score_accuracy md
                  == len (filter (is_accurate md) (column_names md))
                     / len (column_names md) * 100).
  { intros Hne. unfold score_accuracy.
    destruct (column_names md) as [|c cs] eqn:E; [congruence|].
    simpl (_ =? _)%nat. cbv iota.
    rewrite (fold_count_map (is_accurate md) (c :: cs) 0).
    rewrite sum_indicator_filter.
    apply Qmult_comp; [|reflexivity]. apply Qdiv_comp; [lra | reflexivity]. }
  split; [|split; [exact Hfrac|split]].
  - intros E. unfold score_accuracy. now rewrite E.
  - split.
    + intros H100.
      destruct (column_names md) as [|c cs] eqn:E.
      { unfold score_accuracy in H100. rewrite E in H100. simpl in H100.
        exfalso. revert H100. vm_compute. discriminate. }
      split; [discriminate|]. intros col Hin.
      destruct (is_accurate md col) eqn:Hacc; [reflexivity|].
      exfalso.
      assert (Hlt : score_accuracy md < 100).
      { apply (score_accuracy_below md col); [now rewrite E | exact Hacc]. }
      lra.
    + intros [Hne Hall]. rewrite (Hfrac Hne).
      assert (Ef : filter (is_accurate md) (column_names md) = column_names md).
      { clear Hne Hfrac. induction (column_names md) as [|c cs IH]; simpl.
        - reflexivity.
        - rewrite (Hall c (or_introl eq_refl)). f_equal.
          apply IH. intros col Hin. apply Hall. now right. }
      rewrite Ef. assert (0 < len (column_names md)) by now apply len_pos.
      field. lra.
  - intros col. unfold is_accurate, Py.mem.
    destruct (Py.get_default (semantic_hints md) col UNKNOWN);
      destruct (contains "int" _), (contains "float" _),
               (Py.get (timestamp_metrics md) col);
      simpl; split; intros H;
      try discriminate; try reflexivity;
      try (destruct H as [(H1 & H2 & H3)|(H1 & H2)]; discriminate);
      try (left; repeat split; reflexivity);
      try (right; repeat split; reflexivity).
Qed.

(** The theorem at the mock metadata of [dimensions.py], whose three
    columns are accurate. *)
Lemma accuracy_fraction_witness :
  score_accuracy meta
  == len (filter (is_accurate meta) (column_names meta))
     / len (column_names meta) * 100.
Proof.
  refine (proj1 (proj2 (accuracy_fraction meta)) _). discriminate.
Defined.

(** ** dimensions.py: timeliness only falls as time passes *)

Lemma recency_score_antitone (d1 d2 : Z) :
  (0 <= d1 <= d2)%Z -> recency_score d2 <= recency_score d1.
Proof.
  intros Hd. unfold recency_score.
  repeat match goal with
         | |- context [(?a <? ?b)%Z] => destruct (Z.ltb_spec a b)
         | |- context [(?a <=? ?b)%Z] => destruct (Z.leb_spec a b)
         end; try lra; exfalso; lia.
Qed.

Lemma timedelta_days_mono (a b : Z) :
  (0 <= a <= b)%Z -> (0 <= timedelta_days a <= timedelta_days b)%Z.
Proof.
  intros [Ha Hab]. unfold timedelta_days.
  change nanoseconds_per_day with 86400000000000%Z. split.
  - apply Z.div_pos; lia.
  - apply Z.div_le_mono; lia.
Qed.

Lemma sum_map_le {A} (f g : A -> Q) (xs : list A) :
  (forall x, In x xs -> f x <= g x) -> Py.sum (map f xs) <= Py.sum (map g xs).
Proof.
  induction xs as [|x xs IH]; intros H; simpl; [apply Qle_refl|].
  rewrite !sum_cons.
  assert (f x <= g x) by (apply H; now left).
  assert (Py.sum (map f xs) <= Py.sum (map g xs))
    by (apply IH; intros; apply H; now right).
  lra.
Qed.

Lemma timeliness_value_falls (md : DatasetMetadata) (now1 now2 : Z) :
  Forall (fun kv => (max_time (snd kv) <= now1)%Z) (timestamp_metrics md) ->
  (now1 <= now2)%Z ->
  timeliness_value now2 md <= timeliness_value now1 md.
Proof.
  intros Hpast Hle. unfold timeliness_value.
  destruct (timestamp_metrics md) as [|t ts] eqn:E; [apply Qle_refl|].
  rewrite !len_map.
  assert (Hlen : 0 < len (t :: ts)) by (apply len_pos; discriminate).
  apply Qmult_le_compat_r; [|apply Qlt_le_weak, Qinv_lt_0_compat, Hlen].
  apply sum_map_le. intros kv Hin.
  rewrite Forall_forall in Hpast. specialize (Hpast kv Hin).
  apply recency_score_antitone.
  destruct (timedelta_days_mono (now1 - max_time (snd kv))
              (now2 - max_time (snd kv))); lia.
Qed.

(** X6.  Once no newest instant of a timestamp column lies in the future, a
    later reading of the clock never gives a higher timeliness score: for
    instants without a time zone both readings return a score and the
    later one is not higher, and otherwise both readings raise the same
    exception. *)
Theorem timeliness_falls_with_time :
  forall (md : DatasetMetadata) (now1 now2 : Z),
    Forall (fun kv => (max_time (snd kv) <= now1)%Z) (timestamp_metrics md) ->
    (now1 <= now2)%Z ->
    (naive md ->
     exists s1 s2,
       score_timeliness now1 md = Ok s1
       /\ score_timeliness now2 md = Ok s2
       /\ s2 <= s1)
    /\ (forall e, score_timeliness now1 md = Raise e
                  <-> score_timeliness now2 md = Raise e).
Proof.
  intros md now1 now2 Hpast Hle. split.
  - intros Hn. exists (timeliness_value now1 md), (timeliness_value now2 md).
    split; [now apply score_timeliness_naive|].
    split; [now apply score_timeliness_naive|].
    now apply timeliness_value_falls.
  - intros e. now rewrite !score_timeliness_raises.
Qed.

(** The theorem at the mock metadata of [dimensions.py], read at its
    instant and 400 days later: the scores are 90 and 40. *)
Lemma timeliness_falls_with_time_witness :
  exists s1 s2,
    score_timeliness sample_now meta = Ok s1
    /\ score_timeliness (sample_now + days 400) meta = Ok s2
    /\ s1 == 90 /\ s2 == 40
    /\ s2 <= s1.
Proof.
  assert (Hpast : Forall (fun kv => (max_time (snd kv) <= sample_now)%Z)
                         (timestamp_metrics meta))
    by each_entry ltac:(vm_compute; discriminate).
  assert (Hle : (sample_now <= sample_now + days 400)%Z)
    by (vm_compute; discriminate).
  destruct (proj1 (timeliness_falls_with_time meta sample_now
                     (sample_now + days 400) Hpast Hle) meta_naive)
    as (s1 & s2 & H1 & H2 & Hs).
  exists s1, s2. split; [exact H1|]. split; [exact H2|].
  split; [injection H1 as <-; reflexivity|].
  split; [injection H2 as <-; reflexivity | exact Hs].
Defined.

(** ** dimensions.py: the values of the integrity score *)

Lemma sum_hundreds (n : nat) :
  Py.sum (repeat 100 n) == 100 * len (repeat 100 n).
Proof.
  induction n as [|n IH]; simpl.
  - reflexivity.
  - rewrite sum_cons, len_cons, IH. ring.
Qed.

Lemma integrity_loop_clean (md : DatasetMetadata) (cols : list string)
                           (n : nat) :
  (forall col, In col cols ->
               Py.get_default (null_counts md) col 0%Z = 0%Z) ->
  integrity_loop md cols (repeat 100 n)
  = Ok (repeat 100 (n + List.length cols)).
Proof.
  revert n. induction cols as [|c cols IH]; intros n Hall; simpl.
  - now rewrite Nat.add_0_r.
  - unfold integrity_of. rewrite (Hall c (or_introl eq_refl)). simpl.
    replace (repeat 100 n ++ [100]) with (repeat 100 (S n)).
    + rewrite IH by (intros; apply Hall; now right).
      now rewrite Nat.add_succ_comm.
    + change [100] with (repeat 100 1). rewrite <- repeat_app.
      now rewrite Nat.add_1_r.
Qed.

(** X7.  [score_integrity] is 100 when no ID-hinted column has nulls, whatever
    [row_count] is.  For an ID-hinted column with nulls and a positive
    [row_count], the column's score is 0 as soon as half of the rows or
    more are null, and otherwise 100 minus 200 times the share of nulls. *)
Theorem integrity_values :
  forall md : DatasetMetadata,
    ((forall col, In col (cols_hinted md ID) ->
                  Py.get_default (null_counts md) col 0%Z = 0%Z) ->
     exists s, score_integrity md = Ok s /\ s == 100)
    /\ (forall col,
           let nulls := Py.get_default (null_counts md) col 0%Z in
           (0 < nulls)%Z -> (0 < row_count md)%Z ->
           exists s,
             integrity_of md col = Ok s
             /\ ((row_count md <= 2 * nulls)%Z -> s == 0)
             /\ ((2 * nulls < row_count md)%Z ->
                 s == 100 - 200 * (inject_Z nulls / inject_Z (row_count md)))).
Proof.
  intros md. split.
  - intros Hall. unfold score_integrity.
    destruct (cols_hinted md ID) as [|c cs] eqn:E.
    + exists 100. split; reflexivity.
    + pose proof (integrity_loop_clean md (c :: cs) 0 Hall) as Hl.
      change (repeat 100 0) with (@nil Q) in Hl. rewrite Hl. cbn [Py.bind].
      eexists. split; [reflexivity|].
      rewrite sum_hundreds.
      assert (0 < len (repeat 100 (0 + List.length (c :: cs)))).
      { apply len_pos. simpl. discriminate. }
      field. lra.
  - intros col nulls Hn Hr. unfold integrity_of. fold nulls.
    destruct (Z.eqb_spec nulls 0); [lia|].
    destruct (Z.eqb_spec (row_count md) 0); [lia|].
    eexists. split; [reflexivity|].
    assert (Hq : 0 < inject_Z (row_count md)).
    { change 0 with (inject_Z 0). now rewrite <- Zlt_Qlt. }
    set (ratio := inject_Z nulls / inject_Z (row_count md)).
    assert (Er : inject_Z nulls == ratio * inject_Z (row_count md)).
    { unfold ratio. field. lra. }
    split.
    + intros Hhalf.
      assert (Hge : inject_Z (row_count md) <= 2 * inject_Z nulls).
      { change 2 with (inject_Z 2). rewrite <- inject_Z_mult, <- Zle_Qle. lia. }
      assert (1 # 2 <= ratio).
      { apply Qle_shift_div_l; [assumption | lra]. }
      destruct (Q.max_spec 0 (100 - ratio * 200)) as [[Hm ->]|[Hm ->]]; lra.
    + intros Hless.
      assert (Hlt : 2 * inject_Z nulls < inject_Z (row_count md)).
      { change 2 with (inject_Z 2). rewrite <- inject_Z_mult, <- Zlt_Qlt. lia. }
      assert (ratio < 1 # 2).
      { apply Qlt_shift_div_r; [assumption | lra]. }
      destruct (Q.max_spec 0 (100 - ratio * 200)) as [[Hm ->]|[Hm ->]]; lra.
Qed.

(** The theorem at the mock metadata of [dimensions.py], whose ID column
    has no nulls, and at its amount column with 5 nulls in 100 rows. *)
Lemma integrity_values_witness :
  (exists s, score_integrity meta = Ok s /\ s == 100)
  /\ exists s,
       integrity_of meta "amount" = Ok s
       /\ ((100 <= 2 * 5)%Z -> s == 0)
       /\ ((2 * 5 < 100)%Z -> s == 100 - 200 * (inject_Z 5 / inject_Z 100)).
Proof.
  split.
  - apply (proj1 (integrity_values meta)).
    intros col [<-|[]]. reflexivity.
  - apply (proj2 (integrity_values meta) "amount"%string); reflexivity.
Defined.

(** ** scoring.py: the default weights give the rounded mean *)

Lemma sum_map_scale {A} (f : A -> Q) (c : Q) (xs : list A) :
  Py.sum (map (fun x => f x * c) xs) == Py.sum (map f xs) * c.
Proof.
  induction xs as [|x xs IH]; simpl.
  - unfold Py.sum. simpl. ring.
  - rewrite !sum_cons, IH. ring.
Qed.

Lemma calculate_base_dqs_default (scores : dict Q) :
  calculate_base_dqs scores None
  = Ok (base_formula scores
          (map (fun dim => (dim, 1 / 7)) required_dimensions)).
Proof.
  unfold calculate_base_dqs. cbn [Py.bind]. apply f_equal.
  unfold base_formula. apply round2_comp, weighted_sum_built.
Qed.

(** X8.  With the weights omitted, the base score is the mean of the seven
    looked-up dimension scores, a missing one counting as 0, rounded to
    two decimals. *)
Theorem default_weights_mean :
  forall scores : dict Q,
    calculate_base_dqs scores None
    = Ok (round2 (Py.sum (map (fun dim => Py.get_default scores dim 0)
                              required_dimensions) / 7)).
Proof.
  intros scores. rewrite calculate_base_dqs_default. apply f_equal.
  unfold base_formula. apply round2_comp.
  rewrite (sum_map_ext_in _ (fun dim => Py.get_default scores dim 0 * (1 / 7))).
  - rewrite sum_map_scale. field.
  - intros dim Hin.
    now rewrite (get_default_built (fun _ => 1 / 7) required_dimensions dim 0 Hin).
Qed.

(** ** scoring.py: only the seven dimension keys of the scores matter *)

Lemma base_formula_ext (s1 s2 w : dict Q) :
  (forall dim, In dim required_dimensions ->
               Py.get_default s1 dim 0 == Py.get_default s2 dim 0) ->
  base_formula s1 w = base_formula s2 w.
Proof.
  intros H. unfold base_formula. apply round2_comp, sum_map_ext_in.
  intros dim Hin. now rewrite (H dim Hin).
Qed.

Lemma calculate_base_dqs_formula (scores : dict Q) (weights : option (dict Q))
                                 (b : Q) :
  calculate_base_dqs scores weights = Ok b ->
  b = base_formula scores
        (match weights with
         | Some w => w
         | None => map (fun dim => (dim, 1 / 7)) required_dimensions
         end).
Proof.
  destruct weights as [w|].
  - intros Hrun. destruct (accepted_weights w scores b Hrun) as [_ ->].
    unfold base_formula. apply round2_comp, weighted_sum_built.
  - rewrite calculate_base_dqs_default. now intros [= <-].
Qed.

Lemma calculate_base_dqs_same_outcome (s1 s2 : dict Q)
                                      (weights : option (dict Q)) (e : exn) :
  calculate_base_dqs s1 weights = Raise e ->
  calculate_base_dqs s2 weights = Raise e.
Proof.
  destruct weights as [w|]; [|rewrite calculate_base_dqs_default; discriminate].
  unfold calculate_base_dqs.
  destruct (Qltb _ _); cbn [Py.bind]; [now intros [= <-] | discriminate].
Qed.

(** X9.  Two score mappings that agree on the seven dimension keys, a missing
    key read as 0.0, get the same result from [calculate_base_dqs] for
    every weights argument: keys other than the seven are ignored. *)
Theorem base_score_reads_seven_keys :
  forall (s1 s2 : dict Q) (weights : option (dict Q)),
    (forall dim, In dim required_dimensions ->
                 Py.get_default s1 dim 0 == Py.get_default s2 dim 0) ->
    calculate_base_dqs s1 weights = calculate_base_dqs s2 weights.
Proof.
  intros s1 s2 weights H.
  destruct (calculate_base_dqs s1 weights) as [b1|e1] eqn:E1.
  - destruct (calculate_base_dqs s2 weights) as [b2|e2] eqn:E2.
    + apply calculate_base_dqs_formula in E1, E2. subst.
      apply f_equal. now apply base_formula_ext.
    + apply (calculate_base_dqs_same_outcome s2 s1) in E2. congruence.
  - symmetry. now apply (calculate_base_dqs_same_outcome s1 s2).
Qed.

(** The theorem at the scores of [scoring.py] with a key added that names
    no dimension. *)
Lemma base_score_reads_seven_keys_witness :
  calculate_base_dqs (("freshness"%string, 3) :: sample_scores)
                     (Some custom_weights)
  = calculate_base_dqs sample_scores (Some custom_weights).
Proof.
  apply base_score_reads_seven_keys.
  intros dim Hin. unfold required_dimensions in Hin. simpl in Hin.
  repeat (destruct Hin as [<-|Hin]; [reflexivity|]). contradiction.
Defined.

(** ** scoring.py: rounding is monotone and idempotent *)

Lemma round_half_even_near (x : Q) :
  (Qfloor x <= round_half_even x <= Qfloor x + 1)%Z.
Proof.
  unfold round_half_even.
  destruct (Qcompare (x - inject_Z (Qfloor x)) (1 # 2));
    [destruct (Z.even (Qfloor x))| |]; lia.
Qed.

Lemma round_half_even_mono (x y : Q) :
  x <= y -> (round_half_even x <= round_half_even y)%Z.
Proof.
  intros Hxy. pose proof (Qfloor_resp_le x y Hxy) as Hf.
  destruct (Z.eq_dec (Qfloor x) (Qfloor y)) as [E|Hne].
  - unfold round_half_even. rewrite <- E.
    destruct (Qcompare_spec (x - inject_Z (Qfloor x)) (1 # 2)) as [Hx|Hx|Hx];
      destruct (Qcompare_spec (y - inject_Z (Qfloor x)) (1 # 2)) as [Hy|Hy|Hy];
      try destruct (Z.even (Qfloor x)); try lia; exfalso; lra.
  - pose proof (round_half_even_near x). pose proof (round_half_even_near y).
    lia.
Qed.

Lemma round2_mono (x y : Q) : x <= y -> round2 x <= round2 y.
Proof.
  intros Hxy. unfold round2.
  apply Qmult_le_compat_r; [|discriminate].
  rewrite <- Zle_Qle. apply round_half_even_mono. lra.
Qed.

Lemma round_half_even_Z (n : Z) : round_half_even (inject_Z n) = n.
Proof.
  unfold round_half_even. rewrite Qfloor_Z.
  destruct (Qcompare_spec (inject_Z n - inject_Z n) (1 # 2)) as [H|H|H];
    [exfalso; lra | reflexivity | exfalso; lra].
Qed.

Lemma round2_idempotent (x : Q) : round2 (round2 x) = round2 x.
Proof.
  unfold round2 at 1 3. apply (f_equal (fun n => inject_Z n / 100)).
  rewrite (round_half_even_comp (round2 x * 100)
             (inject_Z (round_half_even (x * 100)))).
  - apply round_half_even_Z.
  - unfold round2. field.
Qed.

(** X10.  A base score never falls when dimension scores rise: if every one of
    the seven looked-up scores of one mapping is at most that of another
    and no looked-up weight is negative, the base scores compare the same
    way; so with the default weights always. *)
Theorem base_score_monotone :
  forall (s1 s2 : dict Q) (weights : option (dict Q)) (b1 b2 : Q),
    (forall dim, In dim required_dimensions ->
                 Py.get_default s1 dim 0 <= Py.get_default s2 dim 0) ->
    (forall w dim, weights = Some w -> In dim required_dimensions ->
                   0 <= Py.get_default w dim 0) ->
    calculate_base_dqs s1 weights = Ok b1 ->
    calculate_base_dqs s2 weights = Ok b2 ->
    b1 <= b2.
Proof.
  intros s1 s2 weights b1 b2 Hs Hw H1 H2.
  apply calculate_base_dqs_formula in H1, H2. subst.
  unfold base_formula. apply round2_mono, sum_map_le.
  intros dim Hin. apply Qmult_le_compat_r; [now apply Hs|].
  destruct weights as [w|]; [now apply (Hw w)|].
  rewrite (get_default_built (fun _ => 1 / 7) required_dimensions dim 0 Hin).
  discriminate.
Qed.

(** The theorem at the scores of [scoring.py] and at seven perfect
    scores, with the payment weights. *)
Lemma base_score_monotone_witness :
  calculate_base_dqs sample_scores (Some custom_weights) = Ok (9355 # 100)
  /\ calculate_base_dqs perfect_scores (Some custom_weights)
     = Ok (10000 # 100)
  /\ 9355 # 100 <= 10000 # 100.
Proof.
  split; [reflexivity|]. split; [reflexivity|].
  apply (base_score_monotone sample_scores perfect_scores (Some custom_weights)).
  - intros dim Hin. unfold required_dimensions in Hin. simpl in Hin.
    repeat (destruct Hin as [<-|Hin]; [vm_compute; discriminate|]).
    contradiction.
  - intros w dim [= <-] Hin. unfold required_dimensions in Hin. simpl in Hin.
    repeat (destruct Hin as [<-|Hin]; [vm_compute; discriminate|]).
    contradiction.
  - reflexivity.
  - reflexivity.
Defined.

(** ** roles.py: the weights [_make_weights] builds *)

Lemma sum_split_key (ks : list string) (k0 : string) (v0 : Q)
                    (h : string -> Q) :
  NoDup ks -> In k0 ks ->
  Py.sum (map (fun k => if String.eqb k0 k then v0 else h k) ks)
  == v0 + Py.sum (map h ks) - h k0.
Proof.
  intros Hnd. induction Hnd as [|k ks Hnin Hnd IH]; intros Hin; [contradiction|].
  simpl. rewrite !sum_cons.
  destruct (String.eqb_spec k0 k) as [->|Hne].
  - rewrite (sum_map_ext_in _ h); [lra|].
    intros d Hd. destruct (String.eqb_spec k d) as [->|]; [contradiction|].
    reflexivity.
  - destruct Hin as [->|Hin]; [congruence|]. rewrite (IH Hin). lra.
Qed.

(** The weights looked up under distinct keys that cover a mapping's keys
    add up to the total of the mapping. *)
Lemma lookups_total (w : dict Q) (ks : list string) :
  NoDup ks -> NoDup (Py.keys w) -> (forall k, In k (Py.keys w) -> In k ks) ->
  Py.sum (map (fun k => Py.get_default w k 0) ks) == Py.sum (Py.values w).
Proof.
  intros Hks. induction w as [|[k0 v0] w IH]; intros Hnd Hsub.
  - unfold Py.values. simpl.
    rewrite (sum_map_ext_in _ (fun _ => 0)) by reflexivity.
    clear. induction ks as [|k ks IH]; [reflexivity|].
    simpl. rewrite sum_cons, IH. unfold Py.sum. simpl. lra.
  - assert (Hnd' : NoDup (Py.keys w)) by (now inversion Hnd).
    assert (Hnin : ~ In k0 (Py.keys w)) by (now inversion Hnd).
    assert (Hin0 : In k0 ks) by (apply Hsub; now left).
    assert (Hsub' : forall k, In k (Py.keys w) -> In k ks)
      by (intros k Hk; apply Hsub; now right).
    change (Py.values ((k0, v0) :: w)) with (v0 :: Py.values w).
    rewrite sum_cons.
    rewrite (sum_map_ext_in _
               (fun k => if String.eqb k0 k then v0
                         else Py.get_default w k 0))
      by (intros k _; rewrite get_default_cons; reflexivity).
    rewrite sum_split_key by auto.
    rewrite IH by auto.
    assert (E : Py.get_default w k0 0 = 0).
    { unfold Py.get_default.
      destruct (Py.get w k0) as [v|] eqn:G; [|reflexivity].
      exfalso. apply Hnin. clear - G. unfold Py.keys.
      induction w as [|[k v'] w IH]; simpl in *; [discriminate|].
      destruct (String.eqb_spec k k0) as [->|]; [now left | right; auto]. }
    rewrite E. lra.
Qed.

Lemma fold_set_distinct {V} (g : string -> V) (ks : list string) (d : dict V) :
  NoDup ks -> (forall k, In k ks -> ~ In k (Py.keys d)) ->
  fold_left (fun weights k => Py.set weights k (g k)) ks d
  = d ++ map (fun k => (k, g k)) ks.
Proof.
  intros Hnd. revert d. induction Hnd as [|k ks Hnin Hnd IH]; intros d Hfresh.
  - simpl. now rewrite app_nil_r.
  - simpl. rewrite IH.
    + assert (E : Py.set d k (g k) = d ++ [(k, g k)]).
      { specialize (Hfresh k (or_introl eq_refl)). clear - Hfresh.
        unfold Py.keys in Hfresh.
        induction d as [|[k' v'] d IH]; simpl in *; [reflexivity|].
        destruct (String.eqb_spec k' k) as [->|]; [tauto|].
        f_equal. apply IH. tauto. }
      rewrite E, <- app_assoc. reflexivity.
    + intros k' Hin Hk'. apply keys_set_in in Hk'.
      destruct Hk' as [->|Hk']; [contradiction|].
      apply (Hfresh k'); [now right | assumption].
Qed.

Lemma make_weights_map (focus : dict Q) :
  _make_weights focus
  = map (fun d =>
           (d, Py.get_default focus d
                 (if (0 <? Z.of_nat (List.length required_dimensions)
                           - Z.of_nat (List.length focus))%Z
                  then (1 - Py.sum (Py.values focus))
                       / inject_Z (Z.of_nat (List.length required_dimensions)
                                   - Z.of_nat (List.length focus))
                  else 0)))
        required_dimensions.
Proof.
  unfold _make_weights.
  now rewrite (fold_set_distinct _ _ [] required_dimensions_NoDup)
    by (intros k _ []).
Qed.

Lemma get_default_shift (focus : dict Q) (k : string) (share : Q) :
  Py.get_default focus k share
  == Py.get_default (map (fun kv => (fst kv, snd kv - share)) focus) k 0
     + share.
Proof.
  unfold Py.get_default. induction focus as [|[k' v] focus IH]; simpl.
  - lra.
  - destruct (String.eqb k' k); [lra | exact IH].
Qed.

Lemma sum_values_shift (focus : dict Q) (share : Q) :
  Py.sum (Py.values (map (fun kv => (fst kv, snd kv - share)) focus))
  == Py.sum (Py.values focus) - len focus * share.
Proof.
  unfold Py.values. induction focus as [|[k v] focus IH]; simpl.
  - unfold Py.sum, len. simpl. change (inject_Z 0) with 0. lra.
  - rewrite !sum_cons, len_cons, IH. simpl. lra.
Qed.

Lemma sum_map_plus_const {A} (h : A -> Q) (c : Q) (xs : list A) :
  Py.sum (map (fun x => h x + c) xs) == Py.sum (map h xs) + len xs * c.
Proof.
  induction xs as [|x xs IH]; simpl.
  - unfold Py.sum, len. simpl. change (inject_Z 0) with 0. lra.
  - rewrite !sum_cons, len_cons, IH. lra.
Qed.

(** In the exact arithmetic of the embedding: the mapping [_make_weights]
    returns, its lookups and the sum of its values. *)
Lemma make_weights_shares (focus : dict Q) :
  NoDup (Py.keys focus) ->
  (forall k, In k (Py.keys focus) -> In k required_dimensions) ->
  (List.length focus < 7)%nat ->
  let share := (1 - Py.sum (Py.values focus))
               / inject_Z (7 - Z.of_nat (List.length focus)) in
  _make_weights focus
  = map (fun d => (d, Py.get_default focus d share)) required_dimensions
  /\ Py.sum (Py.values (_make_weights focus)) == 1
  /\ (forall k v, In k required_dimensions -> Py.get focus k = Some v ->
                  Py.get (_make_weights focus) k = Some v)
  /\ (forall k, In k required_dimensions -> Py.get focus k = None ->
                Py.get (_make_weights focus) k = Some share).
Proof.
  intros Hnd Hsub Hlen.
  pose proof (make_weights_map focus) as Hmap.
  change (Z.of_nat (List.length required_dimensions)) with 7%Z in Hmap.
  destruct (Z.ltb_spec 0 (7 - Z.of_nat (List.length focus))) as [Hpos|]; [|lia].
  set (share := (1 - Py.sum (Py.values focus))
                / inject_Z (7 - Z.of_nat (List.length focus))) in *.
  cbv zeta. fold share. rewrite Hmap. split; [reflexivity|]. split; [|split].
  - unfold Py.values. rewrite map_map. cbn [snd].
    rewrite (sum_map_ext_in _
               (fun d => Py.get_default
                           (map (fun kv => (fst kv, snd kv - share)) focus) d 0
                         + share))
      by (intros d _; apply get_default_shift).
    rewrite sum_map_plus_const, lookups_total, sum_values_shift.
    + change (len required_dimensions) with (inject_Z 7).
      assert (Hq : 0 < inject_Z (7 - Z.of_nat (List.length focus))).
      { change 0 with (inject_Z 0). now rewrite <- Zlt_Qlt. }
      assert (Es : share * inject_Z (7 - Z.of_nat (List.length focus))
                   == 1 - Py.sum (Py.values focus)).
      { unfold share. field. lra. }
      unfold Z.sub in Es. rewrite inject_Z_plus, inject_Z_opp in Es.
      unfold len. lra.
    + exact required_dimensions_NoDup.
    + unfold Py.keys in *. now rewrite map_map.
    + unfold Py.keys in *. rewrite map_map. exact Hsub.
  - intros k v Hin Hget.
    assert (E := get_default_built
                   (fun d => Py.get_default focus d share)
                   required_dimensions k 0 Hin).
    unfold Py.get_default in E at 1.
    destruct (Py.get (map _ required_dimensions) k) as [x|] eqn:G.
    + rewrite E. unfold Py.get_default. now rewrite Hget.
    + exfalso. clear - G Hin. revert G. unfold required_dimensions in *.
      simpl in Hin.
      repeat (destruct Hin as [<-|Hin]; [vm_compute; discriminate|]).
      contradiction.
  - intros k Hin Hget.
    assert (E := get_default_built
                   (fun d => Py.get_default focus d share)
                   required_dimensions k 0 Hin).
    unfold Py.get_default in E at 1.
    destruct (Py.get (map _ required_dimensions) k) as [x|] eqn:G.
    + rewrite E. unfold Py.get_default. now rewrite Hget.
    + exfalso. clear - G Hin. revert G. unfold required_dimensions in *.
      simpl in Hin.
      repeat (destruct Hin as [<-|Hin]; [vm_compute; discriminate|]).
      contradiction.
Qed.

(** X11.  For a focus map with distinct keys, all among the seven
    dimensions, that leaves at least one dimension undeclared and whose
    weights are not negative and sum to at most 1, [_make_weights] returns
    weights a profile can use: a mapping over exactly the seven dimensions,
    in their order, with no negative weight, whose sum is 1.0 within the
    tolerance of 0.001, so that [calculate_base_dqs] accepts it for all
    scores.  A declared weight is kept and every undeclared dimension
    gets an equal share of what is left. *)
Theorem make_weights_normalized :
  forall focus : dict Q,
    NoDup (Py.keys focus) ->
    (forall k, In k (Py.keys focus) -> In k required_dimensions) ->
    (List.length focus < 7)%nat ->
    Forall (fun v => 0 <= v) (Py.values focus) ->
    Py.sum (Py.values focus) <= 1 ->
    Py.keys (_make_weights focus) = required_dimensions
    /\ Forall (fun v => 0 <= v) (Py.values (_make_weights focus))
    /\ Qabs (Py.sum (Py.values (_make_weights focus)) - 1) <= 1 # 1000
    /\ (forall scores : dict Q,
           exists b,
             calculate_base_dqs scores (Some (_make_weights focus)) = Ok b)
    /\ (forall k v, In k required_dimensions -> Py.get focus k = Some v ->
                    Py.get (_make_weights focus) k = Some v)
    /\ (forall k, In k required_dimensions -> Py.get focus k = None ->
                  Py.get (_make_weights focus) k
                  = Some ((1 - Py.sum (Py.values focus))
                          / inject_Z (7 - Z.of_nat (List.length focus)))).
Proof.
  intros focus Hnd Hsub Hlen Hpos Hsum.
  destruct (make_weights_shares focus Hnd Hsub Hlen)
    as (Hmap & Hone & Hkept & Hshare).
  assert (Hacc : Qabs (Py.sum (Py.values (_make_weights focus)) - 1)
                 <= 1 # 1000).
  { rewrite Hone. vm_compute. discriminate. }
  split; [|split; [|split; [|split; [|split]]]].
  - rewrite Hmap. unfold Py.keys. rewrite map_map. apply map_id.
  - rewrite Hmap. unfold Py.values. rewrite map_map. cbn [snd].
    apply Forall_forall. intros v Hv. apply in_map_iff in Hv.
    destruct Hv as (d & <- & _).
    apply (get_default_Forall (fun v => 0 <= v)).
    + unfold Py.values in Hpos. now rewrite Forall_map in Hpos.
    + assert (Hq : 0 < inject_Z (7 - Z.of_nat (List.length focus))).
      { change 0 with (inject_Z 0). rewrite <- Zlt_Qlt.
        apply Nat2Z.inj_lt in Hlen. change (Z.of_nat 7) with 7%Z in Hlen.
        lia. }
      apply Qle_shift_div_l; [exact Hq|].
      rewrite Qmult_0_l. unfold Py.values in Hsum. lra.
  - exact Hacc.
  - intros scores. eexists.
    exact (calculate_base_dqs_accepts scores (_make_weights focus) Hacc).
  - exact Hkept.
  - exact Hshare.
Qed.

(** The theorem at the focus map of the Fraud Analyst profile. *)
Lemma make_weights_normalized_witness :
  Py.keys (_make_weights [("uniqueness", 3 # 10); ("timeliness", 3 # 10);
                          ("validity", 1 # 10)]%string)
  = required_dimensions
  /\ Forall (fun v => 0 <= v)
            (Py.values
               (_make_weights [("uniqueness", 3 # 10); ("timeliness", 3 # 10);
                               ("validity", 1 # 10)]%string))
  /\ Py.get (_make_weights [("uniqueness", 3 # 10); ("timeliness", 3 # 10);
                            ("validity", 1 # 10)]%string) "accuracy"
     = Some ((1 - Py.sum (Py.values [("uniqueness", 3 # 10);
                                     ("timeliness", 3 # 10);
                                     ("validity", 1 # 10)]%string))
             / inject_Z (7 - Z.of_nat 3)).
Proof.
  destruct (make_weights_normalized
              [("uniqueness", 3 # 10); ("timeliness", 3 # 10);
               ("validity", 1 # 10)]%string)
    as (Hkeys & Hnonneg & _ & _ & _ & Hshare).
  - repeat (constructor; [simpl; intuition discriminate|]). constructor.
  - intros k Hk. simpl in Hk. unfold required_dimensions.
    repeat (destruct Hk as [<-|Hk]; [simpl; tauto|]). contradiction.
  - simpl. lia.
  - unfold Py.values; simpl. each_entry ltac:(discriminate).
  - vm_compute. discriminate.
  - split; [exact Hkeys|]. split; [exact Hnonneg|].
    apply Hshare; [unfold required_dimensions; simpl; tauto | reflexivity].
Defined.

(** ** roles.py: looking up a profile *)

Lemma PROFILES_well_formed :
  Forall (fun kv => well_formed_profile (snd kv)) PROFILES.
Proof.
  unfold PROFILES.
  each_entry ltac:(
    cbn [snd]; unfold well_formed_profile, normalized_weights;
    split; [split; [reflexivity | split; [|vm_compute; discriminate]]|];
    [ vm_compute; each_entry ltac:(discriminate)
    | split; [eexists; split; [reflexivity|];
              intros x Hx; simpl in Hx; unfold required_dimensions;
              repeat (destruct Hx as [<-|Hx]; [simpl; tauto|]); contradiction
             | split; [eexists; split; [reflexivity | by_evaluation]
                      | eexists; reflexivity]]]).
Qed.

(** In the exact arithmetic of the embedding the weights of every
    profile sum to 1. *)
Lemma PROFILES_sums :
  Forall (fun kv => Py.sum (Py.values (weights (snd kv))) == 1) PROFILES.
Proof. unfold PROFILES. each_entry ltac:(reflexivity). Qed.

Lemma get_in {V} (d : dict V) (k : string) (v : V) :
  Py.get d k = Some v -> In (k, v) d.
Proof.
  induction d as [|[k' v'] d IH]; simpl; [discriminate|].
  destruct (String.eqb_spec k' k) as [->|].
  - intros [= ->]. now left.
  - intros H. right. auto.
Qed.

Lemma get_role_profile_resolves (name : string) :
  exists key entry,
    In key get_all_role_names
    /\ Py.get PROFILES key = Some entry
    /\ get_role_profile name = Ok (with_role_name entry key)
    /\ (lower key = lower name
        \/ (key = default_role
            /\ forall k, In k get_all_role_names -> lower k <> lower name)).
Proof.
  unfold get_role_profile.
  set (matching := filter (fun k => String.eqb (lower k) (lower name))
                          (Py.keys PROFILES)).
  assert (Hkey : exists key,
             In key get_all_role_names
             /\ match matching with k :: _ => k | [] => default_role end = key
             /\ (lower key = lower name
                 \/ (key = default_role
                     /\ forall k, In k get_all_role_names ->
                                  lower k <> lower name))).
  { destruct matching as [|k rest] eqn:E.
    - exists default_role. split; [vm_compute; tauto|]. split; [reflexivity|].
      right. split; [reflexivity|]. intros k Hk Heq.
      assert (Hin : In k matching).
      { apply filter_In. split; [exact Hk|]. now apply String.eqb_eq. }
      rewrite E in Hin. contradiction.
    - assert (Hin : In k matching) by (rewrite E; now left).
      apply filter_In in Hin. destruct Hin as [Hk Heq].
      exists k. split; [exact Hk|]. split; [reflexivity|].
      left. now apply String.eqb_eq. }
  destruct Hkey as (key & Hin & -> & Hcase).
  assert (Hget : exists entry, Py.get PROFILES key = Some entry).
  { unfold get_all_role_names in Hin. simpl in Hin.
    repeat (destruct Hin as [<-|Hin]; [eexists; reflexivity|]).
    contradiction. }
  destruct Hget as [entry Hget]. exists key, entry. rewrite Hget.
  split; [exact Hin|]. split; [reflexivity|]. split; [reflexivity|].
  exact Hcase.
Qed.

Lemma entry_well_formed (key : string) (entry : RoleProfile) :
  Py.get PROFILES key = Some entry -> well_formed_profile entry.
Proof.
  intros Hget.
  pose proof PROFILES_well_formed as Hwf. rewrite Forall_forall in Hwf.
  apply (Hwf (key, entry)). now apply get_in.
Qed.

Lemma entry_sum (key : string) (entry : RoleProfile) :
  Py.get PROFILES key = Some entry ->
  Py.sum (Py.values (weights entry)) == 1.
Proof.
  intros Hget.
  pose proof PROFILES_sums as Hs. rewrite Forall_forall in Hs.
  apply (Hs (key, entry)). now apply get_in.
Qed.

(** X12.  [get_role_profile] never fails.  It returns the entry of [PROFILES]
    under a key, with that key as its [role_name]: the first key equal to
    the requested name up to the case of letters, or the default
    "Executive / Leadership" when no key is.  The entry is well formed:
    weights over the seven dimensions that are not negative and sum to
    1.0 within the tolerance of 0.001 that [calculate_base_dqs] accepts,
    critical dimensions among the seven, a threshold between 0 and 100. *)
Theorem get_role_profile_total :
  forall name : string,
    exists key entry,
      In key get_all_role_names
      /\ Py.get PROFILES key = Some entry
      /\ get_role_profile name = Ok (with_role_name entry key)
      /\ (lower key = lower name
          \/ (key = default_role
              /\ forall k, In k get_all_role_names -> lower k <> lower name))
      /\ well_formed_profile entry.
Proof.
  intros name.
  destruct (get_role_profile_resolves name)
    as (key & entry & Hin & Hget & Hrun & Hcase).
  exists key, entry.
  split; [exact Hin|]. split; [exact Hget|]. split; [exact Hrun|].
  split; [exact Hcase|]. exact (entry_well_formed key entry Hget).
Qed.

(** X13.  A name that equals one of the six role names up to the case of its
    letters resolves to that role. *)
Theorem get_role_profile_ignores_case :
  forall key name : string,
    In key get_all_role_names ->
    lower name = lower key ->
    exists entry,
      Py.get PROFILES key = Some entry
      /\ get_role_profile name = Ok (with_role_name entry key).
Proof.
  intros key name Hin Hlower. unfold get_role_profile. rewrite Hlower.
  unfold get_all_role_names in Hin. simpl in Hin.
  repeat (destruct Hin as [<-|Hin];
          [eexists; split; vm_compute; reflexivity|]).
  contradiction.
Qed.

(** The theorem at a name in capitals. *)
Lemma get_role_profile_ignores_case_witness :
  exists entry,
    Py.get PROFILES "Fraud Analyst" = Some entry
    /\ get_role_profile "FRAUD ANALYST" = Ok (with_role_name entry "Fraud Analyst").
Proof.
  apply get_role_profile_ignores_case.
  - vm_compute. tauto.
  - reflexivity.
Defined.

(** ** roles.py: the range of the role score *)

Lemma Qmult_le_nonneg_l (x y z : Q) : 0 <= z -> x <= y -> z * x <= z * y.
Proof.
  intros Hz Hxy. rewrite (Qmult_comm z x), (Qmult_comm z y).
  now apply Qmult_le_compat_r.
Qed.

Lemma role_component_range (w scores : dict Q) :
  NoDup (Py.keys scores) ->
  Forall (in_range 0 100) (Py.values scores) ->
  Forall (fun v => 0 <= v) (Py.values w) ->
  0 <= role_component w scores <= 100 * Py.sum (Py.values w).
Proof.
  intros Hnd Hs Hw. unfold role_component.
  rewrite (fold_add_map (fun item => Py.get_default w (fst item) 0 * snd item)
             scores 0).
  assert (Hlook : forall k, 0 <= Py.get_default w k 0).
  { intros k. apply (get_default_Forall (fun v => 0 <= v)); [|lra].
    unfold Py.values in Hw. now rewrite Forall_map in Hw. }
  assert (Hb : 0 <= Py.sum (map (fun item => Py.get_default w (fst item) 0
                                              * snd item) scores)
               <= 100 * Py.sum (map (fun k => Py.get_default w k 0)
                                    (Py.keys scores))).
  { clear Hnd. unfold Py.values, Py.keys in *.
    induction scores as [|[k v] scores IH]; simpl.
    - unfold Py.sum; simpl. lra.
    - inversion Hs as [|? ? [H0 H1] Hs']; subst. simpl in *.
      rewrite !sum_cons. specialize (IH Hs'). specialize (Hlook k).
      assert (0 <= Py.get_default w k 0 * v)
        by (apply Qmult_le_0_compat; assumption).
      assert (Py.get_default w k 0 * v <= Py.get_default w k 0 * 100)
        by (apply Qmult_le_nonneg_l; assumption).
      lra. }
  pose proof (lookups_le_total w (Py.keys scores) Hnd Hw). lra.
Qed.

Lemma blend_range (a base_dqs rc : Q) :
  6 # 10 <= a <= 1 -> in_range 0 100 base_dqs -> in_range 0 100 rc ->
  in_range 0 100 (round2 (a * base_dqs + (1 - a) * rc)).
Proof.
  intros [Hlo Hhi] [Hb0 Hb1] [Hr0 Hr1]. apply round2_score.
  assert (0 <= a * base_dqs) by (apply Qmult_le_0_compat; lra).
  assert (a * base_dqs <= a * 100) by (apply Qmult_le_nonneg_l; lra).
  assert (0 <= (1 - a) * rc) by (apply Qmult_le_0_compat; lra).
  assert ((1 - a) * rc <= (1 - a) * 100) by (apply Qmult_le_nonneg_l; lra).
  unfold in_range. lra.
Qed.

Lemma enforce_alpha_range (alpha : Q) :
  alpha <= 1 -> 6 # 10 <= enforce_alpha alpha <= 1.
Proof.
  intros Ha. split; [apply enforce_alpha_floor|].
  unfold enforce_alpha. destruct (Qltb alpha (6 # 10)); [discriminate | exact Ha].
Qed.

(** X14.  For a base score and dimension scores between 0 and 100 (the keys of
    the scores distinct, as in every dict), weights that are not negative
    and sum to at most 1, and an alpha of at most 1, a role score that
    [calculate_role_score] returns lies between 0 and 100. *)
Theorem role_score_range :
  forall (base_dqs : Q) (scores : dict Q) (p : RoleProfile)
         (metadata : Py.arg) (alpha s : Q) (risk : bool),
    in_range 0 100 base_dqs ->
    NoDup (Py.keys scores) ->
    Forall (in_range 0 100) (Py.values scores) ->
    Forall (fun v => 0 <= v) (Py.values (weights p)) ->
    Py.sum (Py.values (weights p)) <= 1 ->
    alpha <= 1 ->
    calculate_role_score base_dqs scores p metadata alpha = (Some s, risk) ->
    in_range 0 100 s.
Proof.
  intros base_dqs scores p metadata alpha s risk Hb Hnd Hs Hw Hsum Ha.
  unfold calculate_role_score.
  destruct (not_applicable p metadata); [discriminate|].
  intros [= <- _].
  destruct (role_component_range (weights p) scores Hnd Hs Hw) as [Hr0 Hr1].
  apply blend_range; [now apply enforce_alpha_range | exact Hb|].
  unfold in_range. lra.
Qed.

Lemma sample_scores_keys : NoDup (Py.keys sample_scores).
Proof.
  unfold Py.keys. simpl.
  repeat (constructor; [simpl; intuition discriminate|]). constructor.
Qed.

(** The theorem at the Fraud Analyst profile and the scores of
    [scoring.py], for a requested alpha of 0.25. *)
Lemma role_score_range_witness :
  calculate_role_score 90 sample_scores fraud_analyst PyNone (1 # 4)
  = (Some (9026 # 100), false)
  /\ in_range 0 100 (9026 # 100).
Proof.
  split; [reflexivity|].
  apply (role_score_range 90 sample_scores fraud_analyst PyNone (1 # 4)
           (9026 # 100) false).
  - by_evaluation.
  - exact sample_scores_keys.
  - exact sample_scores_range.
  - vm_compute. each_entry ltac:(discriminate).
  - vm_compute. discriminate.
  - vm_compute. discriminate.
  - reflexivity.
Defined.

(** ** roles.py with scoring.py: the built-in profiles *)

(** X15.  For every role name, the weights of the profile [get_role_profile]
    returns pass the validation of [calculate_base_dqs], and for scores
    between 0 and 100 (their keys distinct) both the base score under
    these weights and, for a base score between 0 and 100 and an alpha of
    at most 1, every role score returned lie between 0 and 100. *)
Theorem built_in_profiles_score_in_range :
  forall (name : string) (scores : dict Q),
    NoDup (Py.keys scores) ->
    Forall (in_range 0 100) (Py.values scores) ->
    exists p,
      get_role_profile name = Ok p
      /\ (exists b, calculate_base_dqs scores (Some (weights p)) = Ok b
                    /\ in_range 0 100 b)
      /\ (forall (base_dqs alpha s : Q) (metadata : Py.arg) (risk : bool),
             in_range 0 100 base_dqs -> alpha <= 1 ->
             calculate_role_score base_dqs scores p metadata alpha
             = (Some s, risk) ->
             in_range 0 100 s).
Proof.
  intros name scores Hnd Hs.
  destruct (get_role_profile_resolves name)
    as (key & entry & _ & Hget & Hrun & _).
  destruct (entry_well_formed key entry Hget) as ((_ & Hw & Hacc) & _).
  pose proof (entry_sum key entry Hget) as Hsum.
  exists (with_role_name entry key). split; [exact Hrun|].
  change (weights (with_role_name entry key)) with (weights entry).
  split.
  - rewrite (calculate_base_dqs_accepts scores (weights entry) Hacc).
    eexists. split; [reflexivity|].
    destruct (base_weighted_range scores (weights entry) _ Hs Hw
                (calculate_base_dqs_accepts scores (weights entry) Hacc))
      as [[H0 _] H1].
    split; [exact H0 | apply H1; rewrite Hsum; apply Qle_refl].
  - intros base_dqs alpha s metadata risk Hb Ha.
    unfold calculate_role_score.
    change (not_applicable (with_role_name entry key) metadata)
      with (not_applicable entry metadata).
    destruct (not_applicable entry metadata); [discriminate|].
    intros [= <- _].
    destruct (role_component_range (weights entry) scores Hnd Hs Hw)
      as [Hr0 Hr1].
    apply blend_range; [now apply enforce_alpha_range | exact Hb|].
    unfold in_range. rewrite Hsum in Hr1. lra.
Qed.

(** The theorem at the role name of the Compliance Officer and the scores
    of [scoring.py]. *)
Lemma built_in_profiles_score_in_range_witness :
  exists p,
    get_role_profile "compliance officer" = Ok p
    /\ (exists b, calculate_base_dqs sample_scores (Some (weights p)) = Ok b
                  /\ in_range 0 100 b)
    /\ (forall (base_dqs alpha s : Q) (metadata : Py.arg) (risk : bool),
           in_range 0 100 base_dqs -> alpha <= 1 ->
           calculate_role_score base_dqs sample_scores p metadata alpha
           = (Some s, risk) ->
           in_range 0 100 s).
Proof.
  exact (built_in_profiles_score_in_range "compliance officer" sample_scores
           sample_scores_keys sample_scores_range).
Defined.

(** ** roles.py: the explanation agrees with the score *)

Lemma failures_iff_risk (dims : list string) (scores : dict Q) (threshold : Q) :
  failures_of dims scores threshold = []
  <-> critical_risk dims scores threshold = false.
Proof.
  unfold failures_of. induction dims as [|d dims IH]; simpl.
  - tauto.
  - destruct (Qltb (Py.get_default scores d 0) threshold).
    + split; discriminate.
    + exact IH.
Qed.

Section Explanation.

Context `{Builtins}.

(** X16.  For an applicable role, the fourth line of the explanation is the
    heading of the detected risks exactly when [calculate_role_score]
    sets the risk flag, and then one line per failing critical dimension
    follows; it is the heading of no detected risk exactly when the flag
    is not set and the profile has critical dimensions. *)
Theorem explanation_matches_risk_flag :
  forall (base_dqs : Q) (scores : dict Q) (p : RoleProfile) (name : string)
         (metadata : Py.arg) (alpha : Q),
    not_applicable p metadata = false ->
    let flag := snd (calculate_role_score base_dqs scores p metadata alpha) in
    let parts := explanation_parts p name scores in
    let dims := or_default (critical_dimensions p) [] in
    let failures :=
      failures_of dims scores (or_default (risk_threshold p) 75) in
    (nth_error parts 3 = Some risk_heading <-> flag = true)
    /\ (nth_error parts 3 = Some no_risk_heading
        <-> flag = false /\ dims <> [])
    /\ (flag = true -> List.length parts = (7 + List.length failures)%nat).
Proof.
  intros base_dqs scores p name metadata alpha Happ flag parts dims failures.
  unfold failures.
  assert (Eflag : flag = critical_risk dims scores
                           (or_default (risk_threshold p) 75)).
  { unfold flag, calculate_role_score. now rewrite Happ. }
  rewrite Eflag. clear Eflag flag. unfold parts, explanation_parts.
  fold dims.
  pose proof (failures_iff_risk dims scores (or_default (risk_threshold p) 75))
    as Hiff.
  destruct (failures_of dims scores (or_default (risk_threshold p) 75))
    as [|f fs] eqn:Ef.
  - assert (Hflag : critical_risk dims scores (or_default (risk_threshold p) 75)
                    = false) by now apply Hiff.
    rewrite Hflag. destruct dims as [|d ds].
    + destruct (Qltb _ 60); simpl;
        (split; [split; discriminate|]);
        (split; [split; [discriminate | intros [_ Hne]; congruence]
                | discriminate]).
    + simpl. split; [split; discriminate|].
      split; [split; [intros _; split; [reflexivity | discriminate]
                     | reflexivity]
             | discriminate].
  - assert (Hflag : critical_risk dims scores (or_default (risk_threshold p) 75)
                    = true).
    { destruct (critical_risk dims scores _); [reflexivity|].
      assert (f :: fs = []) by now apply Hiff. discriminate. }
    rewrite Hflag. destruct dims as [|d ds].
    + unfold failures_of in Ef. simpl in Ef. discriminate.
    + simpl. split; [split; reflexivity|].
      split; [split; [discriminate | intros [Hf _]; discriminate]|].
      intros _. rewrite length_app, length_map. simpl. lia.
Qed.

(** X17.  The two entry points agree on applicability: for a profile that has
    its [role_name], [explain_role_impact] returns the not-applicable text,
    which names the required signals, exactly when [calculate_role_score]
    returns no score.  For a profile without [role_name], such as an entry
    of [PROFILES] taken as it is, [explain_role_impact] raises the
    [KeyError] of that key. *)
Theorem entry_points_agree :
  (forall (p : RoleProfile) (scores : dict Q) (metadata : Py.arg),
      role_name p = None ->
      explain_role_impact p scores metadata = Raise (KeyError "role_name"))
  /\ (forall (base_dqs : Q) (scores : dict Q) (p : RoleProfile)
             (name : string) (metadata : Py.arg) (alpha : Q),
         role_name p = Some name ->
         (fst (calculate_role_score base_dqs scores p metadata alpha) = None
          <-> explain_role_impact p scores metadata
              = Ok (not_applicable_text
                      name (or_default (required_signals p) [])))).
Proof.
  split.
  - intros p scores metadata Hname. unfold explain_role_impact.
    now rewrite Hname.
  - intros base_dqs scores p name metadata alpha Hname.
    unfold calculate_role_score, explain_role_impact. rewrite Hname.
    destruct (not_applicable p metadata); simpl.
    + split; reflexivity.
    + split; [discriminate|]. intros [= Htext]. exfalso.
      destruct (explanation_starts_with_perspective p name scores)
        as [rest Hrest].
      rewrite Hrest in Htext. unfold not_applicable_text in Htext.
      simpl in Htext. discriminate.
Qed.

End Explanation.

(** The theorems at the Data Engineer profile and the scores of
    [scoring.py], whose completeness is at the threshold of 80. *)
Lemma explanation_matches_risk_flag_witness :
  snd (calculate_role_score 90 sample_scores data_engineer PyNone default_alpha)
  = false
  /\ nth_error (@explanation_parts sample_builtins data_engineer
                                   "Data Engineer"%string sample_scores) 3
     = Some no_risk_heading.
Proof.
  split; [reflexivity|].
  apply (proj2 (proj1 (proj2
           (@explanation_matches_risk_flag sample_builtins 90 sample_scores
              data_engineer "Data Engineer"%string PyNone default_alpha
              eq_refl)))).
  split; [reflexivity | discriminate].
Defined.

Lemma entry_points_agree_witness :
  @explain_role_impact sample_builtins fraud_analyst sample_scores
                       (of_metadata meta)
  = Ok (not_applicable_text "Fraud Analyst"%string
                            ["has_transaction_id"%string]).
Proof.
  apply (proj2 (@entry_points_agree sample_builtins) 90 sample_scores
           fraud_analyst "Fraud Analyst"%string (of_metadata meta) default_alpha
           eq_refl).
  reflexivity.
Defined.

(** ** roles.py with scoring.py: alpha 1 returns the base score *)

(** X18.  With alpha 1 the role score of an applicable role is the base score
    itself, when the base score comes from [calculate_base_dqs]: the
    blend leaves it alone and rounding it again changes nothing. *)
Theorem alpha_one_returns_base :
  forall (scores role_scores : dict Q) (weights : option (dict Q)) (b : Q)
         (p : RoleProfile) (metadata : Py.arg),
    calculate_base_dqs scores weights = Ok b ->
    not_applicable p metadata = false ->
    fst (calculate_role_score b role_scores p metadata 1) = Some b.
Proof.
  intros scores role_scores weights b p metadata Hb Happ.
  apply calculate_base_dqs_formula in Hb. unfold base_formula in Hb.
  unfold calculate_role_score. rewrite Happ. simpl. apply f_equal.
  change (enforce_alpha 1) with 1.
  rewrite (round2_comp _ b) by ring.
  rewrite Hb. apply round2_idempotent.
Qed.

(** The theorem at the scores and payment weights of [scoring.py]. *)
Lemma alpha_one_returns_base_witness :
  fst (calculate_role_score (9355 # 100) sample_scores fraud_analyst PyNone 1)
  = Some (9355 # 100).
Proof.
  apply (alpha_one_returns_base sample_scores sample_scores
           (Some custom_weights)); reflexivity.
Defined.

(** ** dashboard.py: the role selector *)

Lemma filter_roles_cases (signals : dict bool) :
  exists fraud compliance finance : bool,
    fraud = Py.get_default signals "has_transaction_id" false
    /\ compliance = Py.get_default signals "has_kyc" false
    /\ finance = Py.get_default signals "has_amount" false
    /\ filter_roles get_all_role_names signals [] 0
       = Ok (["Data Engineer"; "Data Scientist"]%string
             ++ (if fraud then ["Fraud Analyst"%string] else [])
             ++ (if compliance then ["Compliance Officer"%string] else [])
             ++ (if finance then ["Finance / Settlement"%string] else [])
             ++ ["Executive / Leadership"%string],
             ((if fraud then 0 else 1) + (if compliance then 0 else 1)
              + (if finance then 0 else 1))%Z).
Proof.
  do 3 eexists. split; [reflexivity|]. split; [reflexivity|].
  split; [reflexivity|].
  unfold get_all_role_names. simpl Py.keys.
  cbn [filter_roles]. 
  change (get_role_profile "Data Engineer") with (Ok data_engineer).
  change (get_role_profile "Data Scientist")
    with (Ok (profile_named "Data Scientist")).
  change (get_role_profile "Fraud Analyst") with (Ok fraud_analyst).
  change (get_role_profile "Compliance Officer")
    with (Ok (profile_named "Compliance Officer")).
  change (get_role_profile "Finance / Settlement")
    with (Ok (profile_named "Finance / Settlement")).
  change (get_role_profile "Executive / Leadership")
    with (Ok (profile_named "Executive / Leadership")).
  cbn [Py.bind].
  change (is_role_applicable data_engineer signals) with true.
  change (is_role_applicable (profile_named "Data Scientist") signals) with true.
  change (is_role_applicable (profile_named "Executive / Leadership") signals)
    with true.
  change (is_role_applicable fraud_analyst signals)
    with (if negb (Py.get_default signals "has_transaction_id" false)
          then false else true).
  change (is_role_applicable (profile_named "Compliance Officer") signals)
    with (if negb (Py.get_default signals "has_kyc" false)
          then false else true).
  change (is_role_applicable (profile_named "Finance / Settlement") signals)
    with (if negb (Py.get_default signals "has_amount" false)
          then false else true).
  destruct (Py.get_default signals "has_transaction_id" false),
           (Py.get_default signals "has_kyc" false),
           (Py.get_default signals "has_amount" false); reflexivity.
Qed.

Lemma get_default_true (signals : dict bool) (k : string) :
  Py.get_default signals k false = true <-> Py.get signals k = Some true.
Proof.
  unfold Py.get_default. destruct (Py.get signals k) as [[|]|];
    split; congruence.
Qed.

(** X19.  Whatever the signals of the dataset, the loop over the role names
    returns: the roles offered always include Data Engineer, Data
    Scientist and Executive / Leadership, the selector starts at Executive
    / Leadership, offered and hidden roles add up to six, and Fraud
    Analyst, Compliance Officer and Finance / Settlement are offered
    exactly when the signal each requires is present and true. *)
Theorem role_selector_contents :
  forall signals : dict bool,
    exists applicable hidden,
      filter_roles get_all_role_names signals [] 0 = Ok (applicable, hidden)
      /\ In "Data Engineer"%string applicable
      /\ In "Data Scientist"%string applicable
      /\ nth_error applicable (default_index applicable) = Some default_role
      /\ (Z.of_nat (List.length applicable) + hidden = 6)%Z
      /\ (In "Fraud Analyst"%string applicable
          <-> Py.get signals "has_transaction_id" = Some true)
      /\ (In "Compliance Officer"%string applicable
          <-> Py.get signals "has_kyc" = Some true)
      /\ (In "Finance / Settlement"%string applicable
          <-> Py.get signals "has_amount" = Some true).
Proof.
  intros signals.
  destruct (filter_roles_cases signals)
    as (fraud & compliance & finance & Ef & Ec & Efi & Hrun).
  do 2 eexists. split; [exact Hrun|].
  rewrite <- !get_default_true, <- Ef, <- Ec, <- Efi.
  destruct fraud, compliance, finance; simpl;
    repeat split; try tauto; try discriminate;
    intros Hin; repeat (destruct Hin as [Hin|Hin]; try discriminate);
    try contradiction; reflexivity.
Qed.

Lemma filter_roles_sound (signals : dict bool) (all_roles acc : list string)
                         (hid : Z) (applicable : list string) (hidden : Z) :
  filter_roles all_roles signals acc hid = Ok (applicable, hidden) ->
  forall r, In r applicable ->
            In r acc
            \/ exists p, get_role_profile r = Ok p
                         /\ is_role_applicable p signals = true.
Proof.
  revert acc hid. induction all_roles as [|r0 rest IH]; intros acc hid; simpl.
  - intros [= <- <-] r Hin. now left.
  - destruct (get_role_profile r0) as [p|e] eqn:Ep; simpl; [|discriminate].
    destruct (is_role_applicable p signals) eqn:Ea; intros Hrun r Hin.
    + destruct (IH _ _ Hrun r Hin) as [Hacc|Hp]; [|now right].
      apply in_app_or in Hacc. destruct Hacc as [Hacc|[<-|[]]]; [now left|].
      right. exists p. auto.
    + exact (IH _ _ Hrun r Hin).
Qed.

Section RoleSection.

Context `{Builtins}.

(** X20.  A role picked from the roles the selector offers is always scored:
    for the metadata whose signals filtered the roles, the role section
    gets a numeric role score and an explanation that is not the
    not-applicable text. *)
Theorem offered_role_is_scored :
  forall (md : DatasetMetadata) (base_dqs : Q) (dim_scores : dict Q)
         (applicable : list string) (hidden : Z) (selected : string),
    filter_roles get_all_role_names (signals md) [] 0
    = Ok (applicable, hidden) ->
    In selected applicable ->
    exists score risk explanation,
      role_section base_dqs dim_scores md selected
      = Ok (Some score, risk, explanation)
      /\ forall name required,
           explanation <> not_applicable_text name required.
Proof.
  intros md base_dqs dim_scores applicable hidden selected Hrun Hin.
  destruct (filter_roles_sound (signals md) _ _ _ _ _ Hrun selected Hin)
    as [[]|(p & Hp & Happ)].
  destruct (get_role_profile_resolves selected)
    as (key & entry & _ & _ & Hres & _).
  rewrite Hres in Hp. injection Hp as <-.
  assert (Hna : not_applicable (with_role_name entry key) (of_metadata md)
                = false).
  { unfold not_applicable, of_metadata. now rewrite Happ. }
  unfold role_section. rewrite Hres. cbn [Py.bind].
  unfold calculate_role_score, explain_role_impact. rewrite Hna.
  cbn [role_name with_role_name Py.bind].
  do 3 eexists. split; [reflexivity|].
  intros name required.
  destruct (explanation_starts_with_perspective
              (with_role_name entry key) key dim_scores) as [rest ->].
  unfold not_applicable_text. simpl. discriminate.
Qed.

End RoleSection.

(** The theorem at a dataset without an ID column, for the role Finance /
    Settlement. *)
Lemma offered_role_is_scored_witness :
  exists score risk explanation,
    @role_section sample_builtins 90 sample_scores
      {| column_names := [];
         data_types := [];
         row_count := 0;
         null_counts := [];
         unique_counts := [];
         numeric_stats := [];
         timestamp_metrics := [];
         semantic_hints := [];
         signals := signals_without_id;
         audit_hash := EmptyString |}
      "Finance / Settlement"
    = Ok (Some score, risk, explanation)
    /\ forall name required, explanation <> not_applicable_text name required.
Proof.
  refine (@offered_role_is_scored sample_builtins _ 90 sample_scores
            _ _ "Finance / Settlement"%string _ _).
  - reflexivity.
  - simpl. tauto.
Defined.

(** ** ingestion.py: what a column contributes to the metadata *)

Section PerColumn.

Context `{Builtins} `{Pandas}.

Variable now : Z.

Lemma extract_column_fields (st : Extracted) (c : Column) :
  ex_numeric_stats (recorded_column now st c)
  = match column_stats c with
    | Some stats => Py.set (ex_numeric_stats st) (col_name c) stats
    | None => ex_numeric_stats st
    end
  /\ ex_timestamp_metrics (recorded_column now st c)
     = match column_metrics now c with
       | Some m => Py.set (ex_timestamp_metrics st) (col_name c) m
       | None => ex_timestamp_metrics st
       end
  /\ Py.get (ex_semantic_hints (recorded_column now st c)) (col_name c)
     = Some (column_hint now c)
  /\ forall k, k <> col_name c ->
               Py.get (ex_semantic_hints (recorded_column now st c)) k
               = Py.get (ex_semantic_hints st) k.
Proof.
  unfold recorded_column, column_stats, column_hint, column_metrics.
  destruct (is_numeric_dtype (col_dtype c));
    (destruct (_ || _); [destruct (metrics_of _ _)|]);
    cbn [ex_numeric_stats ex_timestamp_metrics ex_semantic_hints];
    (split; [reflexivity|]); (split; [reflexivity|]);
    (split; [rewrite ?get_set_same; reflexivity|]);
    intros k Hk; rewrite ?get_set_other by congruence; reflexivity.
Qed.

Lemma loop_fields_other (cols : list Column) (st : Extracted) (k : string) :
  ~ In k (map col_name cols) ->
  Py.get (ex_numeric_stats (fold_left (recorded_column now) cols st)) k
  = Py.get (ex_numeric_stats st) k
  /\ Py.get (ex_timestamp_metrics (fold_left (recorded_column now) cols st)) k
     = Py.get (ex_timestamp_metrics st) k
  /\ Py.get (ex_semantic_hints (fold_left (recorded_column now) cols st)) k
     = Py.get (ex_semantic_hints st) k.
Proof.
  revert st. induction cols as [|c cols IH]; intros st Hnin; simpl.
  - auto.
  - assert (Hk : k <> col_name c) by (intros ->; apply Hnin; now left).
    destruct (IH (recorded_column now st c)) as (H1 & H2 & H3).
    { intros Hin. apply Hnin. now right. }
    rewrite H1, H2, H3.
    destruct (extract_column_fields st c) as (E1 & E2 & _ & E4).
    rewrite E1, E2, (E4 k Hk).
    destruct (column_stats c), (column_metrics now c);
      rewrite ?get_set_other by congruence; auto.
Qed.

Lemma loop_fields (cols : list Column) (st : Extracted) (c : Column) :
  NoDup (map col_name cols) -> In c cols ->
  Py.get (ex_numeric_stats st) (col_name c) = None ->
  Py.get (ex_timestamp_metrics st) (col_name c) = None ->
  Py.get (ex_numeric_stats (fold_left (recorded_column now) cols st)) (col_name c)
  = column_stats c
  /\ Py.get (ex_timestamp_metrics (fold_left (recorded_column now) cols st))
            (col_name c)
     = column_metrics now c
  /\ Py.get (ex_semantic_hints (fold_left (recorded_column now) cols st)) (col_name c)
     = Some (column_hint now c).
Proof.
  revert st. induction cols as [|c0 cols IH]; intros st Hnd Hin Hs Ht; simpl.
  - contradiction.
  - simpl in Hnd. inversion Hnd as [|? ? Hnin Hnd']; subst.
    destruct (extract_column_fields st c0) as (E1 & E2 & E3 & E4).
    destruct Hin as [->|Hin].
    + destruct (loop_fields_other cols (recorded_column now st c) (col_name c) Hnin)
        as (H1 & H2 & H3).
      rewrite H1, H2, H3, E1, E2, E3.
      destruct (column_stats c), (column_metrics now c);
        rewrite ?get_set_same; auto.
    + assert (Hne : col_name c <> col_name c0).
      { intros E. apply Hnin. rewrite <- E. now apply in_map. }
      apply IH; auto.
      * rewrite E1. destruct (column_stats c0);
          rewrite ?get_set_other by congruence; exact Hs.
      * rewrite E2. destruct (column_metrics now c0);
          rewrite ?get_set_other by congruence; exact Ht.
Qed.

Lemma recorded_fields (df : DataFrame) (c : Column) :
  unique_names df -> In c (df_columns df) ->
  let md := recorded now df in
  In (col_name c) (column_names md)
  /\ Py.get (data_types md) (col_name c) = Some (dtype_str (col_dtype c))
  /\ Py.get (null_counts md) (col_name c) = Some (count_nulls (col_cells c))
  /\ Py.get (unique_counts md) (col_name c) = Some (nunique (col_cells c))
  /\ Py.get (numeric_stats md) (col_name c) = column_stats c
  /\ Py.get (timestamp_metrics md) (col_name c) = column_metrics now c
  /\ Py.get (semantic_hints md) (col_name c) = Some (column_hint now c).
Proof.
  intros Hnd Hin md. unfold md, recorded, metadata_record.
  cbn [column_names data_types null_counts unique_counts numeric_stats
       timestamp_metrics semantic_hints].
  split; [now apply in_map|].
  split; [now apply (loop_get (fun c => dtype_str (col_dtype c)))|].
  split; [now apply (loop_get (fun c => count_nulls (col_cells c)))|].
  split; [now apply (loop_get (fun c => nunique (col_cells c)))|].
  now apply loop_fields.
Qed.

End PerColumn.

Section PerColumnClaim.

Context `{Builtins} `{Pandas}.

(** X21.  For a table with distinct column names, [extract_metadata]
    raises exactly when the table has a column of the boolean dtype, and
    what it raises is the [KeyError] of the entry [min] that the
    description of such a column does not have; for every other table it
    returns.  What the metadata returned holds for a column depends on
    that column alone:
    its type descriptor, its counts of nulls and of distinct values,
    numeric statistics exactly when its dtype is numeric, timestamp
    metrics exactly when its name contains [date] or [time] or its dtype
    is a datetime and some cell converts, and then the hint TIMESTAMP in
    place of the hint of its name. *)
Theorem extract_per_column :
  forall (now : Z) (df : DataFrame),
    unique_names df ->
    (forall e, extract_metadata now df = Raise e
               <-> e = KeyError "min" /\ boolean_column df)
    /\ (~ boolean_column df -> exists md, extract_metadata now df = Ok md)
    /\ (forall (md : DatasetMetadata) (c : Column),
           extract_metadata now df = Ok md ->
           In c (df_columns df) ->
           In (col_name c) (column_names md)
           /\ Py.get (data_types md) (col_name c)
              = Some (dtype_str (col_dtype c))
           /\ Py.get (null_counts md) (col_name c)
              = Some (count_nulls (col_cells c))
           /\ Py.get (unique_counts md) (col_name c)
              = Some (nunique (col_cells c))
           /\ Py.get (numeric_stats md) (col_name c) = column_stats c
           /\ Py.get (timestamp_metrics md) (col_name c)
              = column_metrics now c
           /\ Py.get (semantic_hints md) (col_name c)
              = Some (column_hint now c)).
Proof.
  intros now df Hnd. split; [|split].
  - intros e. apply extract_metadata_raises.
  - intros Hno.
    assert (Hb : has_bool_column df = false).
    { apply no_bool_column. intros c Hc Hd. apply Hno. now exists c. }
    exists (recorded now df). now rewrite extract_metadata_cases, Hb.
  - intros md c Hrun Hin.
    destruct (extract_metadata_returns now df md Hrun) as [_ ->].
    exact (recorded_fields now df c Hnd Hin).
Qed.

End PerColumnClaim.

Lemma flags_table_names : unique_names flags_table.
Proof.
  unfold unique_names. simpl.
  repeat (constructor; [simpl; intuition discriminate|]). constructor.
Qed.

(** The theorem at the date column of the table with a fee column, and at
    the table with a column of truth values. *)
Lemma extract_per_column_witness :
  @extract_metadata sample_builtins sample_pandas sample_now flags_table
  = Raise (KeyError "min")
  /\ exists md,
       @extract_metadata sample_builtins sample_pandas sample_now priced_table
       = Ok md
       /\ Py.get (semantic_hints md) "date" = Some TIMESTAMP
       /\ Py.get (numeric_stats md) "date" = None.
Proof.
  pose proof (@extract_per_column sample_builtins sample_pandas sample_now)
    as Hthm.
  split.
  - apply (proj1 (Hthm flags_table flags_table_names)). split; [reflexivity|].
    eexists. split; [right; left; reflexivity | reflexivity].
  - destruct (proj1 (proj2 (Hthm priced_table priced_table_names)))
      as [md Hrun].
    { intros (c & [<-|[<-|[<-|[]]]] & Hd); discriminate. }
    exists md. split; [exact Hrun|].
    destruct (proj2 (proj2 (Hthm priced_table priced_table_names)) md
                {| col_name := "date";
                   col_dtype := Datetime64;
                   col_cells := [Instant (sample_now - days 3);
                                 Instant sample_now;
                                 Instant (sample_now - days 1)] |}
                Hrun (or_intror (or_intror (or_introl eq_refl))))
      as (_ & _ & _ & _ & Hs & _ & Hh).
    split; [exact Hh | exact Hs].
Defined.

(** ** ingestion.py: the counts of a column *)

Lemma distinct_bounds (seen cells : list Cell) :
  (List.length seen <= List.length (distinct seen cells))%nat
  /\ (List.length (distinct seen cells) + List.length (filter is_null cells)
      <= List.length seen + List.length cells)%nat.
Proof.
  revert seen. induction cells as [|c cells IH]; intros seen; simpl.
  - lia.
  - destruct (is_null c) eqn:En; simpl.
    + destruct (IH seen). lia.
    + destruct (existsb (cell_eqb c) seen).
      * destruct (IH seen). lia.
      * destruct (IH (seen ++ [c])) as [H1 H2].
        rewrite length_app in H1, H2. simpl in H1, H2. lia.
Qed.

Lemma nunique_zero (cells : list Cell) :
  nunique cells = 0%Z <-> Forall (fun c => is_null c = true) cells.
Proof.
  unfold nunique. induction cells as [|c cells IH]; simpl.
  - split; [constructor | reflexivity].
  - destruct (is_null c) eqn:En; simpl.
    + rewrite IH. split.
      * intros Hall. now constructor.
      * intros Hall. now inversion Hall.
    + split.
      * intros Hz. destruct (distinct_bounds [c] cells) as [Hlen _].
        simpl in Hlen. lia.
      * intros Hall. inversion Hall; congruence.
Qed.

Section Counts.

Context `{Builtins} `{Pandas}.

(** X22.  For a rectangular table with distinct column names and no
    boolean column, [extract_metadata] returns metadata that satisfies
    the invariants of the data model, and for every column the null count
    and the distinct count are the column's own, are not negative and
    together do not exceed [row_count]; the distinct count is 0 exactly
    when every cell of the column is missing. *)
Theorem extracted_counts :
  forall (now : Z) (df : DataFrame),
    rectangular df -> unique_names df ->
    (forall c, In c (df_columns df) -> col_dtype c <> Bool) ->
    exists md,
      extract_metadata now df = Ok md
      /\ metadata_invariants md
      /\ row_count md = Z.of_nat (df_len df)
      /\ forall c,
           In c (df_columns df) ->
           exists nulls distinct_values,
             Py.get (null_counts md) (col_name c) = Some nulls
             /\ Py.get (unique_counts md) (col_name c) = Some distinct_values
             /\ (0 <= nulls)%Z /\ (0 <= distinct_values)%Z
             /\ (nulls + distinct_values <= row_count md)%Z
             /\ (distinct_values = 0%Z
                 <-> Forall (fun cell => is_null cell = true) (col_cells c)).
Proof.
  intros now df Hrect Hnd Hno. apply no_bool_column in Hno.
  exists (recorded now df).
  split; [now rewrite extract_metadata_cases, Hno|].
  split; [now apply extract_invariants|]. split; [reflexivity|].
  intros c Hin.
  exists (count_nulls (col_cells c)), (nunique (col_cells c)).
  unfold recorded, metadata_record. cbn [null_counts unique_counts row_count].
  split; [now apply (loop_get (fun c => count_nulls (col_cells c)))|].
  split; [now apply (loop_get (fun c => nunique (col_cells c)))|].
  unfold rectangular in Hrect. rewrite Forall_forall in Hrect.
  specialize (Hrect c Hin).
  destruct (distinct_bounds [] (col_cells c)) as [_ Hb]. simpl in Hb.
  unfold count_nulls, nunique.
  split; [lia|]. split; [lia|]. split; [lia|].
  apply nunique_zero.
Qed.

End Counts.

(** ** ingestion.py: timestamp metrics *)

Lemma fold_min_le (ts : list Z) (t : Z) :
  (fold_left Z.min ts t <= t)%Z
  /\ forall x, In x ts -> (fold_left Z.min ts t <= x)%Z.
Proof.
  revert t. induction ts as [|y ts IH]; intros t; simpl.
  - split; [lia | intros x []].
  - destruct (IH (Z.min t y)) as [H1 H2]. split; [lia|].
    intros x [<-|Hx]; [lia | now apply H2].
Qed.

Lemma fold_max_ge (ts : list Z) (t : Z) :
  (t <= fold_left Z.max ts t)%Z
  /\ forall x, In x ts -> (x <= fold_left Z.max ts t)%Z.
Proof.
  revert t. induction ts as [|y ts IH]; intros t; simpl.
  - split; [lia | intros x []].
  - destruct (IH (Z.max t y)) as [H1 H2]. split; [lia|].
    intros x [<-|Hx]; [lia | now apply H2].
Qed.

Lemma dropna_in (ts : list (option Z)) (t : Z) :
  In t (dropna ts) <-> In (Some t) ts.
Proof.
  unfold dropna. rewrite in_flat_map. split.
  - intros ([v|] & Hin & Hv); simpl in Hv; [|contradiction].
    destruct Hv as [->|[]]. exact Hin.
  - intros Hin. exists (Some t). split; [exact Hin | now left].
Qed.

Section Timestamps.

Context `{Builtins} `{Pandas}.

(** X23.  In a table with distinct column names, a column has timestamp
    metrics only when its name contains [date] or [time], whatever the
    case, or its dtype is a datetime.  Its hint is then TIMESTAMP and the
    column counts as accurate; [min_time] is at most [max_time], every
    converted instant of the column lies between them, and
    [range_seconds] is their difference in seconds, not negative; the
    instants carry a time zone exactly when the converted column does. *)
Theorem timestamp_metrics_sound :
  forall (now : Z) (df : DataFrame) (md : DatasetMetadata) (c : Column)
         (m : TimestampMetrics),
    extract_metadata now df = Ok md ->
    unique_names df -> In c (df_columns df) ->
    Py.get (timestamp_metrics md) (col_name c) = Some m ->
    contains "date" (lower (col_name c)) || contains "time" (lower (col_name c))
      || is_datetime64_any_dtype (col_dtype c) = true
    /\ Py.get (semantic_hints md) (col_name c) = Some TIMESTAMP
    /\ is_accurate md (col_name c) = true
    /\ (min_time m <= max_time m)%Z
    /\ (forall t, In (Some t) (dt_values (to_datetime now (col_cells c))) ->
                  (min_time m <= t <= max_time m)%Z)
    /\ range_seconds m * inject_Z nanoseconds_per_second
       == inject_Z (max_time m - min_time m)
    /\ 0 <= range_seconds m
    /\ tz_aware m = dt_tz_aware (to_datetime now (col_cells c)).
Proof.
  intros now df md c m Hrun Hnd Hin Hm.
  destruct (extract_metadata_returns now df md Hrun) as [_ ->].
  destruct (recorded_fields now df c Hnd Hin)
    as (_ & _ & _ & _ & _ & Hts & Hhint).
  rewrite Hm in Hts.
  assert (Hh : column_hint now c = TIMESTAMP).
  { unfold column_hint. now rewrite <- Hts. }
  rewrite Hh in Hhint. unfold column_metrics in Hts.
  destruct (_ || _) eqn:Econd; [|discriminate].
  split; [reflexivity|]. split; [exact Hhint|].
  split.
  { unfold is_accurate, Py.get_default, Py.mem. rewrite Hhint, Hm. reflexivity. }
  unfold metrics_of in Hts.
  destruct (dropna (dt_values (to_datetime now (col_cells c))))
    as [|t0 ts] eqn:Ed; [discriminate|].
  injection Hts as ->. cbn [min_time max_time range_seconds tz_aware].
  destruct (fold_min_le ts t0) as [Hmin0 Hmin].
  destruct (fold_max_ge ts t0) as [Hmax0 Hmax].
  split; [lia|]. split.
  - intros t Ht. apply dropna_in in Ht. rewrite Ed in Ht.
    destruct Ht as [<-|Ht]; [lia|].
    specialize (Hmin t Ht). specialize (Hmax t Ht). lia.
  - assert (Hd : 0 <= inject_Z (fold_left Z.max ts t0 - fold_left Z.min ts t0)).
    { change 0 with (inject_Z 0). rewrite <- Zle_Qle. lia. }
    split; [|split].
    + unfold nanoseconds_per_second. field.
    + apply Qle_shift_div_l; [reflexivity|]. rewrite Qmult_0_l. exact Hd.
    + reflexivity.
Qed.

End Timestamps.

(** The theorems at the table with a fee column: at the fee column, which
    has one missing cell, and at the date column. *)
Lemma extracted_counts_witness :
  exists md nulls distinct_values,
    @extract_metadata sample_builtins sample_pandas sample_now priced_table
    = Ok md
    /\ Py.get (null_counts md) "fee" = Some nulls
    /\ Py.get (unique_counts md) "fee" = Some distinct_values
    /\ (0 <= nulls)%Z /\ (0 <= distinct_values)%Z
    /\ (nulls + distinct_values <= row_count md)%Z
    /\ (distinct_values = 0%Z
        <-> Forall (fun cell => is_null cell = true)
                   [Text "$5"; Text "$7"; Null]).
Proof.
  destruct (@extracted_counts sample_builtins sample_pandas sample_now
              priced_table priced_table_rectangular priced_table_names)
    as (md & Hrun & _ & _ & Hcols).
  { intros c [<-|[<-|[<-|[]]]]; discriminate. }
  destruct (Hcols {| col_name := "fee"; col_dtype := Object;
                     col_cells := [Text "$5"; Text "$7"; Null] |}
              (or_intror (or_introl eq_refl)))
    as (nulls & distinct_values & Hc).
  exists md, nulls, distinct_values. split; [exact Hrun | exact Hc].
Defined.

Lemma timestamp_metrics_sound_witness :
  exists md,
    @extract_metadata sample_builtins sample_pandas sample_now priced_table
    = Ok md
    /\ Py.get (semantic_hints md) "date" = Some TIMESTAMP
    /\ is_accurate md "date" = true.
Proof.
  exists (@recorded sample_builtins sample_pandas sample_now priced_table).
  split; [exact priced_table_extracted|].
  pose proof (@timestamp_metrics_sound sample_builtins sample_pandas
                sample_now priced_table _
                {| col_name := "date";
                   col_dtype := Datetime64;
                   col_cells := [Instant (sample_now - days 3);
                                 Instant sample_now;
                                 Instant (sample_now - days 1)] |}
                {| min_time := sample_now - days 3;
                   max_time := sample_now;
                   range_seconds :=
                     inject_Z (days 3) / inject_Z nanoseconds_per_second;
                   tz_aware := false |}
                priced_table_extracted priced_table_names
                (or_intror (or_intror (or_introl eq_refl)))) as Hc.
  destruct (Hc ltac:(vm_compute; reflexivity)) as (_ & Hh & Ha & _).
  split; [exact Hh | exact Ha].
Defined.

(** ** ingestion.py: signals and hints *)

Lemma hinted_iff_exists (hints : dict SemanticHint) (h : SemanticHint) :
  existsb (hint_eqb h) (Py.values hints) = true
  <-> Py.keys (filter (fun kv => hint_eqb (snd kv) h) hints) <> [].
Proof.
  unfold Py.values, Py.keys. induction hints as [|[k v] hints IH]; simpl.
  - split; [discriminate | congruence].
  - assert (E : hint_eqb h v = hint_eqb v h) by (destruct h, v; reflexivity).
    rewrite E. destruct (hint_eqb v h); simpl.
    + split; [discriminate | reflexivity].
    + exact IH.
Qed.

Section Signals.

Context `{Builtins} `{Pandas}.

(** X24.  The signals of extracted metadata are the five named ones, in their
    order; [has_transaction_id], [has_amount] and [has_timestamp] are true
    exactly when some column is hinted ID, MONEY and TIMESTAMP; so the
    Fraud Analyst role is applicable to the dataset exactly when it has an
    ID-hinted column. *)
Theorem signals_reflect_hints :
  forall (now : Z) (df : DataFrame) (md : DatasetMetadata),
    extract_metadata now df = Ok md ->
    Py.keys (signals md)
    = ["has_transaction_id"; "has_amount"; "has_timestamp"; "has_kyc";
       "is_text_heavy"]%string
    /\ (Py.get (signals md) "has_transaction_id" = Some true
        <-> cols_hinted md ID <> [])
    /\ (Py.get (signals md) "has_amount" = Some true
        <-> cols_hinted md MONEY <> [])
    /\ (Py.get (signals md) "has_timestamp" = Some true
        <-> cols_hinted md TIMESTAMP <> [])
    /\ (forall p, get_role_profile "Fraud Analyst" = Ok p ->
                  (is_role_applicable p (signals md) = true
                   <-> cols_hinted md ID <> [])).
Proof.
  intros now df md Hrun.
  destruct (extract_metadata_returns now df md Hrun) as [_ ->].
  unfold recorded, metadata_record, cols_hinted.
  cbn [signals semantic_hints].
  set (hints := ex_semantic_hints _).
  split; [reflexivity|].
  split; [|split; [|split]].
  - cbn [Py.get String.eqb Ascii.eqb Bool.eqb]. 
    rewrite <- hinted_iff_exists. split; congruence.
  - cbn [Py.get String.eqb Ascii.eqb Bool.eqb].
    rewrite <- hinted_iff_exists. split; congruence.
  - cbn [Py.get String.eqb Ascii.eqb Bool.eqb].
    rewrite <- hinted_iff_exists. split; congruence.
  - intros p [= <-].
    unfold is_role_applicable. cbn [required_signals or_default all_signals].
    unfold Py.get_default.
    cbn [Py.get String.eqb Ascii.eqb Bool.eqb].
    rewrite <- hinted_iff_exists.
    destruct (existsb (hint_eqb ID) (Py.values hints)); simpl;
      split; congruence.
Qed.

End Signals.

Lemma dummy_table_extracted :
  @extract_metadata sample_builtins sample_pandas sample_now dummy_table
  = Ok (@recorded sample_builtins sample_pandas sample_now dummy_table).
Proof. now rewrite extract_metadata_cases. Qed.

(** The theorem at the dummy table of [ingestion.py], which has a
    transaction ID and an amount. *)
Lemma signals_reflect_hints_witness :
  exists md,
    @extract_metadata sample_builtins sample_pandas sample_now dummy_table
    = Ok md
    /\ Py.keys (signals md)
       = ["has_transaction_id"; "has_amount"; "has_timestamp"; "has_kyc";
          "is_text_heavy"]%string
    /\ (Py.get (signals md) "has_transaction_id" = Some true
        <-> cols_hinted md ID <> [])
    /\ Py.get (signals md) "has_transaction_id" = Some true.
Proof.
  exists (@recorded sample_builtins sample_pandas sample_now dummy_table).
  destruct (@signals_reflect_hints sample_builtins sample_pandas sample_now
              dummy_table _ dummy_table_extracted)
    as (Hkeys & Hid & _).
  split; [exact dummy_table_extracted|]. split; [exact Hkeys|].
  split; [exact Hid | reflexivity].
Defined.

(** ** ingestion.py with dimensions.py: what lowers the validity score *)

Lemma fold_min_nonneg (xs : list Q) (x : Q) :
  0 <= fold_left Qmin xs x <-> 0 <= x /\ Forall (fun y => 0 <= y) xs.
Proof.
  revert x. induction xs as [|y xs IH]; intros x; simpl.
  - split; [intros Hx; split; [exact Hx | constructor] | tauto].
  - rewrite IH, Q.min_glb_iff. split.
    + intros [[Hx Hy] Hall]. split; [exact Hx | now constructor].
    + intros [Hx Hall]. inversion Hall; subst. tauto.
Qed.

Lemma describe_min_nonneg (cells : list Cell) :
  Qleb 0 (nan_to_zero (describe_min cells)) = true
  <-> Forall (fun y => 0 <= y) (numbers cells).
Proof.
  unfold Qleb, describe_min. rewrite Qle_bool_iff.
  destruct (numbers cells) as [|x xs]; simpl.
  - split; [constructor | intros _; apply Qle_refl].
  - rewrite fold_min_nonneg. split.
    + intros [Hx Hall]. now constructor.
    + intros Hall. inversion Hall; subst. tauto.
Qed.

Lemma validity_credit_cases (md : DatasetMetadata) (col : string) :
  let min_val :=
    Py.get_default (Py.get_default (numeric_stats md) col []) "min" 0 in
  (validity_credit md col = 1 <-> Qleb 0 min_val = true)
  /\ (validity_credit md col = 1 \/ validity_credit md col = 1 # 2).
Proof.
  unfold validity_credit. cbv zeta.
  destruct (Qleb 0 _); split; try tauto; split; congruence || discriminate.
Qed.

Lemma sum_half_deficit {A} (f : A -> Q) (xs : list A) (x : A) :
  (forall y, in_range (1 # 2) 1 (f y)) -> In x xs -> f x = 1 # 2 ->
  Py.sum (map f xs) <= len xs - (1 # 2).
Proof.
  intros Hf Hin Hx.
  assert (Hall : forall ys, Py.sum (map f ys) <= len ys).
  { intros ys. destruct (sum_bounds (1 # 2) 1 (map f ys)) as [_ Hhi].
    - now apply Forall_map_range.
    - rewrite len_map in Hhi. lra. }
  induction xs as [|y xs IH]; [contradiction|].
  simpl. rewrite sum_cons, len_cons. destruct Hin as [->|Hin].
  - rewrite Hx. specialize (Hall xs). lra.
  - specialize (IH Hin). destruct (Hf y). lra.
Qed.

Lemma score_validity_full_iff (md : DatasetMetadata) :
  score_validity md == 100
  <-> forall col, In col (cols_hinted md MONEY) -> validity_credit md col = 1.
Proof.
  destruct (cols_hinted md MONEY) as [|c cs] eqn:E.
  - unfold score_validity. rewrite E. split; [intros _ col [] | reflexivity].
  - rewrite score_validity_average by (rewrite E; discriminate). rewrite E.
    assert (Hlen : 0 < len (c :: cs)) by (apply len_pos; discriminate).
    split.
    + intros H100 col Hin.
      destruct (proj2 (validity_credit_cases md col)) as [|Hhalf];
        [assumption|]. exfalso.
      pose proof (sum_half_deficit (validity_credit md) (c :: cs) col
                    (validity_credit_range md) Hin Hhalf) as Hdef.
      assert (Hlt : Py.sum (map (validity_credit md) (c :: cs)) / len (c :: cs)
                    < 1).
      { apply Qlt_shift_div_r; [assumption | lra]. }
      lra.
    + intros Hall. rewrite sum_all_ones by exact Hall. field. lra.
Qed.

Section Validity.

Context `{Builtins} `{Pandas}.

Variable now : Z.

Lemma hinted_column (df : DataFrame) (h : SemanticHint) (c : Column) :
  In c (df_columns df) ->
  Py.get (semantic_hints (recorded now df)) (col_name c) = Some h ->
  In (col_name c) (cols_hinted (recorded now df) h).
Proof.
  intros Hin Hget. unfold cols_hinted, Py.keys.
  apply in_map_iff. exists (col_name c, h). split; [reflexivity|].
  apply filter_In. split; [now apply get_in|].
  simpl. now destruct h.
Qed.

Lemma recorded_validity (df : DataFrame) :
  unique_names df ->
  let md := recorded now df in
  (forall c, In c (df_columns df) ->
             (validity_credit md (col_name c) = 1
              <-> (is_numeric_dtype (col_dtype c) = true ->
                   Forall (fun x => 0 <= x) (numbers (col_cells c))))
             /\ (validity_credit md (col_name c) = 1
                 \/ validity_credit md (col_name c) = 1 # 2))
  /\ (score_validity md == 100
      <-> forall c, In c (df_columns df) ->
                    Py.get (semantic_hints md) (col_name c) = Some MONEY ->
                    is_numeric_dtype (col_dtype c) = true ->
                    Forall (fun x => 0 <= x) (numbers (col_cells c))).
Proof.
  intros Hnd md.
  assert (Hcredit :
            forall c, In c (df_columns df) ->
                      (validity_credit md (col_name c) = 1
                       <-> (is_numeric_dtype (col_dtype c) = true ->
                            Forall (fun x => 0 <= x) (numbers (col_cells c))))).
  { intros c Hin.
    rewrite (proj1 (validity_credit_cases md (col_name c))).
    assert (Hs : Py.get (numeric_stats md) (col_name c) = column_stats c).
    { unfold md, recorded, metadata_record. cbn [numeric_stats].
      now apply loop_fields. }
    unfold Py.get_default at 2. rewrite Hs. unfold column_stats.
    destruct (is_numeric_dtype (col_dtype c)).
    - unfold Py.get_default. cbn [Py.get String.eqb Ascii.eqb Bool.eqb].
      rewrite describe_min_nonneg. tauto.
    - split; [discriminate | reflexivity]. }
  split.
  - intros c Hin. split; [now apply Hcredit|].
    apply (validity_credit_cases md (col_name c)).
  - rewrite score_validity_full_iff. split.
    + intros Hall c Hin Hhint. apply Hcredit; [exact Hin|].
      apply Hall. now apply hinted_column.
    + intros Hall col Hcol.
      destruct (extract_hinted now df MONEY col Hcol)
        as (Hhint & c & Hin & <-).
      apply Hcredit; [exact Hin|]. now apply Hall.
Qed.

End Validity.

Section ValidityClaim.

Context `{Builtins} `{Pandas}.

(** X25.  For a table with distinct column names and no boolean column,
    [extract_metadata] returns metadata whose validity score is 100
    exactly when no MONEY-hinted column of a numeric dtype holds a
    negative number: a column gets full credit when it is not numeric or
    all its numbers are at least 0 (none at all included), and half
    credit otherwise. *)
Theorem validity_of_extraction :
  forall (now : Z) (df : DataFrame),
    unique_names df ->
    (forall c, In c (df_columns df) -> col_dtype c <> Bool) ->
    exists md,
      extract_metadata now df = Ok md
      /\ (forall c, In c (df_columns df) ->
                    (validity_credit md (col_name c) = 1
                     <-> (is_numeric_dtype (col_dtype c) = true ->
                          Forall (fun x => 0 <= x) (numbers (col_cells c))))
                    /\ (validity_credit md (col_name c) = 1
                        \/ validity_credit md (col_name c) = 1 # 2))
      /\ (score_validity md == 100
          <-> forall c, In c (df_columns df) ->
                        Py.get (semantic_hints md) (col_name c) = Some MONEY ->
                        is_numeric_dtype (col_dtype c) = true ->
                        Forall (fun x => 0 <= x) (numbers (col_cells c))).
Proof.
  intros now df Hnd Hno. apply no_bool_column in Hno.
  exists (recorded now df).
  split; [now rewrite extract_metadata_cases, Hno|].
  exact (recorded_validity now df Hnd).
Qed.

End ValidityClaim.

Lemma dummy_table_names : unique_names dummy_table.
Proof.
  unfold unique_names. simpl.
  repeat (constructor; [simpl; intuition discriminate|]). constructor.
Qed.

Lemma dummy_table_rectangular : rectangular dummy_table.
Proof. unfold rectangular. simpl. each_entry ltac:(reflexivity). Qed.

Lemma dummy_table_no_bool :
  forall c, In c (df_columns dummy_table) -> col_dtype c <> Bool.
Proof. intros c [<-|[<-|[<-|[<-|[]]]]]; discriminate. Qed.

(** The theorem at the dummy table of [ingestion.py], whose amount column
    holds -50: the column gets half credit. *)
Lemma validity_of_extraction_witness :
  exists md,
    @extract_metadata sample_builtins sample_pandas sample_now dummy_table
    = Ok md
    /\ validity_credit md "amount" = 1 # 2.
Proof.
  destruct (@validity_of_extraction sample_builtins sample_pandas sample_now
              dummy_table dummy_table_names dummy_table_no_bool)
    as (md & Hrun & Hcols & _).
  exists md. split; [exact Hrun|].
  destruct (Hcols {| col_name := "amount";
                     col_dtype := Float64;
                     col_cells := [Num (1005 # 10); Num (- (50)); Num 200;
                                   Num (1005 # 10)] |}
              (or_intror (or_introl eq_refl)))
    as [Hiff [Hfull|Hhalf]]; [|exact Hhalf].
  exfalso. apply Hiff in Hfull; [|reflexivity].
  simpl in Hfull. inversion Hfull as [|? ? _ Hrest]; subst.
  inversion Hrest as [|? ? Hneg _]; subst.
  revert Hneg. vm_compute. intros Hneg. now apply Hneg.
Defined.
(** ** dashboard.py: the outcomes of the pipeline *)

Section MetricsKeys.

Context `{Builtins} `{Pandas}.

Variable now : Z.

Lemma recorded_column_metrics_keys (st : Extracted) (c : Column) (k : string) :
  In k (Py.keys (ex_timestamp_metrics (recorded_column now st c))) ->
  k = col_name c \/ In k (Py.keys (ex_timestamp_metrics st)).
Proof.
  unfold recorded_column.
  destruct (_ || _); [destruct (metrics_of _ _)|]; simpl;
    rewrite ?keys_set_in; intuition.
Qed.

Lemma recorded_column_metrics_NoDup (st : Extracted) (c : Column) :
  NoDup (Py.keys (ex_timestamp_metrics st)) ->
  NoDup (Py.keys (ex_timestamp_metrics (recorded_column now st c))).
Proof.
  intros Hnd. unfold recorded_column.
  destruct (_ || _); [destruct (metrics_of _ _)|]; simpl;
    try apply keys_set_NoDup; assumption.
Qed.

Lemma loop_metrics_keys (cols : list Column) (st : Extracted) (k : string) :
  In k (Py.keys (ex_timestamp_metrics
                   (fold_left (recorded_column now) cols st))) ->
  In k (map col_name cols) \/ In k (Py.keys (ex_timestamp_metrics st)).
Proof.
  revert st. induction cols as [|c cols IH]; intros st Hin; simpl in *.
  - now right.
  - apply IH in Hin. destruct Hin as [Hin|Hin]; [now left; right|].
    apply recorded_column_metrics_keys in Hin.
    destruct Hin as [->|Hin]; [left; now left | now right].
Qed.

Lemma loop_metrics_NoDup (cols : list Column) (st : Extracted) :
  NoDup (Py.keys (ex_timestamp_metrics st)) ->
  NoDup (Py.keys (ex_timestamp_metrics
                    (fold_left (recorded_column now) cols st))).
Proof.
  revert st. induction cols as [|c cols IH]; intros st Hnd; simpl.
  - exact Hnd.
  - apply IH. now apply recorded_column_metrics_NoDup.
Qed.

(** An entry of the timestamp metrics of a table is the entry of one of
    its columns. *)
Lemma recorded_metric_binding (df : DataFrame) (k : string)
                              (m : TimestampMetrics) :
  unique_names df ->
  In (k, m) (timestamp_metrics (recorded now df)) ->
  exists c, In c (df_columns df) /\ column_metrics now c = Some m.
Proof.
  intros Hnd Hin.
  assert (Hget : Py.get (timestamp_metrics (recorded now df)) k = Some m).
  { apply get_of_binding; [|exact Hin].
    unfold recorded, metadata_record. cbn [timestamp_metrics].
    apply loop_metrics_NoDup. constructor. }
  assert (Hk : In k (map col_name (df_columns df))).
  { assert (Hkey : In k (Py.keys (timestamp_metrics (recorded now df)))).
    { unfold Py.keys. apply in_map_iff. now exists (k, m). }
    unfold recorded, metadata_record in Hkey. cbn [timestamp_metrics] in Hkey.
    apply loop_metrics_keys in Hkey. destruct Hkey as [Hkey|[]]. exact Hkey. }
  apply in_map_iff in Hk. destruct Hk as (c & <- & Hc).
  exists c. split; [exact Hc|].
  destruct (recorded_fields now df c Hnd Hc) as (_ & _ & _ & _ & _ & Hts & _).
  congruence.
Qed.

Lemma naive_recorded_iff (df : DataFrame) :
  unique_names df ->
  (naive (recorded now df) <-> ~ converts_aware now df).
Proof.
  intros Hnd. unfold naive, converts_aware. split.
  - intros Hn (c & m & Hc & Hm & Ha).
    destruct (recorded_fields now df c Hnd Hc)
      as (_ & _ & _ & _ & _ & Hts & _).
    rewrite Hm in Hts. apply get_in in Hts.
    rewrite Forall_forall in Hn. specialize (Hn _ Hts). simpl in Hn.
    congruence.
  - intros Hno. apply Forall_forall. intros [k m] Hin. simpl.
    destruct (tz_aware m) eqn:Ea; [|reflexivity].
    exfalso. apply Hno.
    destruct (recorded_metric_binding df k m Hnd Hin) as (c & Hc & Hm).
    now exists c, m.
Qed.

End MetricsKeys.

Section PipelineRange.

Context `{Builtins} `{Pandas}.

(** X26.  The outcomes of [process_data] for a rectangular table with
    distinct column names, at any readings of the clock.  It raises the
    [KeyError] of the entry [min] exactly when the table has a boolean
    column; it raises [TypeError] exactly when the table has none and some
    column gets timestamp metrics whose instants carry a time zone; in
    every other case it returns the metadata of the table, the seven
    dimension scores, each between 0 and 100, and a base score between 0
    and 100. *)
Theorem pipeline_scores_in_range :
  forall (read_at now : Z) (df : DataFrame),
    rectangular df -> unique_names df ->
    (process_data read_at now df = Raise (KeyError "min")
     <-> boolean_column df)
    /\ (process_data read_at now df = Raise TypeError
        <-> ~ boolean_column df /\ converts_aware read_at df)
    /\ (~ boolean_column df -> ~ converts_aware read_at df ->
        exists md scores b,
          process_data read_at now df = Ok (md, scores, b)
          /\ extract_metadata read_at df = Ok md
          /\ Py.keys scores = required_dimensions
          /\ Forall (in_range 0 100) (Py.values scores)
          /\ in_range 0 100 b).
Proof.
  intros read_at now df Hrect Hnd.
  pose proof (naive_recorded_iff read_at df Hnd) as Hnaive.
  assert (Hbool : has_bool_column df = true <-> boolean_column df).
  { unfold boolean_column. destruct (has_bool_column df) eqn:Hb.
    - split; [intros _ | reflexivity].
      unfold has_bool_column in Hb. apply existsb_exists in Hb.
      destruct Hb as (c & Hc & Hd). exists c. split; [exact Hc|].
      now destruct (col_dtype c).
    - split; [discriminate|]. intros (c & Hc & Hd).
      exfalso. exact (proj1 (no_bool_column df) Hb c Hc Hd). }
  assert (Hret : has_bool_column df = false -> naive (recorded read_at df) ->
                 exists md scores b,
                   process_data read_at now df = Ok (md, scores, b)
                   /\ extract_metadata read_at df = Ok md
                   /\ Py.keys scores = required_dimensions
                   /\ Forall (in_range 0 100) (Py.values scores)
                   /\ in_range 0 100 b).
  { intros Hb Hn.
    destruct (proj1 (calculate_all_dimensions_range now (recorded read_at df)
                       (extract_invariants read_at df Hrect)) Hn)
      as (scores & Hdims & Hkeys & Hrange).
    destruct (base_default_range scores Hrange) as (b & Hbase & Hb').
    exists (recorded read_at df), scores, b. unfold process_data.
    rewrite extract_metadata_cases, Hb. cbn [Py.bind].
    rewrite Hdims. cbn [Py.bind]. rewrite Hbase. cbn [Py.bind]. auto. }
  destruct (has_bool_column df) eqn:Hb.
  - rewrite (process_data_bool read_at now df Hb).
    assert (Hyes : boolean_column df) by now apply Hbool.
    split; [tauto|]. split; [|tauto].
    split; [discriminate | tauto].
  - assert (Hno : ~ boolean_column df).
    { intros Hyes. apply Hbool in Hyes. discriminate. }
    destruct (naive_dec (recorded read_at df)) as [Hn|Hn].
    + destruct (Hret eq_refl Hn) as (md & scores & b & Hrun & Hrest).
      rewrite Hrun. split; [split; [discriminate | tauto]|].
      split; [split; [discriminate|]|].
      * intros [_ Haw]. apply Hnaive in Hn. contradiction.
      * intros _ _. exists md, scores, b. auto.
    + rewrite (process_data_aware read_at now df Hb Hn).
      split; [split; [discriminate | tauto]|].
      assert (Haw : ~ ~ converts_aware read_at df) by tauto.
      split.
      * split; [intros _ | reflexivity]. split; [exact Hno|].
        destruct (existsb
                    (fun kv => tz_aware (snd kv))
                    (timestamp_metrics (recorded read_at df))) eqn:E.
        -- apply existsb_exists in E. destruct E as ([k m] & Hin & Ha).
           destruct (recorded_metric_binding read_at df k m Hnd Hin)
             as (c & Hc & Hm).
           now exists c, m.
        -- apply naive_iff in E. contradiction.
      * intros _ Hnot. contradiction.
Qed.

End PipelineRange.

Lemma flags_table_rectangular : rectangular flags_table.
Proof. unfold rectangular. simpl. each_entry ltac:(reflexivity). Qed.

Lemma utc_table_rectangular : rectangular utc_table.
Proof. unfold rectangular. simpl. each_entry ltac:(reflexivity). Qed.

Lemma utc_table_names : unique_names utc_table.
Proof.
  unfold unique_names. simpl.
  repeat (constructor; [simpl; intuition discriminate|]). constructor.
Qed.

(** The theorem at the table with a column of truth values, at the table
    whose date is written with the UTC designator, and at the dummy
    table of [ingestion.py]. *)
Lemma pipeline_scores_in_range_witness :
  @process_data sample_builtins sample_pandas sample_now sample_now flags_table
  = Raise (KeyError "min")
  /\ @process_data sample_builtins sample_pandas sample_now sample_now
                   utc_table
     = Raise TypeError
  /\ exists md scores b,
       @process_data sample_builtins sample_pandas sample_now sample_now
                     dummy_table
       = Ok (md, scores, b)
       /\ @extract_metadata sample_builtins sample_pandas sample_now dummy_table
          = Ok md
       /\ Py.keys scores = required_dimensions
       /\ Forall (in_range 0 100) (Py.values scores)
       /\ in_range 0 100 b.
Proof.
  pose proof (@pipeline_scores_in_range sample_builtins sample_pandas
                sample_now sample_now) as Hthm.
  split; [|split].
  - apply (proj1 (Hthm flags_table flags_table_rectangular flags_table_names)).
    eexists. split; [right; left; reflexivity | reflexivity].
  - apply (proj1 (proj2 (Hthm utc_table utc_table_rectangular
                           utc_table_names))).
    split.
    + intros (c & [<-|[<-|[]]] & Hd); discriminate.
    + eexists. eexists. split; [right; left; reflexivity|].
      split; [vm_compute; reflexivity | reflexivity].
  - apply (proj2 (proj2 (Hthm dummy_table dummy_table_rectangular
                           dummy_table_names))).
    + intros (c & Hc & Hd). exact (dummy_table_no_bool c Hc Hd).
    + intros (c & m & [<-|[<-|[<-|[<-|[]]]]] & Hm & Ha);
        vm_compute in Hm; try discriminate.
      injection Hm as <-. discriminate.
Defined.

(** ** ingestion.py: the outcomes of [load_dataset] *)

Section Loading.

Context `{Pandas}.

(** X27.  [load_dataset] returns a table exactly when the source ends in
    [.csv], the file is read, and the table read is not empty; the table
    returned is the one read.  Everything else is a [ValueError]: for a
    source that does not end in [.csv], without the file being read. *)
Theorem load_dataset_outcomes :
  forall source : string,
    (forall df,
        load_dataset source = Ok df
        <-> endswith source ".csv" = true
            /\ read_csv source = Some df
            /\ df_empty df = false)
    /\ (forall e, load_dataset source = Raise e -> exists why, e = ValueError why)
    /\ (endswith source ".csv" = false ->
        load_dataset source = Raise (ValueError UnsupportedFormat))
    /\ (endswith source ".csv" = true -> read_csv source = None ->
        load_dataset source = Raise (ValueError LoadFailed)).
Proof.
  intros source. unfold load_dataset.
  destruct (endswith source ".csv"); simpl.
  - destruct (read_csv source) as [df'|].
    + destruct (df_empty df') eqn:E.
      * split; [|split; [|split]].
        -- intros df. split; [discriminate|].
           intros (_ & [= <-] & E'). congruence.
        -- intros e [= <-]. eexists; reflexivity.
        -- discriminate.
        -- discriminate.
      * split; [|split; [|split]].
        -- intros df. split.
           ++ intros [= <-]. auto.
           ++ intros (_ & [= <-] & _). reflexivity.
        -- discriminate.
        -- discriminate.
        -- discriminate.
    + split; [|split; [|split]].
      * intros df. split; [discriminate | intros (_ & Hr & _); discriminate].
      * intros e [= <-]. eexists; reflexivity.
      * discriminate.
      * reflexivity.
  - split; [|split; [|split]].
    + intros df. split; [discriminate | intros (Hc & _); discriminate].
    + intros e [= <-]. eexists; reflexivity.
    + reflexivity.
    + discriminate.
Qed.

End Loading.

(** ** ingestion.py: the hint of a column name *)

Lemma lower_ascii_idempotent (c : ascii) :
  lower_ascii (lower_ascii c) = lower_ascii c.
Proof.
  unfold lower_ascii.
  destruct ((65 <=? nat_of_ascii c)%nat && (nat_of_ascii c <=? 90)%nat) eqn:E.
  - apply andb_prop in E. destruct E as [E1 E2].
    apply Nat.leb_le in E1, E2.
    rewrite nat_ascii_embedding by lia.
    destruct (Nat.leb_spec (nat_of_ascii c + 32) 90); [lia|].
    now rewrite andb_false_r.
  - now rewrite E.
Qed.

Lemma lower_idempotent (s : string) : lower (lower s) = lower s.
Proof.
  induction s as [|c s IH]; simpl; [reflexivity|].
  now rewrite lower_ascii_idempotent, IH.
Qed.

(** X28.  The hint of a column depends only on its name with every letter in
    lower case: neither the case of the letters nor the type descriptor
    matters.  The hint is UNKNOWN exactly when the lower-cased name
    contains none of the thirteen keywords, and ID as soon as it contains
    [id], [code] or [number], whatever else it contains. *)
Theorem semantic_hint_of_name :
  forall name dtype dtype' : string,
    _infer_semantic_hint name dtype = _infer_semantic_hint (lower name) dtype'
    /\ (_infer_semantic_hint name dtype = UNKNOWN
        <-> forallb (fun word => negb (contains word (lower name)))
                    ["id"; "code"; "number"; "amount"; "price"; "balance";
                     "fee"; "date"; "time"; "created"; "status"; "state";
                     "type"]%string = true)
    /\ (_infer_semantic_hint name dtype = ID
        <-> existsb (fun word => contains word (lower name))
                    ["id"; "code"; "number"]%string = true).
Proof.
  intros name dtype dtype'. unfold _infer_semantic_hint.
  rewrite lower_idempotent. split; [reflexivity|].
  cbn [forallb existsb].
  destruct (contains "id" (lower name)), (contains "code" (lower name)),
           (contains "number" (lower name)), (contains "amount" (lower name)),
           (contains "price" (lower name)), (contains "balance" (lower name)),
           (contains "fee" (lower name)), (contains "date" (lower name)),
           (contains "time" (lower name)), (contains "created" (lower name)),
           (contains "status" (lower name)), (contains "state" (lower name)),
           (contains "type" (lower name));
    simpl; split; split; (reflexivity || discriminate).
Qed.
